(** * Katana-ai: the t-shirt design analysis pipeline

    A shallow embedding of the Python services of the repository
    (services/image_service.py, services/gemini_service.py,
    services/market_service.py, services/analysis_service.py and
    config/market_data.py) together with the properties the specification
    states about them.

    Conventions of the embedding.
    - A Python [float] is a rational number ([Q]): every finite float is one,
      and the arithmetic is taken exact, so overflow, [inf] and [nan] do not
      occur.  Statements about numbers use [Qeq] ([==]).  [round(x, n)] is
      round-half-to-even on the decimal scaled value, the rule Python
      applies to the exact value of [x].
    - A Python [str] is a [string], a sequence of code points below 256;
      [bytes] is a [list byte].
    - A raised exception is a value of [exn]; a function that may raise
      returns a [result].  Only exceptions derived from [Exception] occur.
    - The calls to the Gemini model are threaded through an explicit log of
      the requests made so far.
    - Calls to [logger] have no effect on the results and are left out. *)

From Stdlib Require Import ZArith QArith Qround Qminmax Lia Lqa.
From Stdlib Require Import List String Ascii Bool.
From Stdlib Require Import Strings.Byte.
Import ListNotations.

Local Open Scope string_scope.

(* ================================================================== *)
(** ** Python strings *)
(* ================================================================== *)

Module PyStr.

(** [c.isspace()] on the code points below 256. *)
Definition isspace (c : ascii) : bool :=
  let n := nat_of_ascii c in
  ((9 <=? n) && (n <=? 13) || (28 <=? n) && (n <=? 32)
   || (n =? 133) || (n =? 160))%nat.

Fixpoint lstrip (s : string) : string :=
  match s with
  | EmptyString => EmptyString
  | String c s' => if isspace c then lstrip s' else s
  end.

Fixpoint rstrip (s : string) : string :=
  match s with
  | EmptyString => EmptyString
  | String c s' =>
      match rstrip s' with
      | EmptyString => if isspace c then EmptyString else String c EmptyString
      | r => String c r
      end
  end.

(** [s.strip()] *)
Definition strip (s : string) : string := rstrip (lstrip s).

Fixpoint drop (n : nat) (s : string) : string :=
  match n, s with
  | O, _ => s
  | S n', String _ s' => drop n' s'
  | S _, EmptyString => EmptyString
  end.

Fixpoint take (n : nat) (s : string) : string :=
  match n, s with
  | O, _ => EmptyString
  | S n', String c s' => String c (take n' s')
  | S _, EmptyString => EmptyString
  end.

(** [s.startswith(sub)] *)
Fixpoint startswith (s sub : string) {struct sub} : bool :=
  match sub with
  | EmptyString => true
  | String a sub' =>
      match s with
      | EmptyString => false
      | String b s' => Ascii.eqb a b && startswith s' sub'
      end
  end.

(** First position at which [sub] occurs in [s]. *)
Fixpoint find_sub (sub s : string) : option nat :=
  if startswith s sub then Some O
  else match s with
       | EmptyString => None
       | String _ s' => option_map S (find_sub sub s')
       end.

(** [sub in s] *)
Definition contains (sub s : string) : bool :=
  match find_sub sub s with Some _ => true | None => false end.

(** A slice bound as Python normalises it: a negative bound counts from
    the end, and the bound is clamped to [0, len]. *)
Definition norm_index (len : nat) (i : Z) : nat :=
  let l := Z.of_nat len in
  let i' := if (i <? 0)%Z then (i + l)%Z else i in
  Z.to_nat (Z.min l (Z.max 0 i')).

(** [s.find(sub, start)]: the position of the first occurrence at or
    after [start], or [-1]. *)
Definition find (s sub : string) (start : Z) : Z :=
  let st := norm_index (String.length s) start in
  if (Z.of_nat (String.length s) <? start)%Z then (-1)%Z
  else match find_sub sub (drop st s) with
       | Some i => Z.of_nat (st + i)
       | None => (-1)%Z
       end.

(** [s[start:stop]] *)
Definition slice (s : string) (start stop : Z) : string :=
  let a := norm_index (String.length s) start in
  let b := norm_index (String.length s) stop in
  take (b - a) (drop a s).

Definition lower_char (c : ascii) : ascii :=
  let n := nat_of_ascii c in
  if ((65 <=? n) && (n <=? 90))%nat then ascii_of_nat (n + 32) else c.

(** [s.lower()] on ASCII letters. *)
Fixpoint lower (s : string) : string :=
  match s with
  | EmptyString => EmptyString
  | String c s' => String (lower_char c) (lower s')
  end.

Fixpoint last_char (s : string) : option ascii :=
  match s with
  | EmptyString => None
  | String c EmptyString => Some c
  | String _ s' => last_char s'
  end.

Definition first_char (s : string) : option ascii :=
  match s with
  | EmptyString => None
  | String c _ => Some c
  end.

Definition upper_char (c : ascii) : ascii :=
  let n := nat_of_ascii c in
  if ((97 <=? n) && (n <=? 122))%nat then ascii_of_nat (n - 32) else c.

(** [s.upper()] on ASCII text. *)
Fixpoint upper (s : string) : string :=
  match s with
  | EmptyString => EmptyString
  | String c s' => String (upper_char c) (upper s')
  end.

(** The text has ASCII characters only. *)
Fixpoint is_ascii (s : string) : bool :=
  match s with
  | EmptyString => true
  | String c s' => (nat_of_ascii c <? 128)%nat && is_ascii s'
  end.

(** [s.split(sep)] for a separator of one character. *)
Fixpoint split (sep : ascii) (s : string) : list string :=
  match s with
  | EmptyString => [EmptyString]
  | String c s' =>
      if Ascii.eqb c sep then EmptyString :: split sep s'
      else
        match split sep s' with
        | w :: ws => String c w :: ws
        | [] => [String c EmptyString]
        end
  end.

(** [sep.join(items)] *)
Fixpoint join (sep : string) (items : list string) : string :=
  match items with
  | [] => EmptyString
  | [x] => x
  | x :: rest => x ++ sep ++ join sep rest
  end.

(** The text is made of white space only. *)
Fixpoint blank (s : string) : bool :=
  match s with
  | EmptyString => true
  | String c s' => isspace c && blank s'
  end.

End PyStr.

(* ================================================================== *)
(** ** Python numbers *)
(* ================================================================== *)

Module PyNum.

Local Open Scope Q_scope.

(** Round to the nearest integer, ties to the even one. *)
Definition round_half_even (x : Q) : Z :=
  let f := Qfloor x in
  match Qcompare (x - inject_Z f) (1 # 2) with
  | Lt => f
  | Gt => (f + 1)%Z
  | Eq => if Z.even f then f else (f + 1)%Z
  end.

(** [round(x, ndigits)] for [ndigits >= 1]. *)
Definition round (x : Q) (ndigits : nat) : Q :=
  let scale := Z.pow 10 (Z.of_nat ndigits) in
  inject_Z (round_half_even (x * inject_Z scale)) / inject_Z scale.

(** [min(a, b)]: Python answers [a] unless [b < a]. *)
Definition min (a b : Q) : Q := if Qlt_le_dec b a then b else a.

(** [max(a, b)]: Python answers [a] unless [b > a]. *)
Definition max (a b : Q) : Q := if Qlt_le_dec a b then b else a.

(** [sum(xs)] *)
Definition sum (xs : list Q) : Q := fold_left Qplus xs 0.

(** [int(x)] for a float: truncation towards zero. *)
Definition trunc (x : Q) : Z := Z.quot (Qnum x) (Zpos (Qden x)).

End PyNum.

(* ================================================================== *)
(** ** Values, exceptions and effects *)
(* ================================================================== *)

(** What [json.loads] produces: the Python values a decoded response is
    made of.  A [dict] keeps its keys in insertion order. *)
#[warnings="-register-all"]
Inductive json : Type :=
  | JNull
  | JBool (b : bool)
  | JNum (q : Q)
  | JStr (s : string)
  | JArr (items : list json)
  | JObj (fields : list (string * json)).

(** [d.get(k)] on a dict held as an association list. *)
Fixpoint dict_get {V : Type} (d : list (string * V)) (k : string) : option V :=
  match d with
  | [] => None
  | (k', v) :: d' => if String.eqb k k' then Some v else dict_get d' k
  end.

(** [k in d] *)
Definition dict_mem {V : Type} (d : list (string * V)) (k : string) : bool :=
  match dict_get d k with Some _ => true | None => false end.

(** [d.get(k, default)] *)
Definition dict_get_default {V : Type} (d : list (string * V)) (k : string)
    (default : V) : V :=
  match dict_get d k with Some v => v | None => default end.

(** utils/exceptions.py, and the built-in exception classes the services
    meet.  All of them derive from [Exception]. *)
Inductive exn_class : Type :=
  | ImageProcessingError
  | AIServiceError
  | AnalysisServiceError
  | ValidationError
  | JSONDecodeError
  | AttributeError
  | TypeError
  | ValueError
  | KeyError
  | ZeroDivisionError
  | ExternalError.   (* raised inside Pillow or the Gemini client *)

(** An exception value: its class and [str(e)]. *)
Record exn : Type := Exn { exn_kind : exn_class; exn_msg : string }.

Inductive result (A : Type) : Type :=
  | Ok (a : A)
  | Raise (e : exn).

Arguments Ok {A} a.
Arguments Raise {A} e.

Definition is_ok {A} (r : result A) : bool :=
  match r with Ok _ => true | Raise _ => false end.

Definition exn_class_eqb (a b : exn_class) : bool :=
  match a, b with
  | ImageProcessingError, ImageProcessingError
  | AIServiceError, AIServiceError
  | AnalysisServiceError, AnalysisServiceError
  | ValidationError, ValidationError
  | JSONDecodeError, JSONDecodeError
  | AttributeError, AttributeError
  | TypeError, TypeError
  | ValueError, ValueError
  | KeyError, KeyError
  | ZeroDivisionError, ZeroDivisionError
  | ExternalError, ExternalError => true
  | _, _ => false
  end.

(** One request to [model.generate_content]: the prompt, and for the
    vision call the image part (mime type, base64 data). *)
Record request : Type := Request {
  req_prompt : string;
  req_image : option (string * string)
}.

(** The requests sent to the model so far, oldest first. *)
Definition ai_log : Type := list request.

(** A computation that may call the model and may raise. *)
Definition M (A : Type) : Type := ai_log -> result A * ai_log.

Definition ret {A} (a : A) : M A := fun w => (Ok a, w).

Definition raise {A} (e : exn) : M A := fun w => (Raise e, w).

Definition bind {A B} (m : M A) (k : A -> M B) : M B :=
  fun w =>
    match m w with
    | (Ok a, w') => k a w'
    | (Raise e, w') => (Raise e, w')
    end.

(** A step that cannot call the model. *)
Definition lift {A} (r : result A) : M A := fun w => (r, w).

(** [try: body except Exception as e: handler(e)] *)
Definition try_except {A} (body : M A) (handler : exn -> M A) : M A :=
  fun w =>
    match body w with
    | (Ok a, w') => (Ok a, w')
    | (Raise e, w') => handler e w'
    end.

(** [asyncio.gather] with [return_exceptions=True]: every task runs to
    its own outcome, and the outcomes come back in the order of the tasks.
    The interleaving of the awaited calls is not modelled: task [i] makes
    its calls after task [i-1]. *)
Fixpoint gather {A} (tasks : list (M A)) : ai_log -> list (result A) * ai_log :=
  fun w =>
    match tasks with
    | [] => ([], w)
    | t :: ts =>
        let (r, w1) := t w in
        let (rs, w2) := gather ts w1 in
        (r :: rs, w2)
    end.

Declare Scope py_scope.
Delimit Scope py_scope with py.
Notation "x <- m ;; k" := (bind m (fun x => k))
  (at level 61, m at next level, right associativity) : py_scope.

(** The same sequencing for steps without effects. *)
Definition rbind {A B} (r : result A) (k : A -> result B) : result B :=
  match r with
  | Ok a => k a
  | Raise e => Raise e
  end.

Notation "'let?' x := r 'in' k" := (rbind r (fun x => k))
  (at level 10, x pattern, r at level 100, k at level 200).

(* ================================================================== *)
(** ** config/settings.py and config/market_data.py *)
(* ================================================================== *)

Record Settings : Type := {
  max_file_size : Z;
  max_image_dimension : Z
}.

(** The defaults of the [Settings] class. *)
Definition default_settings : Settings :=
  {| max_file_size := 5 * 1024 * 1024; max_image_dimension := 1024 |}.

Record MarketEntry : Type := {
  base_price_range : Z * Z;
  market_size : string;
  currency : string;
  trends : list string;
  demographics : list string;
  seasonal_peaks : list string;
  competition_level : string;
  market_maturity : string
}.

Definition MARKET_DATA : list (string * MarketEntry) :=
  [ ("USA",
     {| base_price_range := (15, 35)%Z; market_size := "large";
        currency := "USD";
        trends := ["sustainability"; "minimalism"; "vintage"; "streetwear"];
        demographics := ["gen_z"; "millennials"; "gen_x"];
        seasonal_peaks := ["summer"; "back_to_school"; "holidays"];
        competition_level := "high"; market_maturity := "mature" |});
    ("India",
     {| base_price_range := (5, 15)%Z; market_size := "massive";
        currency := "INR";
        trends := ["bollywood"; "cricket"; "festivals"; "regional_pride"];
        demographics := ["youth"; "millennials"];
        seasonal_peaks := ["festivals"; "cricket_season"; "summer"];
        competition_level := "high"; market_maturity := "growing" |});
    ("UK",
     {| base_price_range := (12, 28)%Z; market_size := "medium";
        currency := "GBP";
        trends := ["british_humor"; "football"; "music"; "royal_themes"];
        demographics := ["millennials"; "gen_x"];
        seasonal_peaks := ["summer"; "football_season"];
        competition_level := "medium"; market_maturity := "mature" |});
    ("Germany",
     {| base_price_range := (18, 40)%Z; market_size := "medium";
        currency := "EUR";
        trends := ["quality"; "minimalism"; "eco_friendly"; "engineering"];
        demographics := ["millennials"; "gen_x"];
        seasonal_peaks := ["summer"; "oktoberfest"];
        competition_level := "medium"; market_maturity := "mature" |});
    ("Japan",
     {| base_price_range := (20, 45)%Z; market_size := "medium";
        currency := "JPY";
        trends := ["anime"; "kawaii"; "tech"; "minimalism"];
        demographics := ["youth"; "otaku"; "salarymen"];
        seasonal_peaks := ["summer"; "manga_releases"; "tech_events"];
        competition_level := "high"; market_maturity := "mature" |});
    ("Brazil",
     {| base_price_range := (8, 20)%Z; market_size := "large";
        currency := "BRL";
        trends := ["football"; "carnival"; "beach"; "music"];
        demographics := ["youth"; "sports_fans"];
        seasonal_peaks := ["summer"; "world_cup"; "carnival"];
        competition_level := "medium"; market_maturity := "growing" |});
    ("Australia",
     {| base_price_range := (16, 38)%Z; market_size := "medium";
        currency := "AUD";
        trends := ["surf"; "outdoor"; "casual"; "sports"];
        demographics := ["millennials"; "outdoor_enthusiasts"];
        seasonal_peaks := ["summer"; "sports_season"];
        competition_level := "medium"; market_maturity := "mature" |});
    ("Canada",
     {| base_price_range := (14, 32)%Z; market_size := "medium";
        currency := "CAD";
        trends := ["hockey"; "nature"; "maple"; "winter_sports"];
        demographics := ["millennials"; "gen_x"];
        seasonal_peaks := ["summer"; "hockey_season"; "winter_olympics"];
        competition_level := "medium"; market_maturity := "mature" |}) ].

(* ================================================================== *)
(** ** models/data_models.py *)
(* ================================================================== *)

(** The fields the services copy from the decoded response without a
    conversion hold whatever value the model sent, hence [json]. *)
Record DesignFeatures : Type := {
  style_category : json;
  color_palette : json;
  design_complexity : json;
  target_demographic : json;
  theme_category : json;
  visual_appeal_score : Q;
  uniqueness_score : Q;
  brand_potential : json;
  typography_quality : json;
  graphic_elements : json
}.

(** The dict [calculate_pricing] returns. *)
Record PriceRange : Type := {
  price_min : Q;
  price_max : Q;
  price_recommended : Q;
  price_currency : string
}.

Record MarketAnalysis : Type := {
  location : string;
  market_score : Q;
  demand_level : json;
  price_range : PriceRange;
  ma_competition_level : json;
  seasonal_trends : json;
  target_age_groups : json;
  estimated_monthly_sales : Z;
  market_trends : json;
  success_probability : Q;
  risk_factors : json;
  opportunities : json
}.

Record AnalysisResult : Type := {
  design_features : DesignFeatures;
  market_analysis : list MarketAnalysis;
  overall_score : Q;
  recommendations : json;
  analysis_timestamp : string;
  confidence_score : option Q
}.

(* ================================================================== *)
(** ** What the services use and the repository does not define *)
(* ================================================================== *)

(** A decoded picture as Pillow presents it. *)
Record Image : Type := {
  img_format : option string;
  img_mode : string;
  img_size : Z * Z
}.

(** The libraries and the environment behind the services.  Every
    statement below holds for every instance of this class. *)
Class Externals : Type := {
  settings : Settings;
  (* Pillow *)
  Image_open : list byte -> result Image;
  Image_convert : Image -> string -> result Image;
  Image_resize : Image -> Z * Z -> result Image;
  Image_save_jpeg : Image -> result (list byte);
  (* the Gemini client: the text of the response to a request, given the
     requests made before it *)
  generate_content : ai_log -> request -> result string;
  (* the standard library; a float operation gives equal results on
     equal numbers *)
  json_loads : string -> option json;
  b64encode : list byte -> string;
  str_to_float : string -> option Q;
  str_to_int : string -> option Z;
  float_sqrt : Q -> Q;
  float_sqrt_proper :
    forall x y : Q, (x == y)%Q -> (float_sqrt x == float_sqrt y)%Q;
  strftime_now : string;
  (* the text CPython gives a built-in exception raised on a value *)
  runtime_message : exn_class -> json -> string;
  (* the prompt templates of gemini_service.py *)
  design_analysis_prompt : string;
  market_analysis_prompt :
    DesignFeatures -> string -> MarketEntry -> result string;
  recommendations_prompt :
    DesignFeatures -> list MarketAnalysis -> result string
}.

(* ================================================================== *)
(** ** Built-in operations on decoded values *)
(* ================================================================== *)

Section Builtins.
Context `{Externals}.

Definition runtime_error {A} (c : exn_class) (v : json) : result A :=
  Raise (Exn c (runtime_message c v)).

(** [v.get(k, default)]: only a dict has the method. *)
Definition py_get (v : json) (k : string) (default : json) : result json :=
  match v with
  | JObj d => Ok (dict_get_default d k default)
  | _ => runtime_error AttributeError v
  end.

(** [d[k]] *)
Definition dict_index {V : Type} (d : list (string * V)) (k : string)
  : result V :=
  match dict_get d k with
  | Some v => Ok v
  | None => runtime_error KeyError (JStr k)
  end.

(** [float(v)] *)
Definition py_float (v : json) : result Q :=
  match v with
  | JNum q => Ok q
  | JBool b => Ok (if b then 1 else 0)%Q
  | JStr s =>
      match str_to_float s with
      | Some q => Ok q
      | None => runtime_error ValueError v
      end
  | _ => runtime_error TypeError v
  end.

(** [int(v)] *)
Definition py_int (v : json) : result Z :=
  match v with
  | JNum q => Ok (PyNum.trunc q)
  | JBool b => Ok (if b then 1 else 0)%Z
  | JStr s =>
      match str_to_int s with
      | Some z => Ok z
      | None => runtime_error ValueError v
      end
  | _ => runtime_error TypeError v
  end.

(** The left operand of [v / 75.0]: a number, or [TypeError]. *)
Definition py_number (v : json) : result Q :=
  match v with
  | JNum q => Ok q
  | JBool b => Ok (if b then 1 else 0)%Q
  | _ => runtime_error TypeError v
  end.

(** [model.generate_content(...)] followed by [response.text]. *)
Definition call_model (req : request) : M string :=
  fun w => (generate_content w req, (w ++ [req])%list).

End Builtins.

(* ================================================================== *)
(** ** services/image_service.py *)
(* ================================================================== *)

Module ImageService.
Section Defs.
Context `{Externals}.

Definition supported : list string := ["jpeg"; "jpg"; "png"; "webp"].

Definition validate_image_body (image_data : list byte) : result bool :=
  if (max_file_size settings <? Z.of_nat (List.length image_data))%Z then
    Raise (Exn ImageProcessingError "File size exceeds maximum limit")
  else
    let? image := Image_open image_data in
    let? fmt :=
      match img_format image with
      | Some f => Ok (PyStr.lower f)
      | None => runtime_error AttributeError JNull
      end in
    if negb (existsb (String.eqb fmt) supported) then
      Raise (Exn ImageProcessingError "Unsupported image format")
    else if (Z.max (fst (img_size image)) (snd (img_size image)) <? 100)%Z then
      Raise (Exn ImageProcessingError "Image too small (minimum 100px)")
    else Ok true.

Definition validate_image (image_data : list byte) (filename : string)
  : result bool :=
  match validate_image_body image_data with
  | Ok b => Ok b
  | Raise e =>
      if exn_class_eqb (exn_kind e) ImageProcessingError then Raise e
      else Raise (Exn ImageProcessingError
                    ("Invalid image file: " ++ exn_msg e))
  end.

Definition process_image_body (image_data : list byte)
  : result (list byte * (Z * Z)) :=
  let? image := Image_open image_data in
  let? image :=
    if String.eqb (img_mode image) "RGB" then Ok image
    else Image_convert image "RGB" in
  let max_dim := max_image_dimension settings in
  let longest := Z.max (fst (img_size image)) (snd (img_size image)) in
  let? image :=
    if (max_dim <? longest)%Z then
      if (longest =? 0)%Z then runtime_error ZeroDivisionError JNull
      else
        let ratio := (inject_Z max_dim / inject_Z longest)%Q in
        let new_size :=
          (PyNum.trunc (inject_Z (fst (img_size image)) * ratio),
           PyNum.trunc (inject_Z (snd (img_size image)) * ratio)) in
        Image_resize image new_size
    else Ok image in
  let? processed_data := Image_save_jpeg image in
  Ok (processed_data, img_size image).

Definition process_image (image_data : list byte)
  : result (list byte * (Z * Z)) :=
  match process_image_body image_data with
  | Ok r => Ok r
  | Raise e =>
      Raise (Exn ImageProcessingError
               ("Image processing failed: " ++ exn_msg e))
  end.

End Defs.
End ImageService.

(* ================================================================== *)
(** ** services/gemini_service.py *)
(* ================================================================== *)

Module GeminiService.
Section Defs.
Context `{Externals}.

Local Open Scope py_scope.

Definition fence : string := "```".
Definition json_fence : string := "```json".

(** The text handed to [json.loads]: the response without surrounding
    white space and without its markdown fence. *)
Definition clean_response_text (response_text : string) : string :=
  let text := PyStr.strip response_text in
  if PyStr.contains json_fence text then
    let start := (PyStr.find text json_fence 0 + 7)%Z in
    let stop := PyStr.find text fence start in
    PyStr.strip (PyStr.slice text start stop)
  else if PyStr.contains fence text then
    let start := (PyStr.find text fence 0 + 3)%Z in
    let stop := PyStr.find text fence start in
    PyStr.strip (PyStr.slice text start stop)
  else text.

Definition _parse_json_response (response_text : string) : result json :=
  match json_loads (clean_response_text response_text) with
  | Some v => Ok v
  | None => Raise (Exn AIServiceError "Invalid JSON response from AI service")
  end.

Definition design_features_of (analysis_data : json) : result DesignFeatures :=
  let? style := py_get analysis_data "style_category" (JStr "modern") in
  let? palette := py_get analysis_data "color_palette" (JArr [JStr "unknown"]) in
  let? complexity := py_get analysis_data "design_complexity" (JStr "moderate") in
  let? demographic := py_get analysis_data "target_demographic" (JStr "millennials") in
  let? theme := py_get analysis_data "theme_category" (JStr "abstract") in
  let? appeal_raw := py_get analysis_data "visual_appeal_score" (JNum 75) in
  let? appeal := py_float appeal_raw in
  let? uniqueness_raw := py_get analysis_data "uniqueness_score" (JNum 70) in
  let? uniqueness := py_float uniqueness_raw in
  let? brand := py_get analysis_data "brand_potential" (JStr "medium") in
  let? typography := py_get analysis_data "typography_quality" JNull in
  let? graphics := py_get analysis_data "graphic_elements" (JArr []) in
  Ok {| style_category := style;
        color_palette := palette;
        design_complexity := complexity;
        target_demographic := demographic;
        theme_category := theme;
        visual_appeal_score := appeal;
        uniqueness_score := uniqueness;
        brand_potential := brand;
        typography_quality := typography;
        graphic_elements := graphics |}.

Definition analyze_design_image (image_data : list byte) : M DesignFeatures :=
  try_except
    (let image_base64 := b64encode image_data in
     let prompt := design_analysis_prompt in
     let image_part := ("image/jpeg", image_base64) in
     text <- call_model (Request prompt (Some image_part)) ;;
     analysis_data <- lift (_parse_json_response text) ;;
     lift (design_features_of analysis_data))
    (fun e =>
       raise (Exn AIServiceError ("Design analysis failed: " ++ exn_msg e))).

Definition generate_market_analysis (design_features : DesignFeatures)
    (location : string) (market_context : MarketEntry) : M json :=
  try_except
    (prompt <- lift (market_analysis_prompt design_features location
                       market_context) ;;
     text <- call_model (Request prompt None) ;;
     lift (_parse_json_response text))
    (fun e =>
       raise (Exn AIServiceError
                ("Market analysis failed for " ++ location ++ ": "
                 ++ exn_msg e))).

Definition default_recommendations : json :=
  JArr [ JStr "Focus on highest scoring markets first";
         JStr "Implement dynamic pricing strategy";
         JStr "Target social media marketing" ].

Definition generate_recommendations (design_features : DesignFeatures)
    (market_analyses : list MarketAnalysis) : M json :=
  try_except
    (prompt <- lift (recommendations_prompt design_features
                       market_analyses) ;;
     text <- call_model (Request prompt None) ;;
     recommendations_data <- lift (_parse_json_response text) ;;
     lift (py_get recommendations_data "recommendations" (JArr [])))
    (fun _ => ret default_recommendations).

End Defs.
End GeminiService.

(* ================================================================== *)
(** ** services/market_service.py *)
(* ================================================================== *)

Module MarketService.
Section Defs.
Context `{Externals}.

Local Open Scope Q_scope.

Definition market_adjustments : list (string * Q) :=
  [ ("Germany", 11 # 10);
    ("Japan", 115 # 100);
    ("India", 9 # 10);
    ("Brazil", 95 # 100) ].

Definition calculate_pricing (location : string) (market_score : Q)
  : result PriceRange :=
  let? usa := dict_index MARKET_DATA "USA" in
  let market_info := dict_get_default MARKET_DATA location usa in
  let '(base_min, base_max) := base_price_range market_info in
  let score_multiplier := market_score / 75 in
  let adjustment := dict_get_default market_adjustments location 1 in
  let final_min :=
    PyNum.round (inject_Z base_min * score_multiplier * adjustment) 2 in
  let final_max :=
    PyNum.round (inject_Z base_max * score_multiplier * adjustment) 2 in
  Ok {| price_min := final_min;
        price_max := final_max;
        price_recommended := PyNum.round ((final_min + final_max) / 2) 2;
        price_currency := currency market_info |}.

(** The call as [_analyze_single_market] makes it, with the value taken
    from the decoded response: [market_score / 75.0] raises [TypeError]
    unless the value is a number. *)
Definition calculate_pricing_dyn (location : string) (market_score : json)
  : result PriceRange :=
  let? score := py_number market_score in
  calculate_pricing location score.

(** The dict [get_market_insights] returns. *)
Record MarketInsights : Type := {
  mi_location : string;
  mi_market_size : string;
  mi_competition_level : string;
  mi_market_maturity : string;
  mi_key_trends : list string;
  mi_target_demographics : list string;
  mi_seasonal_peaks : list string;
  mi_base_price_range : Z * Z;
  mi_currency : string
}.

Definition get_market_insights (location : string) : result MarketInsights :=
  if negb (dict_mem MARKET_DATA location) then
    Raise (Exn ValueError ("Location " ++ location ++ " not supported"))
  else
    let? market_info := dict_index MARKET_DATA location in
    Ok {| mi_location := location;
          mi_market_size := market_size market_info;
          mi_competition_level := competition_level market_info;
          mi_market_maturity := market_maturity market_info;
          mi_key_trends := trends market_info;
          mi_target_demographics := demographics market_info;
          mi_seasonal_peaks := seasonal_peaks market_info;
          mi_base_price_range := base_price_range market_info;
          mi_currency := currency market_info |}.

(** [table.get(key, [])] with a key taken from a decoded response: a list
    or a dict is not hashable, any other value that is not one of the keys
    gives the default. *)
Definition words_for (table : list (string * list string)) (key : json)
  : result (list json) :=
  match key with
  | JStr k => Ok (map JStr (dict_get_default table k []))
  | JArr _ | JObj _ => runtime_error TypeError key
  | _ => Ok []
  end.

(** [any(word in text for word in words)]: the words are tried in order,
    and a word that is not a string raises when it is reached. *)
Fixpoint any_word_in (words : list json) (text : string) : result bool :=
  match words with
  | [] => Ok false
  | JStr w :: rest =>
      if PyStr.contains w text then Ok true else any_word_in rest text
  | v :: _ => runtime_error TypeError v
  end.

(** [sum(1 for text in texts if any(word in text for word in words))] *)
Fixpoint count_matches (words : list json) (texts : list string)
  : result nat :=
  match texts with
  | [] => Ok O
  | text :: rest =>
      let? hit := any_word_in words text in
      let? n := count_matches words rest in
      Ok (if hit then S n else n)
  end.

(** [min(1.0, matches / len(texts) * boost)] *)
Definition boosted_share (matches : nat) (texts : list string) (boost : Q)
  : result Q :=
  if (List.length texts =? 0)%nat then runtime_error ZeroDivisionError JNull
  else
    Ok (PyNum.min 1
          (inject_Z (Z.of_nat matches)
           / inject_Z (Z.of_nat (List.length texts)) * boost)).

Definition feature_trends : list (string * list string) :=
  [ ("minimalist", ["minimalism"; "quality"; "simplicity"]);
    ("vintage", ["vintage"; "retro"; "nostalgia"]);
    ("streetwear", ["urban"; "youth"; "hip_hop"]);
    ("sports", ["sports"; "fitness"; "athletic"]);
    ("artistic", ["art"; "creativity"; "expression"]) ].

Definition _calculate_trend_alignment (design_features : DesignFeatures)
    (local_trends : list string) : result Q :=
  let? design_trend_words :=
    words_for feature_trends (style_category design_features) in
  let design_trend_words :=
    (design_trend_words ++ [theme_category design_features])%list in
  let? matches := count_matches design_trend_words local_trends in
  boosted_share matches local_trends 2.

Definition demo_map : list (string * list string) :=
  [ ("gen_z", ["youth"; "gen_z"; "teens"]);
    ("millennials", ["millennials"; "young_adults"]);
    ("gen_x", ["gen_x"; "adults"]);
    ("all_ages", ["all_ages"; "universal"]) ].

Definition _calculate_demographic_fit (design_features : DesignFeatures)
    (target_demographics : list string) : result Q :=
  let? design_demo_words :=
    words_for demo_map (target_demographic design_features) in
  let? matches := count_matches design_demo_words target_demographics in
  boosted_share matches target_demographics (15 # 10).

Definition size_factors : list (string * Q) :=
  [ ("massive", 13 # 10); ("large", 11 # 10); ("medium", 1);
    ("small", 8 # 10) ].

(** The dict [calculate_market_opportunity] returns. *)
Record MarketOpportunity : Type := {
  opportunity_score : Q;
  mo_trend_alignment : Q;
  mo_demographic_fit : Q;
  market_size_factor : Q
}.

Definition calculate_market_opportunity (design_features : DesignFeatures)
    (location : string) : result MarketOpportunity :=
  let? market_info := dict_index MARKET_DATA location in
  let? trend_alignment :=
    _calculate_trend_alignment design_features (trends market_info) in
  let? demographic_fit :=
    _calculate_demographic_fit design_features (demographics market_info) in
  let size_factor :=
    dict_get_default size_factors (market_size market_info) 1 in
  let score :=
    (trend_alignment * (4 # 10) + demographic_fit * (4 # 10))
    * size_factor * 100 in
  Ok {| opportunity_score := PyNum.round (PyNum.min 100 score) 1;
        mo_trend_alignment := PyNum.round (trend_alignment * 100) 1;
        mo_demographic_fit := PyNum.round (demographic_fit * 100) 1;
        market_size_factor := size_factor |}.

End Defs.
End MarketService.

(* ================================================================== *)
(** ** services/analysis_service.py *)
(* ================================================================== *)

Module AnalysisService.
Section Defs.
Context `{Externals}.

Local Open Scope py_scope.

Definition _analyze_single_market (design_features : DesignFeatures)
    (location : string) : M MarketAnalysis :=
  market_context <- lift (dict_index MARKET_DATA location) ;;
  ai_analysis <- GeminiService.generate_market_analysis design_features
                   location market_context ;;
  lift
    (let? score0 := py_get ai_analysis "market_score" (JNum 70) in
     let? price_range := MarketService.calculate_pricing_dyn location score0 in
     let? score_raw := py_get ai_analysis "market_score" (JNum 70) in
     let? score := py_float score_raw in
     let? demand := py_get ai_analysis "demand_level" (JStr "medium") in
     let? competition :=
       py_get ai_analysis "competition_level" (JStr "medium") in
     let? seasonal :=
       py_get ai_analysis "seasonal_trends" (JArr [JStr "year-round"]) in
     let? ages :=
       py_get ai_analysis "target_age_groups" (JArr [JStr "18-35"]) in
     let? sales_raw :=
       py_get ai_analysis "estimated_monthly_sales" (JNum 1000) in
     let? sales := py_int sales_raw in
     let? mtrends := py_get ai_analysis "market_trends" (JArr []) in
     let? success_raw := py_get ai_analysis "success_probability" (JNum 70) in
     let? success := py_float success_raw in
     let? risks := py_get ai_analysis "risk_factors" (JArr []) in
     let? opps := py_get ai_analysis "opportunities" (JArr []) in
     Ok {| location := location;
           market_score := score;
           demand_level := demand;
           price_range := price_range;
           ma_competition_level := competition;
           seasonal_trends := seasonal;
           target_age_groups := ages;
           estimated_monthly_sales := sales;
           market_trends := mtrends;
           success_probability := success;
           risk_factors := risks;
           opportunities := opps |}).

Definition size_weights : list (string * Q) :=
  [ ("massive", 15 # 10); ("large", 12 # 10); ("medium", 1); ("small", 8 # 10) ]%Q.

Definition maturity_weights : list (string * Q) :=
  [ ("mature", 11 # 10); ("growing", 13 # 10); ("emerging", 1) ]%Q.

(** The weight the loop of [_calculate_overall_score] gives one analysis. *)
Definition market_weight (analysis : MarketAnalysis) : Q :=
  let market_info := dict_get MARKET_DATA (location analysis) in
  let size_weight :=
    dict_get_default size_weights
      (match market_info with Some e => market_size e | None => "medium" end)
      1%Q in
  let maturity_weight :=
    dict_get_default maturity_weights
      (match market_info with Some e => market_maturity e | None => "mature" end)
      1%Q in
  (size_weight * maturity_weight)%Q.

(** The two accumulators of the loop, [(total_weighted_score, total_weight)]. *)
Definition weighted_totals (market_analyses : list MarketAnalysis) : Q * Q :=
  fold_left
    (fun acc analysis =>
       let weight := market_weight analysis in
       (fst acc + market_score analysis * weight, snd acc + weight)%Q)
    market_analyses (0, 0)%Q.

Definition _calculate_overall_score (market_analyses : list MarketAnalysis)
  : Q :=
  match market_analyses with
  | [] => 0%Q
  | _ =>
      let '(total_weighted_score, total_weight) :=
        weighted_totals market_analyses in
      if Qlt_le_dec 0 total_weight then
        PyNum.round (total_weighted_score / total_weight) 1
      else 0%Q
  end.

Definition _calculate_market_consistency
    (market_analyses : list MarketAnalysis) : Q :=
  if (List.length market_analyses <? 2)%nat then 80%Q
  else
    let scores := map market_score market_analyses in
    let n := inject_Z (Z.of_nat (List.length scores)) in
    let mean_score := (PyNum.sum scores / n)%Q in
    let variance :=
      (PyNum.sum (map (fun score => (score - mean_score) ^ 2) scores) / n)%Q in
    let std_dev := float_sqrt variance in
    let consistency := PyNum.max 0 (100 - std_dev * 2)%Q in
    PyNum.round consistency 1.

Definition _calculate_confidence_score (design_features : DesignFeatures)
    (market_analyses : list MarketAnalysis) : Q :=
  let design_clarity :=
    (PyNum.min 100 (visual_appeal_score design_features
                    + uniqueness_score design_features) / 2)%Q in
  let market_consistency := _calculate_market_consistency market_analyses in
  let data_completeness :=
    (inject_Z (Z.of_nat (List.length market_analyses)) / 8 * 100)%Q in
  let confidence :=
    (design_clarity * (4 # 10) + market_consistency * (4 # 10)
     + data_completeness * (2 # 10))%Q in
  PyNum.round (PyNum.min 95 confidence) 1.

(** The results of the gathered tasks that are not exceptions, in order. *)
Fixpoint successes {A} (results : list (result A)) : list A :=
  match results with
  | [] => []
  | Ok a :: rest => a :: successes rest
  | Raise _ :: rest => successes rest
  end.

Definition known_locations (locations : list string) : list string :=
  filter (dict_mem MARKET_DATA) locations.

Definition analyze_tshirt_design_body (image_data : list byte)
    (locations : list string) (filename : string) : M AnalysisResult :=
  _ <- lift (ImageService.validate_image image_data filename) ;;
  processed <- lift (ImageService.process_image image_data) ;;
  let '(processed_image, image_size) := processed in
  design_features <- GeminiService.analyze_design_image processed_image ;;
  let analysis_tasks :=
    map (_analyze_single_market design_features) (known_locations locations) in
  market_results <-
    (fun w => let (rs, w') := gather analysis_tasks w in (Ok rs, w')) ;;
  let market_analyses := successes market_results in
  match market_analyses with
  | [] => raise (Exn AnalysisServiceError "No successful market analyses")
  | _ =>
      let overall_score := _calculate_overall_score market_analyses in
      recommendations <-
        GeminiService.generate_recommendations design_features
          market_analyses ;;
      let confidence_score :=
        _calculate_confidence_score design_features market_analyses in
      ret {| design_features := design_features;
             market_analysis := market_analyses;
             overall_score := overall_score;
             recommendations := recommendations;
             analysis_timestamp := strftime_now;
             confidence_score := Some confidence_score |}
  end.

Definition analyze_tshirt_design (image_data : list byte)
    (locations : list string) (filename : string) : M AnalysisResult :=
  try_except
    (analyze_tshirt_design_body image_data locations filename)
    (fun e =>
       raise (Exn AnalysisServiceError
                ("Analysis pipeline failed: " ++ exn_msg e))).

End Defs.
End AnalysisService.

(* ================================================================== *)
(** ** utils/validators.py *)
(* ================================================================== *)

Module Validators.
Section Defs.
Context `{Externals}.

(** [str(items)] for a list of strings, as it appears in the message of
    [validate_locations]. *)
Variable list_repr : list string -> string.

(** The loop of [validate_locations]: the cleaned locations found in the
    table and the others, both in the order of the request. *)
Fixpoint partition_locations (locations : list string)
  : list string * list string :=
  match locations with
  | [] => ([], [])
  | location :: rest =>
      let location := PyStr.upper (PyStr.strip location) in
      let (valid_locations, invalid_locations) := partition_locations rest in
      if dict_mem MARKET_DATA location
      then (location :: valid_locations, invalid_locations)
      else (valid_locations, location :: invalid_locations)
  end.

Definition validate_locations (locations : list string)
  : result (list string) :=
  let (valid_locations, invalid_locations) :=
    partition_locations locations in
  match invalid_locations with
  | _ :: _ =>
      let available := PyStr.join ", " (map fst MARKET_DATA) in
      Raise (Exn ValidationError
               ("Invalid locations: " ++ list_repr invalid_locations
                ++ ". " ++ "Available: " ++ available))
  | [] =>
      match valid_locations with
      | [] => Raise (Exn ValidationError
                       "At least one valid location is required")
      | _ => Ok valid_locations
      end
  end.

End Defs.
End Validators.

(* ================================================================== *)
(** ** api/routes/analysis.py and api/routes/market.py *)
(* ================================================================== *)

Module Routes.
Section Defs.
Context `{Externals}.

Local Open Scope py_scope.

(** An uploaded file: its name, if any, and what [await file.read()]
    gives. *)
Record UploadFile : Type := {
  filename : option string;
  file_read : result (list byte)
}.

Record HTTPException : Type := {
  status_code : Z;
  detail : string
}.

(** How a route handler ends: with its response, with an [HTTPException],
    or with an exception no handler of the route catches. *)
Inductive outcome (A : Type) : Type :=
  | Respond (a : A)
  | Abort (e : HTTPException)
  | Uncaught (e : exn).

Arguments Respond {A} a.
Arguments Abort {A} e.
Arguments Uncaught {A} e.

Record AnalysisResponse : Type := {
  success : bool;
  data : option AnalysisResult;
  error : option string;
  processing_time : option Q
}.

(** [[loc.strip() for loc in locations.split(",")]] *)
Definition parse_locations (locations : string) : list string :=
  map PyStr.strip (PyStr.split "," locations).

(** [file.filename or "upload.jpg"] *)
Definition filename_or_default (file : UploadFile) : string :=
  match filename file with
  | Some (String c name) => String c name
  | _ => "upload.jpg"
  end.

Definition analyze_single_design (file : UploadFile) (locations : string)
  : ai_log -> outcome AnalysisResponse * ai_log :=
  fun w =>
    let body :=
      (let location_list := parse_locations locations in
       image_data <- lift (file_read file) ;;
       result <- AnalysisService.analyze_tshirt_design image_data
                   location_list (filename_or_default file) ;;
       ret {| success := true; data := Some result; error := None;
              processing_time := None |}) in
    match body w with
    | (Ok response, w') => (Respond response, w')
    | (Raise e, w') =>
        if (exn_class_eqb (exn_kind e) ImageProcessingError
            || exn_class_eqb (exn_kind e) AnalysisServiceError)%bool
        then (Abort {| status_code := 400; detail := exn_msg e |}, w')
        else (Abort {| status_code := 500;
                       detail := "Internal server error" |}, w')
    end.

Record BatchAnalysisResponse : Type := {
  total_processed : Z;
  successful : Z;
  failed : Z;
  results : list (option string * AnalysisResult);
  errors : list string
}.

(** [f"{file.filename}"] *)
Definition filename_text (file : UploadFile) : string :=
  match filename file with
  | Some name => name
  | None => "None"
  end.

(** The loop of [analyze_batch_designs] over the files left, with the
    results, the errors and the count of successes so far. *)
Fixpoint batch_loop (files : list UploadFile) (location_list : list string)
    (results : list (option string * AnalysisResult)) (errors : list string)
    (successful : Z)
  : ai_log
    -> (list (option string * AnalysisResult) * list string * Z) * ai_log :=
  fun w =>
    match files with
    | [] => ((results, errors, successful), w)
    | file :: rest =>
        let body :=
          (image_data <- lift (file_read file) ;;
           AnalysisService.analyze_tshirt_design image_data location_list
             (filename_or_default file)) in
        match body w with
        | (Ok result, w') =>
            batch_loop rest location_list
              (results ++ [(filename file, result)])%list errors
              (successful + 1)%Z w'
        | (Raise e, w') =>
            let error_msg := filename_text file ++ ": " ++ exn_msg e in
            batch_loop rest location_list results
              (errors ++ [error_msg])%list successful w'
        end
    end.

Definition analyze_batch_designs (files : list UploadFile)
    (locations : string) : ai_log -> BatchAnalysisResponse * ai_log :=
  fun w =>
    let location_list := parse_locations locations in
    let '((results, errors, successful), w') :=
      batch_loop files location_list [] [] 0%Z w in
    ({| total_processed := Z.of_nat (List.length files);
        successful := successful;
        failed := Z.of_nat (List.length files) - successful;
        results := results;
        errors := errors |}, w').

Record PriceDifference : Type := {
  diff_min : Z;
  diff_max : Z
}.

Record MarketComparison : Type := {
  location1 : MarketService.MarketInsights;
  location2 : MarketService.MarketInsights;
  price_difference : PriceDifference;
  market_size_comparison : string;
  competition_comparison : string
}.

(** [except ValueError]: [json.JSONDecodeError] derives from
    [ValueError]. *)
Definition is_value_error (c : exn_class) : bool :=
  (exn_class_eqb c ValueError || exn_class_eqb c JSONDecodeError)%bool.

Definition compare_markets (loc1 loc2 : string) : outcome MarketComparison :=
  let body :=
    (let? insights1 := MarketService.get_market_insights loc1 in
     let? insights2 := MarketService.get_market_insights loc2 in
     Ok {| location1 := insights1;
           location2 := insights2;
           price_difference :=
             {| diff_min :=
                  fst (MarketService.mi_base_price_range insights2)
                  - fst (MarketService.mi_base_price_range insights1);
                diff_max :=
                  snd (MarketService.mi_base_price_range insights2)
                  - snd (MarketService.mi_base_price_range insights1) |};
           market_size_comparison :=
             MarketService.mi_market_size insights1 ++ " vs "
             ++ MarketService.mi_market_size insights2;
           competition_comparison :=
             MarketService.mi_competition_level insights1 ++ " vs "
             ++ MarketService.mi_competition_level insights2 |}) in
  match body with
  | Ok comparison => Respond comparison
  | Raise e =>
      if is_value_error (exn_kind e)
      then Abort {| status_code := 404; detail := exn_msg e |}
      else Uncaught e
  end.

End Defs.

Arguments Respond {A} a.
Arguments Abort {A} e.
Arguments Uncaught {A} e.

End Routes.

(* ================================================================== *)
(** ** A reference decoder and test doubles *)
(* ================================================================== *)

(** [json.loads] belongs to the Python standard library; the services are
    verified for every decoder.  To run the services on concrete responses,
    this module decodes JSON texts as RFC 8259 defines them, except that a
    string with a [\u] escape and the literals [NaN] and [Infinity] are
    refused. *)
Module JsonRef.

Definition dquote : ascii := "034"%char.
Definition backslash : ascii := "092"%char.

Definition is_ws (c : ascii) : bool :=
  let n := nat_of_ascii c in
  ((n =? 32) || (n =? 9) || (n =? 10) || (n =? 13))%nat.

Fixpoint skip_ws (s : string) : string :=
  match s with
  | String c s' => if is_ws c then skip_ws s' else s
  | EmptyString => s
  end.

Definition digit_of (c : ascii) : option Z :=
  let n := nat_of_ascii c in
  if ((48 <=? n) && (n <=? 57))%nat then Some (Z.of_nat (n - 48)) else None.

(** The digits at the head of [s]: their value, their number, the rest. *)
Fixpoint digits (s : string) (acc : Z) (count : nat) : Z * nat * string :=
  match s with
  | String c s' =>
      match digit_of c with
      | Some d => digits s' (10 * acc + d)%Z (S count)
      | None => (acc, count, s)
      end
  | EmptyString => (acc, count, s)
  end.

Definition unescape (c : ascii) : option ascii :=
  let n := nat_of_ascii c in
  if (n =? 34)%nat then Some dquote
  else if (n =? 92)%nat then Some backslash
  else if (n =? 47)%nat then Some "/"%char
  else if (n =? 98)%nat then Some "008"%char
  else if (n =? 102)%nat then Some "012"%char
  else if (n =? 110)%nat then Some "010"%char
  else if (n =? 114)%nat then Some "013"%char
  else if (n =? 116)%nat then Some "009"%char
  else None.

(** The characters of a string up to its closing quote. *)
Fixpoint string_body (s : string) : option (string * string) :=
  match s with
  | EmptyString => None
  | String c s' =>
      if Ascii.eqb c dquote then Some (EmptyString, s')
      else if Ascii.eqb c backslash then
        match s' with
        | String e s'' =>
            match unescape e, string_body s'' with
            | Some c', Some (body, rest) => Some (String c' body, rest)
            | _, _ => None
            end
        | EmptyString => None
        end
      else if (nat_of_ascii c <? 32)%nat then None
      else
        match string_body s' with
        | Some (body, rest) => Some (String c body, rest)
        | None => None
        end
  end.

(** A number: sign, integer part, optional fraction, optional exponent. *)
Definition number (s : string) : option (Q * string) :=
  let '(neg, s1) :=
    match s with
    | String "-" s' => (true, s')
    | _ => (false, s)
    end in
  let '(ip, ic, s2) := digits s1 0%Z O in
  if (ic =? 0)%nat then None
  else if ((1 <? ic)%nat && PyStr.startswith s1 "0")%bool then None
  else
    let '(fp, fc, s3, frac_ok) :=
      match s2 with
      | String "." s' =>
          let '(v, c, r) := digits s' 0%Z O in (v, c, r, negb (c =? 0)%nat)
      | _ => (0%Z, O, s2, true)
      end in
    let '(ex, s4, exp_ok) :=
      match s3 with
      | String e s' =>
          if (Ascii.eqb e "e" || Ascii.eqb e "E")%bool then
            let '(eneg, s'') :=
              match s' with
              | String "-" t => (true, t)
              | String "+" t => (false, t)
              | _ => (false, s')
              end in
            let '(v, c, r) := digits s'' 0%Z O in
            ((if eneg then - v else v)%Z, r, negb (c =? 0)%nat)
          else (0%Z, s3, true)
      | EmptyString => (0%Z, s3, true)
      end in
    if (frac_ok && exp_ok)%bool then
      let mantissa :=
        (inject_Z ip + inject_Z fp / inject_Z (10 ^ Z.of_nat fc))%Q in
      let scaled :=
        (if (0 <=? ex)%Z then mantissa * inject_Z (10 ^ ex)
         else mantissa / inject_Z (10 ^ (- ex)))%Q in
      Some (Qred (if neg then - scaled else scaled)%Q, s4)
    else None.

(** [d[k] = v]: a key already present keeps its place. *)
Fixpoint dict_set (d : list (string * json)) (k : string) (v : json)
  : list (string * json) :=
  match d with
  | [] => [(k, v)]
  | (k', v') :: d' =>
      if String.eqb k k' then (k, v) :: d' else (k', v') :: dict_set d' k v
  end.

Fixpoint value (fuel : nat) (s : string) : option (json * string) :=
  match fuel with
  | O => None
  | S fuel' =>
      match skip_ws s with
      | EmptyString => None
      | String c rest as s0 =>
          if Ascii.eqb c "{" then
            match skip_ws rest with
            | String "}" rest' => Some (JObj [], rest')
            | rest' => members fuel' rest' []
            end
          else if Ascii.eqb c "[" then
            match skip_ws rest with
            | String "]" rest' => Some (JArr [], rest')
            | rest' => elements fuel' rest' []
            end
          else if Ascii.eqb c dquote then
            match string_body rest with
            | Some (body, rest') => Some (JStr body, rest')
            | None => None
            end
          else if PyStr.startswith s0 "true" then Some (JBool true, PyStr.drop 4 s0)
          else if PyStr.startswith s0 "false" then Some (JBool false, PyStr.drop 5 s0)
          else if PyStr.startswith s0 "null" then Some (JNull, PyStr.drop 4 s0)
          else
            match number s0 with
            | Some (q, rest') => Some (JNum q, rest')
            | None => None
            end
      end
  end
with elements (fuel : nat) (s : string) (acc : list json)
  : option (json * string) :=
  match fuel with
  | O => None
  | S fuel' =>
      match value fuel' s with
      | Some (v, rest) =>
          match skip_ws rest with
          | String "," rest' => elements fuel' rest' (acc ++ [v])
          | String "]" rest' => Some (JArr (acc ++ [v]), rest')
          | _ => None
          end
      | None => None
      end
  end
with members (fuel : nat) (s : string) (acc : list (string * json))
  : option (json * string) :=
  match fuel with
  | O => None
  | S fuel' =>
      match skip_ws s with
      | String c rest =>
          if Ascii.eqb c dquote then
            match string_body rest with
            | Some (key, rest1) =>
                match skip_ws rest1 with
                | String ":" rest2 =>
                    match value fuel' rest2 with
                    | Some (v, rest3) =>
                        match skip_ws rest3 with
                        | String "," rest4 =>
                            members fuel' rest4 (dict_set acc key v)
                        | String "}" rest4 =>
                            Some (JObj (dict_set acc key v), rest4)
                        | _ => None
                        end
                    | None => None
                    end
                | _ => None
                end
            | None => None
            end
          else None
      | EmptyString => None
      end
  end.

Definition loads (s : string) : option json :=
  match value (S (String.length s)) s with
  | Some (v, rest) =>
      match skip_ws rest with
      | EmptyString => Some v
      | _ => None
      end
  | None => None
  end.

End JsonRef.

(** Stand-ins for Pillow, the Gemini client and the clock, to run the
    services on concrete inputs. *)
Module TestDouble.

(** A picture is three bytes: a format tag ([J], [P], [W] or [G]), its
    width and its height. *)
Definition format_of_tag (tag : byte) : option string :=
  match tag with
  | x4a => Some "JPEG"
  | x50 => Some "PNG"
  | x57 => Some "WEBP"
  | x47 => Some "GIF"
  | _ => None
  end.

Definition unidentified {A} : result A :=
  Raise (Exn ExternalError "cannot identify image file").

Definition open (data : list byte) : result Image :=
  match data with
  | tag :: w :: h :: _ =>
      match format_of_tag tag with
      | Some f =>
          Ok {| img_format := Some f; img_mode := "RGB";
                img_size := (Z.of_N (Byte.to_N w), Z.of_N (Byte.to_N h)) |}
      | None => unidentified
      end
  | _ => unidentified
  end.

Definition save_jpeg (image : Image) : result (list byte) :=
  match Byte.of_N (Z.to_N (fst (img_size image))),
        Byte.of_N (Z.to_N (snd (img_size image))) with
  | Some w, Some h => Ok [x4a; w; h]
  | _, _ => Raise (Exn ExternalError "image too large to encode")
  end.

(** The [n]-th request gets the [n]-th scripted response. *)
Definition respond (script : list (result string)) (log : ai_log)
    (req : request) : result string :=
  nth (List.length log) script
    (Raise (Exn ExternalError "no response from the model")).

Definition whole_number (s : string) : option Z :=
  let '(v, count, rest) := JsonRef.digits s 0%Z O in
  match count, rest with
  | S _, EmptyString => Some v
  | _, _ => None
  end.

(** The square root to six decimals. *)
Definition sqrt6 (x : Q) : Q :=
  (inject_Z (Z.sqrt (Qfloor (x * inject_Z (10 ^ 12)))) / inject_Z (10 ^ 6))%Q.

#[local] Instance scripted (script : list (result string)) : Externals.
Proof.
  refine {|
    settings := default_settings;
    Image_open := open;
    Image_convert := fun image mode =>
      Ok {| img_format := None; img_mode := mode;
            img_size := img_size image |};
    Image_resize := fun image size =>
      Ok {| img_format := None; img_mode := img_mode image;
            img_size := size |};
    Image_save_jpeg := save_jpeg;
    generate_content := respond script;
    json_loads := JsonRef.loads;
    b64encode := fun _ => EmptyString;
    str_to_float := fun s => option_map inject_Z (whole_number s);
    str_to_int := whole_number;
    float_sqrt := sqrt6;
    float_sqrt_proper := _;
    strftime_now := "2024-01-01 00:00:00";
    runtime_message := fun _ _ => "invalid operation on a decoded value";
    design_analysis_prompt :=
      "Analyze this t-shirt design image comprehensively.";
    market_analysis_prompt := fun _ location _ =>
      Ok ("Analyze market potential for this t-shirt design in " ++ location);
    recommendations_prompt := fun _ _ =>
      Ok "Generate strategic business recommendations based on this analysis:"
  |}.
  intros x y Hxy. unfold sqrt6. rewrite Hxy. reflexivity.
Defined.

(** The same stand-ins with pictures limited to 100 pixels a side. *)
Definition thumbnailer : Externals :=
  let base := scripted [] in
  {| settings :=
       {| max_file_size := 5 * 1024 * 1024; max_image_dimension := 100 |};
     Image_open := @Image_open base;
     Image_convert := @Image_convert base;
     Image_resize := @Image_resize base;
     Image_save_jpeg := @Image_save_jpeg base;
     generate_content := @generate_content base;
     json_loads := @json_loads base;
     b64encode := @b64encode base;
     str_to_float := @str_to_float base;
     str_to_int := @str_to_int base;
     float_sqrt := @float_sqrt base;
     float_sqrt_proper := @float_sqrt_proper base;
     strftime_now := @strftime_now base;
     runtime_message := @runtime_message base;
     design_analysis_prompt := @design_analysis_prompt base;
     market_analysis_prompt := @market_analysis_prompt base;
     recommendations_prompt := @recommendations_prompt base |}.

(** A 200 x 120 JPEG. *)
Definition jpeg_200_120 : list byte := [x4a; xc8; x78].

(** [s] between double quotes. *)
Definition quoted (s : string) : string :=
  String JsonRef.dquote (s ++ String JsonRef.dquote EmptyString).

(** A 200 x 200 JPEG and a 50 x 50 PNG. *)
Definition jpeg_200 : list byte := [x4a; xc8; xc8].
Definition png_50 : list byte := [x50; x32; x32].

Definition design_response : string :=
  "{" ++ quoted "visual_appeal_score" ++ ":80,"
      ++ quoted "uniqueness_score" ++ ":80}".

Definition market_response (score : string) : string :=
  "{" ++ quoted "market_score" ++ ":" ++ score ++ ","
      ++ quoted "demand_level" ++ ":" ++ quoted "high" ++ "}".

Definition recommendations_response : string :=
  "{" ++ quoted "recommendations" ++ ":[" ++ quoted "Launch in the USA first"
      ++ "]}".

Definition no_recommendations_response : string :=
  "{" ++ quoted "notes" ++ ":[]}".

(** A JSON object whose only string holds a fenced block. *)
Definition fence_inside : string :=
  "{" ++ quoted "a" ++ ":" ++ quoted "```json{}```" ++ "}".

(** The prose models put around a fenced block. *)
Definition prose_before : string :=
  "Here is the analysis you asked for:" ++ String "010" EmptyString.

Definition prose_after : string :=
  String "010" "Let me know if you need anything else.".

(** A JSON object as models send it, on lines of its own. *)
Definition padded_object : string :=
  String "010" ("{" ++ quoted "market_score" ++ ": 80}")
  ++ String "010" EmptyString.

(** Scripts for whole runs: the features, one response per known
    location, the recommendations. *)
Definition one_market_script : list (result string) :=
  [ Ok design_response; Ok (market_response "80");
    Ok recommendations_response ].

Definition middle_failure_script : list (result string) :=
  [ Ok design_response; Ok (market_response "80");
    Raise (Exn ExternalError "quota exceeded");
    Ok (market_response "60"); Ok recommendations_response ].

Definition all_failing_script : list (result string) :=
  [ Ok design_response; Raise (Exn ExternalError "quota exceeded");
    Ok "not json" ].

Definition no_recommendations_script : list (result string) :=
  [ Ok design_response; Ok (market_response "80");
    Ok no_recommendations_response ].

Definition sample_features (appeal uniqueness : Q) : DesignFeatures :=
  {| style_category := JStr "modern";
     color_palette := JArr [JStr "unknown"];
     design_complexity := JStr "moderate";
     target_demographic := JStr "millennials";
     theme_category := JStr "abstract";
     visual_appeal_score := appeal;
     uniqueness_score := uniqueness;
     brand_potential := JStr "medium";
     typography_quality := JNull;
     graphic_elements := JArr [] |}.

Definition sample_market (loc : string) (score : Q) : MarketAnalysis :=
  {| location := loc;
     market_score := score;
     demand_level := JStr "medium";
     price_range := {| price_min := 0; price_max := 0;
                       price_recommended := 0; price_currency := "USD" |};
     ma_competition_level := JStr "medium";
     seasonal_trends := JArr [JStr "year-round"];
     target_age_groups := JArr [JStr "18-35"];
     estimated_monthly_sales := 1000;
     market_trends := JArr [];
     success_probability := 70;
     risk_factors := JArr [];
     opportunities := JArr [] |}.

(** Features with the given style, theme and audience. *)
Definition styled_features (style theme demographic : string)
  : DesignFeatures :=
  {| style_category := JStr style;
     color_palette := JArr [JStr "unknown"];
     design_complexity := JStr "moderate";
     target_demographic := JStr demographic;
     theme_category := JStr theme;
     visual_appeal_score := 80;
     uniqueness_score := 80;
     brand_potential := JStr "medium";
     typography_quality := JNull;
     graphic_elements := JArr [] |}.


End TestDouble.

(* ================================================================== *)
(** ** The specification's formulas *)
(* ================================================================== *)

(** The definitions of this module follow the words of the specification;
    the theorems compare them with the services. *)
Module Spec.
Section Defs.
Context `{Externals}.

Local Open Scope Q_scope.

(** Section 4.1: the inputs the preconditioner rejects. *)
Inductive fails_preconditioning (image_data : list byte) : Prop :=
  | Oversized :
      (max_file_size settings < Z.of_nat (List.length image_data))%Z ->
      fails_preconditioning image_data
  | Undecodable (e : exn) :
      Image_open image_data = Raise e ->
      fails_preconditioning image_data
  | NoFormat (image : Image) :
      Image_open image_data = Ok image ->
      img_format image = None ->
      fails_preconditioning image_data
  | UnsupportedFormat (image : Image) (f : string) :
      Image_open image_data = Ok image ->
      img_format image = Some f ->
      existsb (String.eqb (PyStr.lower f)) ImageService.supported = false ->
      fails_preconditioning image_data
  | TooSmall (image : Image) :
      Image_open image_data = Ok image ->
      (Z.max (fst (img_size image)) (snd (img_size image)) < 100)%Z ->
      fails_preconditioning image_data.

(** Section 4.3: the adjustment of a location. *)
Definition adjustment (location : string) : Q :=
  if String.eqb location "Germany" then 11 # 10
  else if String.eqb location "Japan" then 115 # 100
  else if String.eqb location "India" then 9 # 10
  else if String.eqb location "Brazil" then 95 # 100
  else 1.

(** Section 4.5, step 4. *)
Definition sizeWeight (size : string) : Q :=
  if String.eqb size "massive" then 15 # 10
  else if String.eqb size "large" then 12 # 10
  else if String.eqb size "medium" then 1
  else if String.eqb size "small" then 8 # 10
  else 1.

Definition maturityWeight (maturity : string) : Q :=
  if String.eqb maturity "growing" then 13 # 10
  else if String.eqb maturity "mature" then 11 # 10
  else if String.eqb maturity "emerging" then 1
  else 1.

Fixpoint total (xs : list Q) : Q :=
  match xs with
  | [] => 0
  | x :: xs' => x + total xs'
  end.

(** The weighted mean of [(score, weight)] pairs. *)
Definition weighted_mean (pairs : list (Q * Q)) : Q :=
  total (map (fun p => fst p * snd p) pairs) / total (map snd pairs).

(** The (score, weight) pairs of the surviving analyses. *)
Definition score_pairs (market_analyses : list MarketAnalysis)
  : list (Q * Q) :=
  map (fun a => (market_score a, AnalysisService.market_weight a))
    market_analyses.









(** A text without a fence that does not end with a backtick. *)
Definition fence_free (j : string) : Prop :=
  PyStr.contains GeminiService.fence j = false /\
  PyStr.last_char j <> Some "`"%char.

(** The requests without an image part. *)
Definition text_only (calls : list request) : Prop :=
  Forall (fun r => req_image r = None) calls.

(** The shape of the requests of one run: the vision request first, text
    requests after it. *)
Definition vision_first (calls : list request) : Prop :=
  match calls with
  | [] => True
  | first :: rest =>
      (exists processed,
         first = Request design_analysis_prompt
                   (Some ("image/jpeg", b64encode processed)))
      /\ text_only rest
  end.

(** An order-preserving selection of the elements of a list. *)
Inductive subsequence {A : Type} : list A -> list A -> Prop :=
  | sub_nil : subsequence [] []
  | sub_skip x xs ys : subsequence xs ys -> subsequence xs (x :: ys)
  | sub_keep x xs ys : subsequence xs ys -> subsequence (x :: xs) (x :: ys).

(** The known locations whose sub-task succeeded, in dispatch order. *)
Fixpoint surviving_locations {A : Type} (known : list string)
    (results : list (result A)) : list string :=
  match known, results with
  | loc :: known', Ok _ :: results' =>
      loc :: surviving_locations known' results'
  | _ :: known', Raise _ :: results' => surviving_locations known' results'
  | _, _ => []
  end.

End Defs.
End Spec.

(* ================================================================== *)
(** * Properties *)
(* ================================================================== *)

(** ** Rounding and the numeric helpers *)

Section NumberFacts.

Local Open Scope Q_scope.

Lemma round_half_even_bounds (x : Q) :
  (Qfloor x <= PyNum.round_half_even x <= Qfloor x + 1)%Z.
Proof.
  unfold PyNum.round_half_even.
  destruct (Qcompare _ _); [destruct (Z.even _) | |]; lia.
Qed.

Lemma round_half_even_mono (x y : Q) :
  x <= y -> (PyNum.round_half_even x <= PyNum.round_half_even y)%Z.
Proof.
  intros Hxy.
  pose proof (Qfloor_resp_le _ _ Hxy) as Hfl.
  destruct (Z.eq_dec (Qfloor x) (Qfloor y)) as [Heq | Hne].
  - unfold PyNum.round_half_even. rewrite <- Heq.
    destruct (Qcompare_spec (x - inject_Z (Qfloor x)) (1 # 2)) as [Hx | Hx | Hx];
      destruct (Qcompare_spec (y - inject_Z (Qfloor x)) (1 # 2)) as [Hy | Hy | Hy];
      try destruct (Z.even (Qfloor x)); try lia; exfalso; lra.
  - pose proof (round_half_even_bounds x).
    pose proof (round_half_even_bounds y).
    lia.
Qed.

Lemma round_half_even_Z (z : Z) : PyNum.round_half_even (inject_Z z) = z.
Proof.
  unfold PyNum.round_half_even. rewrite Qfloor_Z.
  destruct (Qcompare_spec (inject_Z z - inject_Z z) (1 # 2)) as [Hx | Hx | Hx];
    try reflexivity; exfalso; lra.
Qed.

Lemma scale_pos (n : nat) : 0 < inject_Z (10 ^ Z.of_nat n).
Proof.
  change 0 with (inject_Z 0). rewrite <- Zlt_Qlt.
  apply Z.pow_pos_nonneg; lia.
Qed.

Lemma round_mono (x y : Q) (n : nat) :
  x <= y -> PyNum.round x n <= PyNum.round y n.
Proof.
  intros Hxy. unfold PyNum.round.
  pose proof (scale_pos n) as Hs.
  apply Qmult_le_compat_r.
  - rewrite <- Zle_Qle. apply round_half_even_mono.
    apply Qmult_le_compat_r; [exact Hxy | apply Qlt_le_weak; exact Hs].
  - apply Qlt_le_weak, Qinv_lt_0_compat, Hs.
Qed.

Lemma round_compat (x y : Q) (n : nat) :
  x == y -> PyNum.round x n == PyNum.round y n.
Proof.
  intros Hxy. apply Qle_antisym; apply round_mono; rewrite Hxy; apply Qle_refl.
Qed.

Lemma round_Z (z : Z) (n : nat) : PyNum.round (inject_Z z) n == inject_Z z.
Proof.
  unfold PyNum.round.
  pose proof (scale_pos n) as Hs.
  assert (Hm : inject_Z z * inject_Z (10 ^ Z.of_nat n)
               == inject_Z (z * 10 ^ Z.of_nat n)).
  { rewrite inject_Z_mult. reflexivity. }
  assert (Hr : PyNum.round_half_even (inject_Z z * inject_Z (10 ^ Z.of_nat n))
               = (z * 10 ^ Z.of_nat n)%Z).
  { apply Z.le_antisymm.
    - rewrite <- (round_half_even_Z (z * 10 ^ Z.of_nat n)).
      apply round_half_even_mono. rewrite Hm. apply Qle_refl.
    - rewrite <- (round_half_even_Z (z * 10 ^ Z.of_nat n)) at 1.
      apply round_half_even_mono. rewrite Hm. apply Qle_refl. }
  rewrite Hr, inject_Z_mult. field. lra.
Qed.

Lemma round_nonneg (x : Q) (n : nat) : 0 <= x -> 0 <= PyNum.round x n.
Proof.
  intros Hx.
  apply Qle_trans with (PyNum.round (inject_Z 0) n).
  - rewrite (round_Z 0 n). apply Qle_refl.
  - apply round_mono. exact Hx.
Qed.

Lemma round_le_Z (x : Q) (z : Z) (n : nat) :
  x <= inject_Z z -> PyNum.round x n <= inject_Z z.
Proof.
  intros Hx.
  apply Qle_trans with (PyNum.round (inject_Z z) n).
  - apply round_mono. exact Hx.
  - rewrite (round_Z z n). apply Qle_refl.
Qed.

Lemma py_min_Qmin (a b : Q) : PyNum.min a b == Qmin a b.
Proof.
  unfold PyNum.min. destruct (Qlt_le_dec b a) as [Hlt | Hle].
  - symmetry. apply Q.min_r. apply Qlt_le_weak, Hlt.
  - symmetry. apply Q.min_l. exact Hle.
Qed.


Lemma py_min_le_l (a b : Q) : PyNum.min a b <= a.
Proof.
  unfold PyNum.min. destruct (Qlt_le_dec b a); [apply Qlt_le_weak; assumption | apply Qle_refl].
Qed.

Lemma py_min_glb (a b c : Q) : c <= a -> c <= b -> c <= PyNum.min a b.
Proof.
  intros. unfold PyNum.min. destruct (Qlt_le_dec b a); assumption.
Qed.

Lemma py_max_le_l (a b : Q) : a <= PyNum.max a b.
Proof.
  unfold PyNum.max. destruct (Qlt_le_dec a b); [apply Qlt_le_weak; assumption | apply Qle_refl].
Qed.



End NumberFacts.

(** ** The reference table *)

Section TableFacts.

Lemma dict_get_In {V : Type} (d : list (string * V)) (k : string) (v : V) :
  dict_get d k = Some v -> In (k, v) d.
Proof.
  induction d as [| [k' v'] d IH]; simpl; [discriminate |].
  destruct (String.eqb_spec k k') as [-> | _].
  - intros [= ->]. left; reflexivity.
  - intros Hd. right. apply IH, Hd.
Qed.

Lemma dict_mem_get {V : Type} (d : list (string * V)) (k : string) :
  dict_mem d k = true -> exists v, dict_get d k = Some v.
Proof.
  unfold dict_mem. destruct (dict_get d k) as [v |]; [eauto | discriminate].
Qed.

Lemma base_prices_nonneg (location : string) (entry : MarketEntry) :
  In (location, entry) MARKET_DATA ->
  (0 <= fst (base_price_range entry) /\ 0 <= snd (base_price_range entry))%Z.
Proof.
  unfold MARKET_DATA. simpl.
  intros Hin.
  repeat (destruct Hin as [Hin | Hin];
          [injection Hin as _ <-; simpl; lia |]).
  contradiction.
Qed.

Lemma adjustment_lookup (location : string) :
  dict_get_default MarketService.market_adjustments location 1%Q
  = Spec.adjustment location.
Proof.
  unfold dict_get_default, MarketService.market_adjustments, Spec.adjustment.
  simpl.
  repeat match goal with
         | |- context [String.eqb location ?s] =>
             destruct (String.eqb location s)
         end; reflexivity.
Qed.

Lemma adjustment_pos (location : string) : (0 < Spec.adjustment location)%Q.
Proof.
  unfold Spec.adjustment.
  repeat match goal with
         | |- context [String.eqb location ?s] =>
             destruct (String.eqb location s)
         end; reflexivity.
Qed.

Lemma size_weight_lookup (size : string) :
  dict_get_default AnalysisService.size_weights size 1%Q = Spec.sizeWeight size.
Proof.
  unfold dict_get_default, AnalysisService.size_weights, Spec.sizeWeight.
  simpl.
  repeat match goal with
         | |- context [String.eqb size ?s] => destruct (String.eqb size s)
         end; reflexivity.
Qed.

Lemma maturity_weight_lookup (maturity : string) :
  dict_get_default AnalysisService.maturity_weights maturity 1%Q
  = Spec.maturityWeight maturity.
Proof.
  unfold dict_get_default, AnalysisService.maturity_weights,
    Spec.maturityWeight.
  simpl.
  destruct (String.eqb_spec maturity "mature") as [-> | _];
    [reflexivity |].
  repeat match goal with
         | |- context [String.eqb maturity ?s] =>
             destruct (String.eqb maturity s)
         end; reflexivity.
Qed.

Lemma sizeWeight_pos (size : string) : (0 < Spec.sizeWeight size)%Q.
Proof.
  unfold Spec.sizeWeight.
  repeat match goal with
         | |- context [String.eqb size ?s] => destruct (String.eqb size s)
         end; reflexivity.
Qed.

Lemma maturityWeight_pos (maturity : string) :
  (0 < Spec.maturityWeight maturity)%Q.
Proof.
  unfold Spec.maturityWeight.
  repeat match goal with
         | |- context [String.eqb maturity ?s] =>
             destruct (String.eqb maturity s)
         end; reflexivity.
Qed.

End TableFacts.

(** ** The pricing calculator *)

Section PricingFacts.
Context `{Externals}.

Local Open Scope Q_scope.

(** The entry [calculate_pricing] works from. *)
Lemma calculate_pricing_unfold :
  exists usa,
    dict_get MARKET_DATA "USA" = Some usa /\
    forall location market_score,
      let entry := dict_get_default MARKET_DATA location usa in
      let final_min :=
        PyNum.round (inject_Z (fst (base_price_range entry))
                     * (market_score / 75) * Spec.adjustment location) 2 in
      let final_max :=
        PyNum.round (inject_Z (snd (base_price_range entry))
                     * (market_score / 75) * Spec.adjustment location) 2 in
      MarketService.calculate_pricing location market_score
      = Ok {| price_min := final_min;
              price_max := final_max;
              price_recommended := PyNum.round ((final_min + final_max) / 2) 2;
              price_currency := currency entry |}.
Proof.
  eexists. split; [reflexivity |].
  intros location market_score.
  unfold MarketService.calculate_pricing, dict_index.
  match goal with
  | |- context [dict_get MARKET_DATA "USA"] =>
      change (dict_get MARKET_DATA "USA")
        with (Some (dict_get_default MARKET_DATA "USA"
                      {| base_price_range := (0, 0)%Z; market_size := "";
                         currency := ""; trends := []; demographics := [];
                         seasonal_peaks := []; competition_level := "";
                         market_maturity := "" |}))
  end.
  cbv beta iota delta [rbind].
  rewrite adjustment_lookup.
  destruct (base_price_range _) as [base_min base_max].
  reflexivity.
Qed.

Lemma entry_prices_nonneg (location : string) (usa : MarketEntry) :
  dict_get MARKET_DATA "USA" = Some usa ->
  let entry := dict_get_default MARKET_DATA location usa in
  (0 <= fst (base_price_range entry) /\ 0 <= snd (base_price_range entry))%Z.
Proof.
  intros Husa entry. subst entry. unfold dict_get_default.
  destruct (dict_get MARKET_DATA location) as [e |] eqn:He.
  - apply (base_prices_nonneg location), dict_get_In, He.
  - apply (base_prices_nonneg "USA"), dict_get_In, Husa.
Qed.

End PricingFacts.

Section PricingTheorems.
Context `{Externals}.

Local Open Scope Q_scope.


(** C7: for a fixed location the price band does not decrease when the
    market score grows: the minimum, the maximum and the recommended price
    for the larger score are each at least those for the smaller one. *)
Theorem calculate_pricing_monotone (location : string) (s1 s2 : Q) :
  s1 <= s2 ->
  exists band1 band2,
    MarketService.calculate_pricing location s1 = Ok band1 /\
    MarketService.calculate_pricing location s2 = Ok band2 /\
    price_min band1 <= price_min band2 /\
    price_max band1 <= price_max band2 /\
    price_recommended band1 <= price_recommended band2.
Proof.
  intros Hs.
  destruct calculate_pricing_unfold as (usa & Husa & Hcalc).
  pose proof (entry_prices_nonneg location usa Husa) as [Hmin Hmax].
  pose proof (adjustment_pos location) as Hadj.
  set (entry := dict_get_default MARKET_DATA location usa) in *.
  assert (Hscaled : forall base : Z, (0 <= base)%Z ->
            inject_Z base * (s1 / 75) * Spec.adjustment location
            <= inject_Z base * (s2 / 75) * Spec.adjustment location).
  { intros base Hbase.
    apply Qmult_le_compat_r; [| apply Qlt_le_weak, Hadj].
    rewrite !(Qmult_comm (inject_Z base)).
    apply Qmult_le_compat_r.
    - apply Qmult_le_compat_r; [exact Hs | discriminate].
    - change 0 with (inject_Z 0). rewrite <- Zle_Qle. exact Hbase. }
  pose proof (round_mono _ _ 2 (Hscaled _ Hmin)) as Hlo.
  pose proof (round_mono _ _ 2 (Hscaled _ Hmax)) as Hhi.
  do 2 eexists.
  split; [apply Hcalc |]. split; [apply Hcalc |].
  fold entry. simpl.
  split; [exact Hlo |]. split; [exact Hhi |].
  apply round_mono.
  apply Qmult_le_compat_r; [| discriminate].
  apply Qplus_le_compat; assumption.
Qed.

End PricingTheorems.

(** At "India" a score of 90 prices no lower than a score of 50. *)
Lemma calculate_pricing_monotone_example :
  (50 <= 90)%Q /\
  exists band1 band2,
    @MarketService.calculate_pricing (TestDouble.scripted []) "India" 50
    = Ok band1 /\
    @MarketService.calculate_pricing (TestDouble.scripted []) "India" 90
    = Ok band2 /\
    (price_min band1 <= price_min band2)%Q /\
    (price_max band1 <= price_max band2)%Q /\
    (price_recommended band1 <= price_recommended band2)%Q.
Proof.
  split.
  - discriminate.
  - apply (@calculate_pricing_monotone (TestDouble.scripted []) "India" 50 90).
    discriminate.
Defined.

(** ** The aggregate scores *)

Section ScoreFacts.

Local Open Scope Q_scope.




(** A weighted mean with positive weights lies between any two bounds of
    the scores. *)
Lemma weighted_sum_bounds (lo hi : Q) (pairs : list (Q * Q)) :
  (forall p, In p pairs -> lo <= fst p <= hi /\ 0 < snd p) ->
  0 <= Spec.total (map snd pairs) /\
  lo * Spec.total (map snd pairs)
  <= Spec.total (map (fun p => fst p * snd p) pairs) /\
  Spec.total (map (fun p => fst p * snd p) pairs)
  <= hi * Spec.total (map snd pairs).
Proof.
  induction pairs as [| [s w] pairs IH]; intros Hall; simpl.
  - repeat split; lra.
  - destruct (Hall (s, w)) as [[Hlo Hhi] Hw]; [left; reflexivity |].
    simpl in Hlo, Hhi, Hw.
    destruct IH as (HW & HL & HH).
    { intros p Hp. apply Hall. right. exact Hp. }
    assert (lo * w <= s * w) by (apply Qmult_le_compat_r; lra).
    assert (s * w <= hi * w) by (apply Qmult_le_compat_r; lra).
    repeat split; lra.
Qed.

Lemma total_weight_pos (pairs : list (Q * Q)) :
  pairs <> [] ->
  (forall p, In p pairs -> 0 < snd p) ->
  0 < Spec.total (map snd pairs).
Proof.
  intros Hne Hall.
  assert (Hnonneg : forall ps : list (Q * Q),
            (forall p, In p ps -> 0 < snd p) ->
            0 <= Spec.total (map snd ps)).
  { induction ps as [| p ps IH]; intros Hps; simpl; [lra |].
    pose proof (Hps p (or_introl eq_refl)).
    pose proof (IH (fun q Hq => Hps q (or_intror Hq))).
    lra. }
  destruct pairs as [| p rest]; [contradiction |]. simpl.
  pose proof (Hall p (or_introl eq_refl)).
  pose proof (Hnonneg rest (fun q Hq => Hall q (or_intror Hq))).
  lra.
Qed.

Lemma weighted_mean_bounds (lo hi : Q) (pairs : list (Q * Q)) :
  pairs <> [] ->
  (forall p, In p pairs -> lo <= fst p <= hi /\ 0 < snd p) ->
  lo <= Spec.weighted_mean pairs <= hi.
Proof.
  intros Hne Hall.
  assert (Hpos : 0 < Spec.total (map snd pairs)).
  { apply total_weight_pos; [exact Hne |].
    intros p Hp. apply Hall, Hp. }
  destruct (weighted_sum_bounds lo hi pairs Hall) as (_ & HL & HH).
  unfold Spec.weighted_mean. split.
  - apply Qle_shift_div_l; assumption.
  - apply Qle_shift_div_r; assumption.
Qed.

Lemma market_weight_spec (analysis : MarketAnalysis) :
  AnalysisService.market_weight analysis
  = (Spec.sizeWeight
       (match dict_get MARKET_DATA (location analysis) with
        | Some e => market_size e
        | None => "medium"
        end)
     * Spec.maturityWeight
         (match dict_get MARKET_DATA (location analysis) with
          | Some e => market_maturity e
          | None => "mature"
          end)).
Proof.
  unfold AnalysisService.market_weight.
  rewrite size_weight_lookup, maturity_weight_lookup. reflexivity.
Qed.

Lemma market_weight_pos (analysis : MarketAnalysis) :
  0 < AnalysisService.market_weight analysis.
Proof.
  rewrite market_weight_spec.
  apply Qmult_lt_0_compat; [apply sizeWeight_pos | apply maturityWeight_pos].
Qed.

Lemma weighted_totals_fold (market_analyses : list MarketAnalysis)
    (acc : Q * Q) :
  let r :=
    fold_left
      (fun acc analysis =>
         let weight := AnalysisService.market_weight analysis in
         (fst acc + market_score analysis * weight, snd acc + weight))
      market_analyses acc in
  fst r == fst acc
           + Spec.total (map (fun p => fst p * snd p)
                           (Spec.score_pairs market_analyses)) /\
  snd r == snd acc + Spec.total (map snd (Spec.score_pairs market_analyses)).
Proof.
  revert acc. induction market_analyses as [| a rest IH]; intros acc; simpl.
  - split; ring.
  - destruct (IH (fst acc + market_score a * AnalysisService.market_weight a,
                  snd acc + AnalysisService.market_weight a)) as [H1 H2].
    simpl in H1, H2. split.
    + rewrite H1. ring.
    + rewrite H2. ring.
Qed.

Lemma score_pairs_weight_pos (market_analyses : list MarketAnalysis) :
  market_analyses <> [] ->
  0 < Spec.total (map snd (Spec.score_pairs market_analyses)).
Proof.
  intros Hne. apply total_weight_pos.
  - destruct market_analyses; [contradiction | discriminate].
  - intros p Hp. unfold Spec.score_pairs in Hp. apply in_map_iff in Hp.
    destruct Hp as (a & <- & _). apply market_weight_pos.
Qed.

Lemma weighted_totals_spec (market_analyses : list MarketAnalysis) :
  fst (AnalysisService.weighted_totals market_analyses)
  == Spec.total (map (fun p => fst p * snd p)
                   (Spec.score_pairs market_analyses)) /\
  snd (AnalysisService.weighted_totals market_analyses)
  == Spec.total (map snd (Spec.score_pairs market_analyses)).
Proof.
  destruct (weighted_totals_fold market_analyses (0, 0)) as [HS HW].
  unfold AnalysisService.weighted_totals.
  split; [rewrite HS | rewrite HW]; unfold fst, snd; ring.
Qed.

Lemma overall_score_weighted_mean (market_analyses : list MarketAnalysis) :
  market_analyses <> [] ->
  AnalysisService._calculate_overall_score market_analyses
  == PyNum.round (Spec.weighted_mean (Spec.score_pairs market_analyses)) 1.
Proof.
  intros Hne.
  destruct (weighted_totals_spec market_analyses) as [HS HW].
  pose proof (score_pairs_weight_pos market_analyses Hne) as Hpos.
  unfold AnalysisService._calculate_overall_score.
  destruct market_analyses as [| a rest]; [contradiction |].
  destruct (AnalysisService.weighted_totals (a :: rest)) as [tws tw].
  unfold fst, snd in HS, HW.
  destruct (Qlt_le_dec 0 tw) as [Htw | Htw].
  - apply round_compat. unfold Spec.weighted_mean.
    rewrite <- HS, <- HW. reflexivity.
  - exfalso. rewrite <- HW in Hpos. lra.
Qed.



End ScoreFacts.

Section ConfidenceFacts.
Context `{Externals}.

Local Open Scope Q_scope.



Lemma market_consistency_nonneg (market_analyses : list MarketAnalysis) :
  0 <= AnalysisService._calculate_market_consistency market_analyses.
Proof.
  unfold AnalysisService._calculate_market_consistency.
  destruct (List.length market_analyses <? 2)%nat; [discriminate |].
  apply round_nonneg, py_max_le_l.
Qed.


Lemma confidence_upper (design_features : DesignFeatures)
    (market_analyses : list MarketAnalysis) :
  AnalysisService._calculate_confidence_score design_features market_analyses
  <= 95.
Proof.
  unfold AnalysisService._calculate_confidence_score.
  apply (round_le_Z _ 95), py_min_le_l.
Qed.

Lemma confidence_lower (design_features : DesignFeatures)
    (market_analyses : list MarketAnalysis) :
  0 <= visual_appeal_score design_features ->
  0 <= uniqueness_score design_features ->
  0 <= AnalysisService._calculate_confidence_score design_features
         market_analyses.
Proof.
  intros Hv Hu.
  unfold AnalysisService._calculate_confidence_score.
  apply round_nonneg.
  pose proof (market_consistency_nonneg market_analyses) as Hc.
  assert (Hd : 0 <= PyNum.min 100 (visual_appeal_score design_features
                                    + uniqueness_score design_features)).
  { apply py_min_glb; lra. }
  assert (Hn : 0 <= inject_Z (Z.of_nat (List.length market_analyses))).
  { change 0 with (inject_Z 0). rewrite <- Zle_Qle. lia. }
  apply py_min_glb; [discriminate |].
  unfold Qdiv. change (/ 2) with (1 # 2). change (/ 8) with (1 # 8).
  lra.
Qed.

End ConfidenceFacts.

Section ConfidenceTheorems.
Context `{Externals}.

Local Open Scope Q_scope.


(** C6, as the service guarantees it: the confidence score never exceeds
    95, and it is at least 0 when the visual-appeal and the uniqueness
    scores are not negative. *)
Theorem confidence_score_bounds (design_features : DesignFeatures)
    (market_analyses : list MarketAnalysis) :
  AnalysisService._calculate_confidence_score design_features market_analyses
  <= 95 /\
  (0 <= visual_appeal_score design_features ->
   0 <= uniqueness_score design_features ->
   0 <= AnalysisService._calculate_confidence_score design_features
          market_analyses).
Proof.
  split.
  - apply confidence_upper.
  - apply confidence_lower.
Qed.

End ConfidenceTheorems.



(** C6 fails for scores below zero: with both design scores at -100 and no
    market the confidence score is -8. *)
Lemma confidence_negative_example :
  let ext := TestDouble.scripted [] in
  let features := TestDouble.sample_features (-100) (-100) in
  (@AnalysisService._calculate_confidence_score ext features [] == -8)%Q /\
  ~ (0 <= @AnalysisService._calculate_confidence_score ext features [])%Q.
Proof.
  split; vm_compute; [reflexivity |].
  intros Hle. apply Hle. reflexivity.
Qed.

(** The bounds on a run with both design scores at 80. *)
Lemma confidence_score_bounds_example :
  let ext := TestDouble.scripted [] in
  let features := TestDouble.sample_features 80 80 in
  let markets := [TestDouble.sample_market "USA" 80] in
  (0 <= visual_appeal_score features)%Q /\
  (0 <= uniqueness_score features)%Q /\
  (0 <= @AnalysisService._calculate_confidence_score ext features markets
   <= 95)%Q.
Proof.
  intros ext features markets.
  assert (Hv : (0 <= visual_appeal_score features)%Q) by discriminate.
  assert (Hu : (0 <= uniqueness_score features)%Q) by discriminate.
  destruct (@confidence_score_bounds ext features markets) as [Hhi Hlo].
  split; [exact Hv |]. split; [exact Hu |].
  split; [exact (Hlo Hv Hu) | exact Hhi].
Defined.

(** ** Fenced responses *)

Section StringFacts.

Import PyStr.

Lemma length_app (a b : string) :
  String.length (a ++ b) = (String.length a + String.length b)%nat.
Proof.
  induction a as [| c a IH]; simpl; [reflexivity | rewrite IH; reflexivity].
Qed.

Lemma drop_app (a b : string) : drop (String.length a) (a ++ b) = b.
Proof.
  induction a as [| c a IH]; simpl; [reflexivity | exact IH].
Qed.

Lemma take_app (a b : string) : take (String.length a) (a ++ b) = a.
Proof.
  induction a as [| c a IH]; simpl; [reflexivity | rewrite IH; reflexivity].
Qed.

Lemma norm_index_inside (len : nat) (i : Z) :
  (0 <= i <= Z.of_nat len)%Z -> norm_index len i = Z.to_nat i.
Proof.
  intros Hi. unfold norm_index.
  destruct (Z.ltb_spec i 0); [lia |].
  f_equal. lia.
Qed.

Lemma find_inside (s sub : string) (start : nat) :
  (start <= String.length s)%nat ->
  find s sub (Z.of_nat start)
  = match find_sub sub (drop start s) with
    | Some i => Z.of_nat (start + i)
    | None => (-1)%Z
    end.
Proof.
  intros Hs. unfold find.
  rewrite norm_index_inside by lia. rewrite Nat2Z.id.
  destruct (Z.ltb_spec (Z.of_nat (String.length s)) (Z.of_nat start));
    [lia | reflexivity].
Qed.

Lemma slice_inside (s : string) (a b : nat) :
  (a <= b <= String.length s)%nat ->
  slice s (Z.of_nat a) (Z.of_nat b) = take (b - a) (drop a s).
Proof.
  intros Hab. unfold slice.
  rewrite !norm_index_inside by lia. rewrite !Nat2Z.id. reflexivity.
Qed.

(** Stripping keeps a text that begins and ends with other characters. *)
Lemma rstrip_app (s t : string) :
  t <> EmptyString -> rstrip t = t -> rstrip (s ++ t) = s ++ t.
Proof.
  intros Hne Ht. induction s as [| c s IH]; simpl; [exact Ht |].
  rewrite IH. destruct (s ++ t) eqn:Hst; [| reflexivity].
  destruct s; simpl in Hst; [contradiction | discriminate].
Qed.

Lemma startswith_app (a b sub : string) :
  startswith a sub = true -> startswith (a ++ b) sub = true.
Proof.
  revert a. induction sub as [| c sub IH]; intros a; simpl; [reflexivity |].
  destruct a as [| d a]; simpl; [discriminate |].
  intros Hs. apply andb_true_iff in Hs as [Hc Hs].
  rewrite Hc. simpl. apply IH, Hs.
Qed.

Lemma find_sub_tail (sub : string) (c : ascii) (s : string) :
  find_sub sub (String c s) = None -> find_sub sub s = None.
Proof.
  simpl. destruct (startswith (String c s) sub); [discriminate |].
  destruct (find_sub sub s); [discriminate | reflexivity].
Qed.

Lemma find_sub_head (sub : string) (s : string) :
  find_sub sub s = None -> startswith s sub = false.
Proof.
  destruct s; simpl; destruct (startswith _ sub); try discriminate; reflexivity.
Qed.

Lemma find_sub_prefix (sub a b : string) :
  find_sub sub (a ++ b) = None -> find_sub sub a = None.
Proof.
  induction a as [| c a IH]; intros Hnone.
  - pose proof (find_sub_head _ _ Hnone) as Hh. simpl in Hh.
    destruct sub; simpl.
    + simpl in Hnone. destruct b; discriminate.
    + reflexivity.
  - pose proof (find_sub_head _ _ Hnone) as Hh.
    pose proof (find_sub_tail _ _ _ Hnone) as Ht.
    change (find_sub sub (String c a))
      with (if startswith (String c a) sub then Some O
            else option_map S (find_sub sub a)).
    destruct (startswith (String c a) sub) eqn:Hs.
    + apply (startswith_app _ b) in Hs. simpl in Hs, Hh. congruence.
    + rewrite (IH Ht). reflexivity.
Qed.

Lemma find_sub_lstrip (sub s : string) :
  find_sub sub s = None -> find_sub sub (lstrip s) = None.
Proof.
  induction s as [| c s IH]; intros Hnone; simpl; [exact Hnone |].
  destruct (isspace c); [apply IH, (find_sub_tail _ _ _ Hnone) | exact Hnone].
Qed.

Lemma rstrip_prefix (s : string) : exists b, s = rstrip s ++ b.
Proof.
  induction s as [| c s [b IH]]; simpl.
  - exists EmptyString. reflexivity.
  - destruct (rstrip s) as [| d r] eqn:Hr.
    + destruct (isspace c).
      * exists (String c s). reflexivity.
      * exists b. simpl. simpl in IH. rewrite <- IH. reflexivity.
    + exists b. simpl. simpl in IH. rewrite <- IH. reflexivity.
Qed.

Lemma find_sub_strip (sub s : string) :
  find_sub sub s = None -> find_sub sub (strip s) = None.
Proof.
  intros Hnone. unfold strip.
  destruct (rstrip_prefix (lstrip s)) as [b Hb].
  apply (find_sub_prefix sub _ b). rewrite <- Hb.
  apply find_sub_lstrip, Hnone.
Qed.

Lemma contains_false (sub s : string) :
  contains sub s = false <-> find_sub sub s = None.
Proof.
  unfold contains. destruct (find_sub sub s); split; congruence.
Qed.

End StringFacts.

Section FenceFacts.

Import PyStr.

Local Arguments Ascii.eqb : simpl never.

Local Abbreviation fence := GeminiService.fence.
Local Abbreviation json_fence := GeminiService.json_fence.

Lemma fence_free_tail (c : ascii) (j : string) :
  Spec.fence_free (String c j) -> Spec.fence_free j.
Proof.
  intros [Hc Hl]. split.
  - apply contains_false. apply contains_false in Hc.
    apply (find_sub_tail _ _ _ Hc).
  - destruct j; [discriminate | exact Hl].
Qed.

Lemma fence_free_head (c : ascii) (j : string) :
  Spec.fence_free (String c j) -> startswith (String c j ++ fence) fence = false.
Proof.
  intros [Hc Hl]. apply contains_false in Hc.
  apply find_sub_head in Hc.
  destruct j as [| c2 [| c3 j3]]; simpl in *.
  - destruct (Ascii.eqb_spec "`" c) as [Heq | _]; [| reflexivity].
    exfalso. apply Hl. rewrite Heq. reflexivity.
  - destruct (Ascii.eqb_spec "`" c2) as [Heq | _];
      [| destruct (Ascii.eqb "`" c); reflexivity].
    exfalso. apply Hl. rewrite Heq. reflexivity.
  - exact Hc.
Qed.

Lemma json_fence_weaken (s : string) :
  startswith s fence = false -> startswith s json_fence = false.
Proof.
  destruct s as [| a [| b [| c s]]]; simpl; try reflexivity.
  - destruct (Ascii.eqb "`" a); reflexivity.
  - destruct (Ascii.eqb "`" a); [| reflexivity].
    destruct (Ascii.eqb "`" b); reflexivity.
  - destruct (Ascii.eqb "`" a); [| reflexivity].
    destruct (Ascii.eqb "`" b); [| reflexivity].
    destruct (Ascii.eqb "`" c); [discriminate | reflexivity].
Qed.

Lemma no_fence_no_json_fence (s : string) :
  find_sub fence s = None -> find_sub json_fence s = None.
Proof.
  induction s as [| c s IH]; intros Hnone.
  - reflexivity.
  - pose proof (find_sub_head _ _ Hnone) as Hh.
    pose proof (find_sub_tail _ _ _ Hnone) as Ht.
    change (find_sub json_fence (String c s))
      with (if startswith (String c s) json_fence then Some O
            else option_map S (find_sub json_fence s)).
    rewrite (json_fence_weaken _ Hh), (IH Ht). reflexivity.
Qed.

(** The closing fence is the first fence after a fence-free text. *)
Lemma closing_fence_found (j : string) :
  Spec.fence_free j -> find_sub fence (j ++ fence) = Some (String.length j).
Proof.
  induction j as [| c j IH]; intros Hfree.
  - reflexivity.
  - pose proof (fence_free_head _ _ Hfree) as Hh.
    change (find_sub fence (String c j ++ fence))
      with (if startswith (String c j ++ fence) fence then Some O
            else option_map S (find_sub fence (j ++ fence))).
    rewrite Hh, (IH (fence_free_tail _ _ Hfree)). reflexivity.
Qed.

Lemma no_json_fence_before_closing (j : string) :
  Spec.fence_free j -> find_sub json_fence (j ++ fence) = None.
Proof.
  induction j as [| c j IH]; intros Hfree.
  - reflexivity.
  - pose proof (json_fence_weaken _ (fence_free_head _ _ Hfree)) as Hh.
    change (find_sub json_fence (String c j ++ fence))
      with (if startswith (String c j ++ fence) json_fence then Some O
            else option_map S (find_sub json_fence (j ++ fence))).
    rewrite Hh, (IH (fence_free_tail _ _ Hfree)). reflexivity.
Qed.

Lemma append_assoc' (a b c : string) : (a ++ b) ++ c = a ++ b ++ c.
Proof.
  induction a as [| x a IH]; simpl; [reflexivity | rewrite IH; reflexivity].
Qed.

Lemma strip_fenced (open_fence j : string) :
  lstrip (open_fence ++ j ++ fence) = open_fence ++ j ++ fence ->
  strip (open_fence ++ j ++ fence) = open_fence ++ j ++ fence.
Proof.
  intros Hl. unfold strip. rewrite Hl.
  rewrite <- append_assoc'.
  apply rstrip_app; [discriminate | reflexivity].
Qed.

(** What [clean_response_text] hands to the decoder, for a bare text and
    for the same text inside either fence. *)
Lemma clean_bare (j : string) :
  contains fence j = false ->
  GeminiService.clean_response_text j = strip j.
Proof.
  intros Hc. apply contains_false in Hc.
  pose proof (find_sub_strip _ _ Hc) as Hs.
  pose proof (no_fence_no_json_fence _ Hs) as Hj.
  unfold GeminiService.clean_response_text, contains.
  rewrite Hj, Hs. reflexivity.
Qed.

Lemma clean_json_fenced (j : string) :
  Spec.fence_free j ->
  GeminiService.clean_response_text (json_fence ++ j ++ fence) = strip j.
Proof.
  intros Hfree.
  unfold GeminiService.clean_response_text.
  rewrite (strip_fenced json_fence j) by reflexivity.
  set (text := json_fence ++ j ++ fence).
  assert (Hlen : String.length text = (7 + (String.length j + 3))%nat).
  { unfold text. rewrite !length_app. reflexivity. }
  assert (Hin : contains json_fence text = true) by reflexivity.
  rewrite Hin.
  assert (Hstart : find text json_fence 0 = 0%Z).
  { change 0%Z with (Z.of_nat 0).
    rewrite (find_inside text json_fence 0) by lia. reflexivity. }
  rewrite Hstart.
  assert (Hstop : find text fence (0 + 7) = Z.of_nat (7 + String.length j)).
  { change (0 + 7)%Z with (Z.of_nat 7).
    rewrite find_inside by lia.
    change (drop 7 text) with (j ++ fence).
    rewrite (closing_fence_found j Hfree). reflexivity. }
  rewrite Hstop.
  change (0 + 7)%Z with (Z.of_nat 7).
  rewrite slice_inside by lia.
  change (drop 7 text) with (j ++ fence).
  replace (7 + String.length j - 7)%nat with (String.length j) by lia.
  rewrite take_app. reflexivity.
Qed.

Lemma clean_fenced (j : string) :
  Spec.fence_free j ->
  first_char j <> Some "`"%char ->
  startswith j "json" = false ->
  GeminiService.clean_response_text (fence ++ j ++ fence) = strip j.
Proof.
  intros Hfree Hfirst Hjson.
  unfold GeminiService.clean_response_text.
  rewrite (strip_fenced fence j) by reflexivity.
  set (text := fence ++ j ++ fence).
  assert (Hlen : String.length text = (3 + (String.length j + 3))%nat).
  { unfold text. rewrite !length_app. reflexivity. }
  assert (Hnot : contains json_fence text = false).
  { apply contains_false.
    pose proof (no_json_fence_before_closing j Hfree) as Hrest.
    unfold text, GeminiService.fence, GeminiService.json_fence in *.
    destruct j as [| a j'].
    - reflexivity.
    - assert (Ha : Ascii.eqb "`" a = false).
      { destruct (Ascii.eqb_spec "`" a) as [Heq | _]; [| reflexivity].
        exfalso. apply Hfirst. rewrite Heq. reflexivity. }
      assert (Hj : startswith (String a j' ++ "```") "json" = false).
      { clear - Hjson.
        destruct j' as [| b [| c [| d j4]]]; simpl in *;
          repeat match goal with
                 | |- context [Ascii.eqb ?x ?y] =>
                     is_var y; destruct (Ascii.eqb x y)
                 end; simpl in *; try reflexivity; try discriminate. }
      simpl in Hrest, Hj |- *.
      rewrite Hj. rewrite Ha in Hrest |- *. simpl in Hrest |- *.
      destruct (find_sub "```json" (j' ++ "```"));
        [discriminate Hrest | reflexivity]. }
  rewrite Hnot.
  assert (Hin : contains fence text = true) by reflexivity.
  rewrite Hin.
  assert (Hstart : find text fence 0 = 0%Z).
  { change 0%Z with (Z.of_nat 0).
    rewrite (find_inside text fence 0) by lia. reflexivity. }
  rewrite Hstart.
  assert (Hstop : find text fence (0 + 3) = Z.of_nat (3 + String.length j)).
  { change (0 + 3)%Z with (Z.of_nat 3).
    rewrite find_inside by lia.
    change (drop 3 text) with (j ++ fence).
    rewrite (closing_fence_found j Hfree). reflexivity. }
  rewrite Hstop.
  change (0 + 3)%Z with (Z.of_nat 3).
  rewrite slice_inside by lia.
  change (drop 3 text) with (j ++ fence).
  replace (3 + String.length j - 3)%nat with (String.length j) by lia.
  rewrite take_app. reflexivity.
Qed.

End FenceFacts.

Section ParseTheorems.
Context `{Externals}.

(** C8, for the texts the fences can carry: when [j] holds no triple
    backtick, does not end with a backtick, and does not begin with a
    backtick or with the word json, parsing [j], [j] inside a plain fence
    and [j] inside a json fence give the same outcome: the decoder applied
    to [j] without its surrounding white space. *)
Theorem fenced_and_bare_parse_alike (j : string) :
  Spec.fence_free j ->
  PyStr.first_char j <> Some "`"%char ->
  PyStr.startswith j "json" = false ->
  GeminiService._parse_json_response j
  = match json_loads (PyStr.strip j) with
    | Some v => Ok v
    | None => Raise (Exn AIServiceError "Invalid JSON response from AI service")
    end /\
  GeminiService._parse_json_response ("```" ++ j ++ "```")
  = GeminiService._parse_json_response j /\
  GeminiService._parse_json_response ("```json" ++ j ++ "```")
  = GeminiService._parse_json_response j.
Proof.
  intros Hfree Hfirst Hjson.
  unfold GeminiService._parse_json_response.
  rewrite (clean_bare j (proj1 Hfree)).
  change "```" with GeminiService.fence.
  change "```json" with GeminiService.json_fence.
  rewrite (clean_fenced j Hfree Hfirst Hjson).
  rewrite (clean_json_fenced j Hfree).
  repeat split; reflexivity.
Qed.

End ParseTheorems.

(** C8 fails for a JSON object with a fenced block inside a string: bare,
    the parser takes the inner block and answers the empty object; inside a
    json fence, it cuts the object at the inner fence and fails. *)
Lemma fenced_parse_differs :
  let ext := TestDouble.scripted [] in
  let j := TestDouble.fence_inside in
  JsonRef.loads j = Some (JObj [("a", JStr "```json{}```")]) /\
  @GeminiService._parse_json_response ext j = Ok (JObj []) /\
  @GeminiService._parse_json_response ext ("```json" ++ j ++ "```")
  = Raise (Exn AIServiceError "Invalid JSON response from AI service") /\
  @GeminiService._parse_json_response ext j
  <> @GeminiService._parse_json_response ext ("```json" ++ j ++ "```").
Proof.
  repeat split; try (vm_compute; reflexivity).
  vm_compute. discriminate.
Qed.

(** A JSON object on lines of its own parses alike bare and fenced. *)
Lemma fenced_and_bare_parse_alike_example :
  let ext := TestDouble.scripted [] in
  let j := TestDouble.padded_object in
  Spec.fence_free j /\
  PyStr.first_char j <> Some "`"%char /\
  PyStr.startswith j "json" = false /\
  @GeminiService._parse_json_response ext j
  = Ok (JObj [("market_score", JNum 80)]) /\
  @GeminiService._parse_json_response ext ("```" ++ j ++ "```")
  = @GeminiService._parse_json_response ext j /\
  @GeminiService._parse_json_response ext ("```json" ++ j ++ "```")
  = @GeminiService._parse_json_response ext j.
Proof.
  intros ext j.
  assert (Hfree : Spec.fence_free j).
  { split; [vm_compute; reflexivity | vm_compute; discriminate]. }
  assert (Hfirst : PyStr.first_char j <> Some "`"%char).
  { vm_compute. discriminate. }
  assert (Hjson : PyStr.startswith j "json" = false).
  { vm_compute. reflexivity. }
  destruct (@fenced_and_bare_parse_alike ext j Hfree Hfirst Hjson)
    as (_ & Hplain & Htagged).
  split; [exact Hfree |]. split; [exact Hfirst |]. split; [exact Hjson |].
  split; [vm_compute; reflexivity |].
  split; [exact Hplain | exact Htagged].
Defined.

(** ** The recommendation call *)

Section RecommendationFacts.
Context `{Externals}.

Lemma generate_recommendations_cases (design_features : DesignFeatures)
    (market_analyses : list MarketAnalysis) (w : ai_log) :
  match recommendations_prompt design_features market_analyses with
  | Raise _ =>
      GeminiService.generate_recommendations design_features market_analyses w
      = (Ok GeminiService.default_recommendations, w)
  | Ok prompt =>
      let w' := (w ++ [Request prompt None])%list in
      match generate_content w (Request prompt None) with
      | Raise _ =>
          GeminiService.generate_recommendations design_features
            market_analyses w
          = (Ok GeminiService.default_recommendations, w')
      | Ok text =>
          match GeminiService._parse_json_response text with
          | Ok (JObj fields) =>
              GeminiService.generate_recommendations design_features
                market_analyses w
              = (Ok (dict_get_default fields "recommendations" (JArr [])), w')
          | _ =>
              GeminiService.generate_recommendations design_features
                market_analyses w
              = (Ok GeminiService.default_recommendations, w')
          end
      end
  end.
Proof.
  unfold GeminiService.generate_recommendations, try_except, bind, lift,
    call_model, ret.
  destruct (recommendations_prompt design_features market_analyses)
    as [prompt | e]; [| reflexivity].
  cbv zeta.
  destruct (generate_content w (Request prompt None)) as [text | e];
    [| reflexivity].
  destruct (GeminiService._parse_json_response text) as [v | e];
    [| reflexivity].
  destruct v; reflexivity.
Qed.

Lemma generate_recommendations_ok (design_features : DesignFeatures)
    (market_analyses : list MarketAnalysis) (w : ai_log) :
  exists v w',
    GeminiService.generate_recommendations design_features market_analyses w
    = (Ok v, w').
Proof.
  pose proof (generate_recommendations_cases design_features market_analyses w)
    as Hc.
  destruct (recommendations_prompt design_features market_analyses)
    as [prompt | e]; [| eauto].
  cbv zeta in Hc.
  destruct (generate_content w (Request prompt None)) as [text | e];
    [| eauto].
  destruct (GeminiService._parse_json_response text) as [v | e]; [| eauto].
  destruct v; eauto.
Qed.

End RecommendationFacts.

Section RecommendationTheorems.
Context `{Externals}.

(** C10: [generate_recommendations] never raises.  When building the
    prompt, the model call or the parse raises, the answer is the fixed
    list of three strings; when the parse succeeds and the decoded object
    has no "recommendations" key, the answer is the empty list. *)
Theorem generate_recommendations_never_raises
    (design_features : DesignFeatures)
    (market_analyses : list MarketAnalysis) (w : ai_log) :
  (exists v w',
     GeminiService.generate_recommendations design_features market_analyses w
     = (Ok v, w')) /\
  (forall e,
     recommendations_prompt design_features market_analyses = Raise e ->
     GeminiService.generate_recommendations design_features market_analyses w
     = (Ok GeminiService.default_recommendations, w)) /\
  (forall prompt,
     recommendations_prompt design_features market_analyses = Ok prompt ->
     let req := Request prompt None in
     (forall e,
        generate_content w req = Raise e ->
        GeminiService.generate_recommendations design_features
          market_analyses w
        = (Ok GeminiService.default_recommendations, (w ++ [req])%list)) /\
     (forall text e,
        generate_content w req = Ok text ->
        GeminiService._parse_json_response text = Raise e ->
        GeminiService.generate_recommendations design_features
          market_analyses w
        = (Ok GeminiService.default_recommendations, (w ++ [req])%list)) /\
     (forall text fields,
        generate_content w req = Ok text ->
        GeminiService._parse_json_response text = Ok (JObj fields) ->
        dict_get fields "recommendations" = None ->
        GeminiService.generate_recommendations design_features
          market_analyses w
        = (Ok (JArr []), (w ++ [req])%list))).
Proof.
  pose proof (generate_recommendations_cases design_features market_analyses w)
    as Hc.
  split; [apply generate_recommendations_ok |].
  split.
  - intros e He. rewrite He in Hc. exact Hc.
  - intros prompt Hp req. rewrite Hp in Hc. cbv zeta in Hc. fold req in Hc.
    repeat split.
    + intros e He. rewrite He in Hc. exact Hc.
    + intros text e Ht Hparse. rewrite Ht, Hparse in Hc. exact Hc.
    + intros text fields Ht Hparse Hkey. rewrite Ht, Hparse in Hc.
      unfold dict_get_default in Hc. rewrite Hkey in Hc. exact Hc.
Qed.

End RecommendationTheorems.

(** A response without the key leaves the result with no recommendation. *)
Lemma generate_recommendations_empty_example :
  let ext := TestDouble.scripted [Ok TestDouble.no_recommendations_response] in
  let features := TestDouble.sample_features 80 80 in
  let markets := [TestDouble.sample_market "USA" 80] in
  let req :=
    Request
      "Generate strategic business recommendations based on this analysis:"
      None in
  @recommendations_prompt ext features markets = Ok (req_prompt req) /\
  @generate_content ext [] req = Ok TestDouble.no_recommendations_response /\
  @GeminiService._parse_json_response ext
    TestDouble.no_recommendations_response
  = Ok (JObj [("notes", JArr [])]) /\
  dict_get [("notes", JArr [])] "recommendations" = None /\
  @GeminiService.generate_recommendations ext features markets []
  = (Ok (JArr []), [req]).
Proof.
  intros ext features markets req.
  assert (Hp : @recommendations_prompt ext features markets
               = Ok (req_prompt req)) by reflexivity.
  assert (Ht : @generate_content ext [] req
               = Ok TestDouble.no_recommendations_response) by reflexivity.
  assert (Hparse : @GeminiService._parse_json_response ext
                     TestDouble.no_recommendations_response
                   = Ok (JObj [("notes", JArr [])]))
    by (vm_compute; reflexivity).
  assert (Hkey : dict_get [("notes", JArr [])] "recommendations" = None)
    by reflexivity.
  repeat (split; [assumption |]).
  destruct (@generate_recommendations_never_raises ext features markets [])
    as (_ & _ & Hcases).
  destruct (Hcases (req_prompt req) Hp) as (_ & _ & Hempty).
  exact (Hempty _ _ Ht Hparse Hkey).
Defined.

(** ** The pipeline *)

Section PipelineFacts.
Context `{Externals}.

Lemma gather_outcomes {A B : Type} (f : B -> M A) (xs : list B)
    (w : ai_log) (rs : list (result A)) (w' : ai_log) :
  gather (map f xs) w = (rs, w') ->
  Forall2 (fun x r => exists wa wb, f x wa = (r, wb)) xs rs.
Proof.
  revert w rs w'. induction xs as [| x xs IH]; intros w rs w'; simpl.
  - intros [= <- <-]. constructor.
  - destruct (f x w) as [r w1] eqn:Hx.
    destruct (gather (map f xs) w1) as [rs' w2] eqn:Hxs.
    intros [= <- <-]. constructor.
    + exists w, w1. exact Hx.
    + eapply IH. exact Hxs.
Qed.


Lemma validate_image_kind (image_data : list byte) (filename : string)
    (e : exn) :
  ImageService.validate_image image_data filename = Raise e ->
  exn_kind e = ImageProcessingError.
Proof.
  unfold ImageService.validate_image.
  destruct (ImageService.validate_image_body image_data) as [b | e0];
    [discriminate |].
  destruct (exn_class_eqb (exn_kind e0) ImageProcessingError) eqn:Hk.
  - intros [= <-]. destruct (exn_kind e0); try discriminate; reflexivity.
  - intros [= <-]. reflexivity.
Qed.

Lemma rejected_by_validate (image_data : list byte) (filename : string) :
  Spec.fails_preconditioning image_data ->
  exists e, ImageService.validate_image image_data filename = Raise e.
Proof.
  intros Hfail.
  assert (Hbody : exists e,
            ImageService.validate_image_body image_data = Raise e).
  { unfold ImageService.validate_image_body, rbind, runtime_error.
    destruct (max_file_size settings <? Z.of_nat (List.length image_data))%Z
      eqn:Hsize; [eauto |].
    destruct Hfail as [Hbig | e Hopen | image Hopen Hfmt
                      | image f Hopen Hfmt Hsup | image Hopen Hsmall].
    - apply Z.ltb_ge in Hsize. lia.
    - rewrite Hopen. eauto.
    - rewrite Hopen, Hfmt. eauto.
    - rewrite Hopen, Hfmt. cbv beta iota. rewrite Hsup. simpl. eauto.
    - rewrite Hopen.
      destruct (img_format image) as [f |]; [| eauto].
      cbv beta iota.
      destruct (existsb _ _); cbv beta iota delta [negb]; [| eauto].
      apply Z.ltb_lt in Hsmall. rewrite Hsmall. eauto. }
  destruct Hbody as [e0 He0].
  unfold ImageService.validate_image. rewrite He0.
  destruct (exn_class_eqb _ _); eauto.
Qed.

Lemma pipeline_wraps (image_data : list byte) (locations : list string)
    (filename : string) (w w' : ai_log) (e : exn) :
  AnalysisService.analyze_tshirt_design_body image_data locations filename w
  = (Raise e, w') ->
  AnalysisService.analyze_tshirt_design image_data locations filename w
  = (Raise (Exn AnalysisServiceError
              ("Analysis pipeline failed: " ++ exn_msg e)), w').
Proof.
  intros Hbody. unfold AnalysisService.analyze_tshirt_design, try_except.
  rewrite Hbody. reflexivity.
Qed.

Lemma pipeline_passes (image_data : list byte) (locations : list string)
    (filename : string) (w w' : ai_log) (r : AnalysisResult) :
  AnalysisService.analyze_tshirt_design image_data locations filename w
  = (Ok r, w') ->
  AnalysisService.analyze_tshirt_design_body image_data locations filename w
  = (Ok r, w').
Proof.
  unfold AnalysisService.analyze_tshirt_design, try_except.
  destruct (AnalysisService.analyze_tshirt_design_body _ _ _ w)
    as [[r0 | e] w0]; [intros H0; exact H0 | discriminate].
Qed.

(** The stages a successful run went through. *)
Lemma pipeline_stages (image_data : list byte) (locations : list string)
    (filename : string) (w w' : ai_log) (r : AnalysisResult) :
  AnalysisService.analyze_tshirt_design image_data locations filename w
  = (Ok r, w') ->
  exists processed size w1 results w2,
    (exists b, ImageService.validate_image image_data filename = Ok b) /\
    ImageService.process_image image_data = Ok (processed, size) /\
    GeminiService.analyze_design_image processed w
    = (Ok (design_features r), w1) /\
    gather (map (AnalysisService._analyze_single_market (design_features r))
              (AnalysisService.known_locations locations)) w1
    = (results, w2) /\
    market_analysis r = AnalysisService.successes results /\
    market_analysis r <> [] /\
    overall_score r
    = AnalysisService._calculate_overall_score (market_analysis r) /\
    confidence_score r
    = Some (AnalysisService._calculate_confidence_score (design_features r)
              (market_analysis r)) /\
    GeminiService.generate_recommendations (design_features r)
      (market_analysis r) w2
    = (Ok (recommendations r), w').
Proof.
  intros Hrun. apply pipeline_passes in Hrun.
  unfold AnalysisService.analyze_tshirt_design_body, bind, lift, raise, ret
    in Hrun.
  destruct (ImageService.validate_image image_data filename) as [b | e] eqn:Hv;
    [| discriminate].
  destruct (ImageService.process_image image_data)
    as [[processed size] | e] eqn:Hp; [| discriminate].
  destruct (GeminiService.analyze_design_image processed w)
    as [[df | e] w1] eqn:Hd; [| discriminate].
  destruct (gather (map (AnalysisService._analyze_single_market df)
                      (AnalysisService.known_locations locations)) w1)
    as [results w2] eqn:Hg.
  destruct (AnalysisService.successes results) as [| a rest] eqn:Hs;
    [discriminate |].
  destruct (GeminiService.generate_recommendations df (a :: rest) w2)
    as [[recs | e] w3] eqn:Hr; [| discriminate].
  injection Hrun as <- <-. simpl.
  exists processed, size, w1, results, w2.
  repeat split; try assumption; try reflexivity.
  - exists b. reflexivity.
  - symmetry. exact Hs.
  - discriminate.
Qed.

Lemma pipeline_no_market (image_data : list byte) (locations : list string)
    (filename : string) (w : ai_log) (b : bool) (processed : list byte)
    (size : Z * Z) (df : DesignFeatures) (w1 : ai_log)
    (results : list (result MarketAnalysis)) (w2 : ai_log) :
  ImageService.validate_image image_data filename = Ok b ->
  ImageService.process_image image_data = Ok (processed, size) ->
  GeminiService.analyze_design_image processed w = (Ok df, w1) ->
  gather (map (AnalysisService._analyze_single_market df)
            (AnalysisService.known_locations locations)) w1
  = (results, w2) ->
  AnalysisService.successes results = [] ->
  AnalysisService.analyze_tshirt_design_body image_data locations filename w
  = (Raise (Exn AnalysisServiceError "No successful market analyses"), w2).
Proof.
  intros Hv Hp Hd Hg Hs.
  unfold AnalysisService.analyze_tshirt_design_body, bind, lift, raise.
  rewrite Hv, Hp, Hd, Hg, Hs. reflexivity.
Qed.

Lemma pipeline_rejects (image_data : list byte) (locations : list string)
    (filename : string) (w : ai_log) (e : exn) :
  ImageService.validate_image image_data filename = Raise e ->
  AnalysisService.analyze_tshirt_design_body image_data locations filename w
  = (Raise e, w).
Proof.
  intros Hv.
  unfold AnalysisService.analyze_tshirt_design_body, bind, lift.
  rewrite Hv. reflexivity.
Qed.

Lemma single_market_location (df : DesignFeatures) (loc : string)
    (wa wb : ai_log) (m : MarketAnalysis) :
  AnalysisService._analyze_single_market df loc wa = (Ok m, wb) ->
  location m = loc.
Proof.
  unfold AnalysisService._analyze_single_market, bind, lift, rbind.
  destruct (dict_index MARKET_DATA loc) as [ctx | e]; [| discriminate].
  destruct (GeminiService.generate_market_analysis df loc ctx wa)
    as [[ai | e] w1]; [| discriminate].
  repeat match goal with
         | |- context [match ?x with Ok _ => _ | Raise _ => _ end] =>
             destruct x; [| discriminate]
         end.
  intros [= <- _]. reflexivity.
Qed.

Lemma surviving_locations_spec (df : DesignFeatures) (known : list string)
    (results : list (result MarketAnalysis)) :
  Forall2 (fun loc r =>
             exists wa wb,
               AnalysisService._analyze_single_market df loc wa = (r, wb))
    known results ->
  map location (AnalysisService.successes results)
  = Spec.surviving_locations known results.
Proof.
  induction 1 as [| loc r known results (wa & wb & Hrun) _ IH]; simpl.
  - reflexivity.
  - destruct r as [m | e]; simpl; [| exact IH].
    rewrite IH, (single_market_location _ _ _ _ _ Hrun). reflexivity.
Qed.

Lemma surviving_subsequence {A : Type} (known : list string)
    (results : list (result A)) :
  Spec.subsequence (Spec.surviving_locations known results) known.
Proof.
  revert results. induction known as [| loc known IH]; intros results; simpl.
  - constructor.
  - destruct results as [| [a | e] results].
    + clear IH. apply Spec.sub_skip.
      induction known; constructor; assumption.
    + apply Spec.sub_keep, IH.
    + apply Spec.sub_skip, IH.
Qed.

Lemma filter_subsequence {A : Type} (p : A -> bool) (xs : list A) :
  Spec.subsequence (filter p xs) xs.
Proof.
  induction xs as [| x xs IH]; simpl; [constructor |].
  destruct (p x); [apply Spec.sub_keep | apply Spec.sub_skip]; exact IH.
Qed.

Lemma subsequence_trans {A : Type} (xs ys zs : list A) :
  Spec.subsequence xs ys -> Spec.subsequence ys zs -> Spec.subsequence xs zs.
Proof.
  intros Hxy Hyz. revert xs Hxy.
  induction Hyz as [| z ys zs _ IH | z ys zs _ IH]; intros xs Hxy.
  - exact Hxy.
  - constructor. apply IH, Hxy.
  - inversion Hxy; subst.
    + apply Spec.sub_skip, IH. assumption.
    + apply Spec.sub_keep, IH. assumption.
Qed.


End PipelineFacts.

Section PipelineTheorems.
Context `{Externals}.

Local Open Scope Q_scope.

(** C1, as the pipeline behaves: for every image the preconditioner
    rejects (oversized payload, undecodable bytes, unsupported format, or
    longest side under 100 pixels) [validate_image] raises an
    [ImageProcessingError], and [analyze_tshirt_design] fails with an
    [AnalysisServiceError] whose message is that error's message after
    "Analysis pipeline failed: "; the log of model requests is unchanged. *)
Theorem preconditioning_failure_aborts (image_data : list byte)
    (locations : list string) (filename : string) (w : ai_log) :
  Spec.fails_preconditioning image_data ->
  exists e,
    ImageService.validate_image image_data filename = Raise e /\
    exn_kind e = ImageProcessingError /\
    AnalysisService.analyze_tshirt_design image_data locations filename w
    = (Raise (Exn AnalysisServiceError
                ("Analysis pipeline failed: " ++ exn_msg e)%string), w).
Proof.
  intros Hfail.
  destruct (rejected_by_validate image_data filename Hfail) as [e He].
  exists e. split; [exact He |]. split.
  - apply (validate_image_kind _ _ _ He).
  - apply pipeline_wraps, pipeline_rejects, He.
Qed.

(** C2, as the pipeline behaves: when the image passes, the features are
    extracted and no gathered sub-task succeeds (each one failed, or no
    requested location is in the reference table), every known location
    still has the outcome of its own sub-task, and the analysis fails with
    an [AnalysisServiceError] whose message is
    "Analysis pipeline failed: No successful market analyses". *)
Theorem no_successful_market_fails (image_data : list byte)
    (locations : list string) (filename : string) (w : ai_log) (b : bool)
    (processed : list byte) (size : Z * Z) (df : DesignFeatures)
    (w1 : ai_log) (results : list (result MarketAnalysis)) (w2 : ai_log) :
  ImageService.validate_image image_data filename = Ok b ->
  ImageService.process_image image_data = Ok (processed, size) ->
  GeminiService.analyze_design_image processed w = (Ok df, w1) ->
  gather (map (AnalysisService._analyze_single_market df)
            (AnalysisService.known_locations locations)) w1
  = (results, w2) ->
  Forall (fun r => is_ok r = false) results ->
  Forall2 (fun loc r =>
             exists wa wb,
               AnalysisService._analyze_single_market df loc wa = (r, wb))
    (AnalysisService.known_locations locations) results /\
  AnalysisService.analyze_tshirt_design image_data locations filename w
  = (Raise (Exn AnalysisServiceError
              "Analysis pipeline failed: No successful market analyses"), w2).
Proof.
  intros Hv Hp Hd Hg Hall. split.
  - apply (gather_outcomes _ _ _ _ _ Hg).
  - assert (Hs : AnalysisService.successes results = []).
    { clear Hg. induction Hall as [| [m | e] rs Hr _ IH]; simpl.
      - reflexivity.
      - discriminate Hr.
      - exact IH. }
    apply (pipeline_wraps _ _ _ _ _
             (Exn AnalysisServiceError "No successful market analyses")).
    apply (pipeline_no_market _ _ _ _ b processed size df w1 results);
      assumption.
Qed.

(** C9: in a successful run the locations of [market_analysis] are the
    known requested locations whose sub-task succeeded, in the order of
    the request. *)
Theorem market_analysis_keeps_request_order (image_data : list byte)
    (locations : list string) (filename : string) (w w' : ai_log)
    (r : AnalysisResult) :
  AnalysisService.analyze_tshirt_design image_data locations filename w
  = (Ok r, w') ->
  Spec.subsequence (map location (market_analysis r)) locations /\
  exists w1 results w2,
    gather (map (AnalysisService._analyze_single_market (design_features r))
              (AnalysisService.known_locations locations)) w1
    = (results, w2) /\
    List.length results
    = List.length (AnalysisService.known_locations locations) /\
    map location (market_analysis r)
    = Spec.surviving_locations (AnalysisService.known_locations locations)
        results.
Proof.
  intros Hrun.
  destruct (pipeline_stages _ _ _ _ _ _ Hrun)
    as (processed & size & w1 & results & w2 & _ & _ & _ & Hg & Hm & _).
  pose proof (gather_outcomes _ _ _ _ _ Hg) as Hout.
  pose proof (surviving_locations_spec _ _ _ Hout) as Hloc.
  rewrite <- Hm in Hloc.
  split.
  - rewrite Hloc.
    eapply subsequence_trans; [apply surviving_subsequence |].
    apply filter_subsequence.
  - exists w1, results, w2.
    split; [exact Hg |]. split; [| exact Hloc].
    symmetry. apply (Forall2_length Hout).
Qed.


End PipelineTheorems.

(** ** The pipeline on concrete runs *)

(** C1 fails as worded: a 50 x 50 picture is rejected by the
    preconditioner with an [ImageProcessingError], and the analysis fails
    with an [AnalysisServiceError]. *)
Lemma small_image_fails_with_analysis_error :
  let ext := TestDouble.scripted TestDouble.one_market_script in
  @ImageService.validate_image ext TestDouble.png_50 "small.png"
  = Raise (Exn ImageProcessingError "Image too small (minimum 100px)") /\
  @AnalysisService.analyze_tshirt_design ext TestDouble.png_50 ["USA"]
    "small.png" []
  = (Raise (Exn AnalysisServiceError
              "Analysis pipeline failed: Image too small (minimum 100px)"),
     []) /\
  ~ (exists e w',
       @AnalysisService.analyze_tshirt_design ext TestDouble.png_50 ["USA"]
         "small.png" []
       = (Raise e, w') /\
       exn_kind e = ImageProcessingError).
Proof.
  repeat split; try (vm_compute; reflexivity).
  intros (e & w' & Hrun & Hkind).
  vm_compute in Hrun. injection Hrun as <- _.
  discriminate Hkind.
Qed.

(** The rejection of the 50 x 50 picture, stage by stage. *)
Lemma preconditioning_failure_aborts_example :
  let ext := TestDouble.scripted TestDouble.one_market_script in
  @Spec.fails_preconditioning ext TestDouble.png_50 /\
  exists e,
    @ImageService.validate_image ext TestDouble.png_50 "small.png" = Raise e /\
    exn_kind e = ImageProcessingError /\
    @AnalysisService.analyze_tshirt_design ext TestDouble.png_50 ["USA"]
      "small.png" []
    = (Raise (Exn AnalysisServiceError
                ("Analysis pipeline failed: " ++ exn_msg e)), []).
Proof.
  intros ext.
  assert (Hfail : @Spec.fails_preconditioning ext TestDouble.png_50).
  { apply (@Spec.TooSmall ext TestDouble.png_50
             {| img_format := Some "PNG"; img_mode := "RGB";
                img_size := (50, 50)%Z |}).
    - reflexivity.
    - simpl. lia. }
  split; [exact Hfail |].
  exact (@preconditioning_failure_aborts ext TestDouble.png_50 ["USA"]
           "small.png" [] Hfail).
Defined.

(** C2 fails as worded: with one sub-task refused by the model, one
    answering no JSON and one location outside the table, both sub-tasks
    ran and the analysis fails, but its message is not
    "No successful market analyses". *)
Lemma no_market_message_is_wrapped :
  let ext := TestDouble.scripted TestDouble.all_failing_script in
  let run :=
    @AnalysisService.analyze_tshirt_design ext TestDouble.jpeg_200
      ["USA"; "Mars"; "India"] "shirt.jpg" [] in
  fst run
  = Raise (Exn AnalysisServiceError
             "Analysis pipeline failed: No successful market analyses") /\
  List.length (snd run) = 3%nat /\
  fst run <> Raise (Exn AnalysisServiceError "No successful market analyses").
Proof.
  repeat split; try (vm_compute; reflexivity).
  vm_compute. discriminate.
Qed.

(** The same run, stage by stage. *)
Lemma no_successful_market_fails_example :
  let ext := TestDouble.scripted TestDouble.all_failing_script in
  exists b processed size df w1 results w2,
    @ImageService.validate_image ext TestDouble.jpeg_200 "shirt.jpg" = Ok b /\
    @ImageService.process_image ext TestDouble.jpeg_200
    = Ok (processed, size) /\
    @GeminiService.analyze_design_image ext processed [] = (Ok df, w1) /\
    gather (map (@AnalysisService._analyze_single_market ext df)
              (AnalysisService.known_locations ["USA"; "Mars"; "India"])) w1
    = (results, w2) /\
    Forall (fun r => is_ok r = false) results /\
    List.length results = 2%nat /\
    @AnalysisService.analyze_tshirt_design ext TestDouble.jpeg_200
      ["USA"; "Mars"; "India"] "shirt.jpg" []
    = (Raise (Exn AnalysisServiceError
                "Analysis pipeline failed: No successful market analyses"),
       w2).
Proof.
  intros ext.
  destruct (@ImageService.validate_image ext TestDouble.jpeg_200 "shirt.jpg")
    as [b | e] eqn:Hv; [| vm_compute in Hv; discriminate Hv].
  destruct (@ImageService.process_image ext TestDouble.jpeg_200)
    as [[processed size] | e] eqn:Hp; [| vm_compute in Hp; discriminate Hp].
  destruct (@GeminiService.analyze_design_image ext processed [])
    as [[df | e] w1] eqn:Hd.
  2: { vm_compute in Hp. injection Hp as <- _.
       vm_compute in Hd. discriminate Hd. }
  destruct (gather (map (@AnalysisService._analyze_single_market ext df)
                      (AnalysisService.known_locations
                         ["USA"; "Mars"; "India"])) w1)
    as [results w2] eqn:Hg.
  assert (Hall : Forall (fun r => is_ok r = false) results
                 /\ List.length results = 2%nat).
  { vm_compute in Hp. injection Hp as <- _.
    vm_compute in Hd. injection Hd as <- <-.
    vm_compute in Hg. injection Hg as <- _.
    split; [repeat constructor | reflexivity]. }
  destruct Hall as [Hall Hlen].
  exists b, processed, size, df, w1, results, w2.
  repeat (split; [first [reflexivity | assumption] |]).
  exact (proj2 (@no_successful_market_fails ext TestDouble.jpeg_200
                  ["USA"; "Mars"; "India"] "shirt.jpg" [] b processed size
                  df w1 results w2 Hv Hp Hd Hg Hall)).
Defined.



(** The same run keeps the order of the request: "USA" before "Japan". *)
Lemma market_analysis_keeps_request_order_example :
  let ext := TestDouble.scripted TestDouble.middle_failure_script in
  exists r w',
    @AnalysisService.analyze_tshirt_design ext TestDouble.jpeg_200
      ["USA"; "Mars"; "India"; "Japan"] "shirt.jpg" []
    = (Ok r, w') /\
    map location (market_analysis r) = ["USA"; "Japan"] /\
    Spec.subsequence (map location (market_analysis r))
      ["USA"; "Mars"; "India"; "Japan"].
Proof.
  intros ext.
  destruct (@AnalysisService.analyze_tshirt_design ext TestDouble.jpeg_200
              ["USA"; "Mars"; "India"; "Japan"] "shirt.jpg" [])
    as [[r | e] w'] eqn:Hrun;
    [| vm_compute in Hrun; discriminate Hrun].
  exists r, w'. split; [reflexivity |].
  pose proof (@market_analysis_keeps_request_order ext TestDouble.jpeg_200
                ["USA"; "Mars"; "India"; "Japan"] "shirt.jpg" [] w' r Hrun)
    as [Hsub _].
  split; [| exact Hsub].
  vm_compute in Hrun. injection Hrun as <- _. reflexivity.
Defined.

(** A run whose recommendations response lacks the key ends with an empty
    list of recommendations. *)
Lemma result_without_recommendations :
  let ext := TestDouble.scripted TestDouble.no_recommendations_script in
  exists r w',
    @AnalysisService.analyze_tshirt_design ext TestDouble.jpeg_200 ["USA"]
      "shirt.jpg" []
    = (Ok r, w') /\
    recommendations r = JArr [].
Proof.
  intros ext.
  destruct (@AnalysisService.analyze_tshirt_design ext TestDouble.jpeg_200
              ["USA"] "shirt.jpg" []) as [[r | e] w'] eqn:Hrun;
    [| vm_compute in Hrun; discriminate Hrun].
  exists r, w'. split; [reflexivity |].
  vm_compute in Hrun. injection Hrun as <- _. reflexivity.
Qed.

(* ================================================================== *)
(** * Further properties of the services *)
(* ================================================================== *)

(** ** Price bands *)

Section PriceBandFacts.
Context `{Externals}.

Local Open Scope Q_scope.

Lemma round_half_even_compat (x y : Q) :
  x == y -> PyNum.round_half_even x = PyNum.round_half_even y.
Proof.
  intros Hxy. apply Z.le_antisymm; apply round_half_even_mono;
    rewrite Hxy; apply Qle_refl.
Qed.

(** Rounding a rounded number changes nothing. *)
Lemma round_idempotent (x : Q) (n : nat) :
  PyNum.round (PyNum.round x n) n == PyNum.round x n.
Proof.
  unfold PyNum.round at 1 3.
  pose proof (scale_pos n) as Hs.
  set (scale := inject_Z (10 ^ Z.of_nat n)) in *.
  set (z := PyNum.round_half_even (x * scale)).
  assert (Hz : PyNum.round_half_even (PyNum.round x n * scale) = z).
  { rewrite <- (round_half_even_Z z).
    apply round_half_even_compat.
    unfold PyNum.round. fold scale. fold z. field. lra. }
  rewrite Hz. reflexivity.
Qed.

Lemma base_prices_ordered (location : string) (entry : MarketEntry) :
  In (location, entry) MARKET_DATA ->
  (fst (base_price_range entry) <= snd (base_price_range entry))%Z.
Proof.
  unfold MARKET_DATA. simpl. intros Hin.
  repeat (destruct Hin as [Hin | Hin];
          [injection Hin as _ <-; simpl; lia |]).
  contradiction.
Qed.

Lemma unknown_location_adjustment (location : string) :
  dict_mem MARKET_DATA location = false -> Spec.adjustment location = 1.
Proof.
  unfold dict_mem, MARKET_DATA, Spec.adjustment. simpl.
  repeat match goal with
         | |- context [String.eqb location ?s] =>
             destruct (String.eqb location s)
         end; try reflexivity; discriminate.
Qed.

End PriceBandFacts.

Section PriceBandTheorems.
Context `{Externals}.

Local Open Scope Q_scope.

(** X1: for a market score that is not negative, the price band of every
    location is ordered and not negative:
    [0 <= min <= recommended <= max]. *)
Theorem price_band_ordered (location : string) (market_score : Q) :
  0 <= market_score ->
  exists band,
    MarketService.calculate_pricing location market_score = Ok band /\
    0 <= price_min band /\
    price_min band <= price_recommended band /\
    price_recommended band <= price_max band.
Proof.
  intros Hs.
  destruct calculate_pricing_unfold as (usa & Husa & Hcalc).
  pose proof (entry_prices_nonneg location usa Husa) as [Hmin _].
  assert (Hord : (fst (base_price_range
                         (dict_get_default MARKET_DATA location usa))
                  <= snd (base_price_range
                            (dict_get_default MARKET_DATA location usa)))%Z).
  { unfold dict_get_default.
    destruct (dict_get MARKET_DATA location) as [e |] eqn:He.
    - apply (base_prices_ordered location), dict_get_In, He.
    - apply (base_prices_ordered "USA"), dict_get_In, Husa. }
  pose proof (adjustment_pos location) as Hadj.
  set (entry := dict_get_default MARKET_DATA location usa) in *.
  set (factor := market_score / 75 * Spec.adjustment location).
  assert (Hfactor : 0 <= factor).
  { unfold factor. apply Qmult_le_0_compat; [| lra].
    apply Qle_shift_div_l; lra. }
  assert (Hlo : 0 <= inject_Z (fst (base_price_range entry))
                     * (market_score / 75) * Spec.adjustment location).
  { rewrite <- Qmult_assoc. fold factor.
    apply Qmult_le_0_compat; [| exact Hfactor].
    change 0 with (inject_Z 0). rewrite <- Zle_Qle. exact Hmin. }
  assert (Hle : inject_Z (fst (base_price_range entry))
                * (market_score / 75) * Spec.adjustment location
                <= inject_Z (snd (base_price_range entry))
                   * (market_score / 75) * Spec.adjustment location).
  { rewrite <- !Qmult_assoc. fold factor.
    apply Qmult_le_compat_r; [| exact Hfactor].
    rewrite <- Zle_Qle. exact Hord. }
  eexists. split; [apply Hcalc |]. fold entry. simpl.
  match goal with
  | |- 0 <= ?a /\ ?a <= PyNum.round ((?a + ?b) / 2) 2 /\ _ =>
      set (lo := a); set (hi := b)
  end.
  assert (Hlo0 : 0 <= lo) by (apply round_nonneg, Hlo).
  assert (Hlohi : lo <= hi) by (apply round_mono, Hle).
  assert (Hlo_id : PyNum.round lo 2 == lo) by apply round_idempotent.
  assert (Hhi_id : PyNum.round hi 2 == hi) by apply round_idempotent.
  split; [exact Hlo0 |]. split.
  - apply Qle_trans with (PyNum.round lo 2).
    + rewrite Hlo_id. apply Qle_refl.
    + apply round_mono. apply Qle_shift_div_l; lra.
  - apply Qle_trans with (PyNum.round hi 2).
    + apply round_mono. apply Qle_shift_div_r; lra.
    + rewrite Hhi_id. apply Qle_refl.
Qed.

(** X2: a location outside the reference table is priced exactly as
    "USA" is, currency included. *)
Theorem unknown_location_priced_as_usa (location : string)
    (market_score : Q) :
  dict_mem MARKET_DATA location = false ->
  MarketService.calculate_pricing location market_score
  = MarketService.calculate_pricing "USA" market_score.
Proof.
  intros Hunknown.
  destruct calculate_pricing_unfold as (usa & Husa & Hcalc).
  rewrite (Hcalc location market_score), (Hcalc "USA" market_score).
  rewrite (unknown_location_adjustment location Hunknown).
  assert (Hentry : dict_get_default MARKET_DATA location usa = usa).
  { unfold dict_get_default. unfold dict_mem in Hunknown.
    destruct (dict_get MARKET_DATA location); [discriminate | reflexivity]. }
  assert (Husa' : dict_get_default MARKET_DATA "USA" usa = usa).
  { unfold dict_get_default. rewrite Husa. reflexivity. }
  rewrite Hentry, Husa'. reflexivity.
Qed.

End PriceBandTheorems.

(** The band of "Japan" at a score of 88. *)
Lemma price_band_ordered_example :
  (0 <= 88)%Q /\
  exists band,
    @MarketService.calculate_pricing (TestDouble.scripted []) "Japan" 88
    = Ok band /\
    (0 <= price_min band)%Q /\
    (price_min band <= price_recommended band)%Q /\
    (price_recommended band <= price_max band)%Q.
Proof.
  split.
  - discriminate.
  - apply (@price_band_ordered (TestDouble.scripted []) "Japan" 88).
    discriminate.
Defined.

(** "Mars" is priced as "USA". *)
Lemma unknown_location_priced_as_usa_example :
  dict_mem MARKET_DATA "Mars" = false /\
  @MarketService.calculate_pricing (TestDouble.scripted []) "Mars" 80
  = @MarketService.calculate_pricing (TestDouble.scripted []) "USA" 80.
Proof.
  split.
  - reflexivity.
  - apply (@unknown_location_priced_as_usa (TestDouble.scripted []) "Mars" 80).
    reflexivity.
Defined.

(** ** Ranges of the aggregate scores *)

Section ScoreRangeTheorems.
Context `{Externals}.

Local Open Scope Q_scope.

Lemma market_consistency_at_most_100 (market_analyses : list MarketAnalysis) :
  (forall x, 0 <= float_sqrt x) ->
  AnalysisService._calculate_market_consistency market_analyses <= 100.
Proof.
  intros Hsqrt.
  unfold AnalysisService._calculate_market_consistency.
  destruct (List.length market_analyses <? 2)%nat; [discriminate |].
  apply (round_le_Z _ 100).
  match goal with
  | |- PyNum.max 0 (100 - float_sqrt ?v * 2) <= _ =>
      pose proof (Hsqrt v) as Hv; set (root := float_sqrt v) in *
  end.
  unfold PyNum.max. destruct (Qlt_le_dec 0 (100 - root * 2)).
  - change (inject_Z 100) with 100. lra.
  - discriminate.
Qed.

(** X3: when the square root is never negative, the market consistency
    lies between 0 and 100, and it is 80 for fewer than two analyses. *)
Theorem market_consistency_range (market_analyses : list MarketAnalysis) :
  (forall x, 0 <= float_sqrt x) ->
  0 <= AnalysisService._calculate_market_consistency market_analyses <= 100
  /\ ((List.length market_analyses < 2)%nat ->
      AnalysisService._calculate_market_consistency market_analyses == 80).
Proof.
  intros Hsqrt. split; [split |].
  - apply market_consistency_nonneg.
  - apply market_consistency_at_most_100, Hsqrt.
  - intros Hlen. unfold AnalysisService._calculate_market_consistency.
    apply Nat.ltb_lt in Hlen. rewrite Hlen. reflexivity.
Qed.

(** X4: when the square root is never negative and at most 8 analyses
    survive, the confidence score is at most 80: the design clarity is at
    most 50, so the cap at 95 is out of reach. *)
Theorem confidence_at_most_80 (design_features : DesignFeatures)
    (market_analyses : list MarketAnalysis) :
  (forall x, 0 <= float_sqrt x) ->
  (List.length market_analyses <= 8)%nat ->
  AnalysisService._calculate_confidence_score design_features market_analyses
  <= 80.
Proof.
  intros Hsqrt Hlen.
  pose proof (market_consistency_at_most_100 market_analyses Hsqrt) as Hc.
  unfold AnalysisService._calculate_confidence_score.
  set (consistency :=
         AnalysisService._calculate_market_consistency market_analyses) in *.
  apply (round_le_Z _ 80).
  eapply Qle_trans; [| apply Qle_refl].
  assert (Hclarity :
            PyNum.min 100 (visual_appeal_score design_features
                           + uniqueness_score design_features) <= 100)
    by apply py_min_le_l.
  assert (Hn : inject_Z (Z.of_nat (List.length market_analyses)) <= 8).
  { change 8 with (inject_Z 8). rewrite <- Zle_Qle. lia. }
  unfold PyNum.min at 1.
  match goal with
  | |- (if Qlt_le_dec ?c 95 then _ else _) <= _ =>
      destruct (Qlt_le_dec c 95) as [Hlt | Hge];
      [| exfalso; revert Hge]
  end.
  - unfold Qdiv. change (/ 2) with (1 # 2). change (/ 8) with (1 # 8).
    change (inject_Z 80) with 80. lra.
  - unfold Qdiv. change (/ 2) with (1 # 2). change (/ 8) with (1 # 8).
    intros Hge. lra.
Qed.

(** X5: when every market score lies between 0 and 100, so does the
    overall score, also for no analysis at all. *)
Theorem overall_score_range (market_analyses : list MarketAnalysis) :
  (forall a, In a market_analyses -> 0 <= market_score a <= 100) ->
  0 <= AnalysisService._calculate_overall_score market_analyses <= 100.
Proof.
  intros Hall.
  destruct market_analyses as [| a rest] eqn:Hm.
  - split; discriminate.
  - rewrite <- Hm in *.
    assert (Hne : market_analyses <> []) by (rewrite Hm; discriminate).
    rewrite (overall_score_weighted_mean _ Hne).
    assert (Hmean : 0 <= Spec.weighted_mean (Spec.score_pairs market_analyses)
                    <= 100).
    { apply weighted_mean_bounds.
      - rewrite Hm. discriminate.
      - intros p Hp. unfold Spec.score_pairs in Hp. apply in_map_iff in Hp.
        destruct Hp as (b & <- & Hb). simpl.
        split; [apply Hall, Hb | apply market_weight_pos]. }
    split.
    + apply round_nonneg, Hmean.
    + apply (round_le_Z _ 100), Hmean.
Qed.

End ScoreRangeTheorems.

Lemma sqrt6_nonneg (x : Q) : (0 <= TestDouble.sqrt6 x)%Q.
Proof.
  unfold TestDouble.sqrt6. apply Qle_shift_div_l; [reflexivity |].
  rewrite Qmult_0_l. change 0%Q with (inject_Z 0). rewrite <- Zle_Qle.
  apply Z.sqrt_nonneg.
Qed.

(** The consistency of two markets scoring 80 and 60. *)
Lemma market_consistency_range_example :
  let ext := TestDouble.scripted [] in
  let markets := [TestDouble.sample_market "USA" 80;
                  TestDouble.sample_market "India" 60] in
  (forall x, 0 <= @float_sqrt ext x)%Q /\
  (0 <= @AnalysisService._calculate_market_consistency ext markets <= 100)%Q /\
  (@AnalysisService._calculate_market_consistency ext markets == 80)%Q.
Proof.
  intros ext markets.
  assert (Hsqrt : (forall x, 0 <= @float_sqrt ext x)%Q) by exact sqrt6_nonneg.
  split; [exact Hsqrt |]. split.
  - exact (proj1 (@market_consistency_range ext markets Hsqrt)).
  - vm_compute. reflexivity.
Defined.

(** The confidence of a design scoring 100 and 100 in one market. *)
Lemma confidence_at_most_80_example :
  let ext := TestDouble.scripted [] in
  let features := TestDouble.sample_features 100 100 in
  let markets := [TestDouble.sample_market "USA" 80] in
  (forall x, 0 <= @float_sqrt ext x)%Q /\
  (List.length markets <= 8)%nat /\
  (@AnalysisService._calculate_confidence_score ext features markets
   <= 80)%Q /\
  (@AnalysisService._calculate_confidence_score ext features markets
   == 545 # 10)%Q.
Proof.
  intros ext features markets.
  assert (Hsqrt : (forall x, 0 <= @float_sqrt ext x)%Q) by exact sqrt6_nonneg.
  assert (Hlen : (List.length markets <= 8)%nat) by (simpl; lia).
  split; [exact Hsqrt |]. split; [exact Hlen |]. split.
  - exact (@confidence_at_most_80 ext features markets Hsqrt Hlen).
  - vm_compute. reflexivity.
Defined.

(** The overall score of two markets scoring 80 and 60. *)
Lemma overall_score_range_example :
  let markets := [TestDouble.sample_market "USA" 80;
                  TestDouble.sample_market "India" 60] in
  (forall a, In a markets -> 0 <= market_score a <= 100)%Q /\
  (0 <= AnalysisService._calculate_overall_score markets <= 100)%Q.
Proof.
  intros markets.
  assert (Hall : (forall a, In a markets -> 0 <= market_score a <= 100)%Q).
  { intros a [<- | [<- | []]]; split; discriminate. }
  split; [exact Hall |].
  exact (overall_score_range markets Hall).
Defined.

(** ** The gateway and its requests *)

Section GatewayFacts.
Context `{Externals}.

Lemma design_request (image_data : list byte) (w : ai_log) :
  exists r,
    GeminiService.analyze_design_image image_data w
    = (r, (w ++ [Request design_analysis_prompt
                   (Some ("image/jpeg", b64encode image_data))])%list) /\
    (forall e, r = Raise e ->
       exists cause,
         e = Exn AIServiceError ("Design analysis failed: " ++ exn_msg cause)).
Proof.
  unfold GeminiService.analyze_design_image, try_except, bind, lift,
    call_model, raise.
  destruct (generate_content w _) as [text | e0].
  - destruct (GeminiService._parse_json_response text) as [v | e1].
    + destruct (GeminiService.design_features_of v) as [df | e2].
      * eexists. split; [reflexivity |]. discriminate.
      * eexists. split; [reflexivity |]. intros e He; injection He as <-; eexists; reflexivity.
    + eexists. split; [reflexivity |]. intros e He; injection He as <-; eexists; reflexivity.
  - eexists. split; [reflexivity |]. intros e He; injection He as <-; eexists; reflexivity.
Qed.

Lemma market_request (df : DesignFeatures) (location : string)
    (ctx : MarketEntry) (w : ai_log) :
  exists r calls,
    GeminiService.generate_market_analysis df location ctx w
    = (r, (w ++ calls)%list) /\
    (List.length calls <= 1)%nat /\ Spec.text_only calls /\
    (forall e, r = Raise e ->
       exists cause,
         e = Exn AIServiceError
               ("Market analysis failed for " ++ location ++ ": "
                ++ exn_msg cause)).
Proof.
  unfold GeminiService.generate_market_analysis, try_except, bind, lift,
    call_model, raise.
  destruct (market_analysis_prompt df location ctx) as [prompt | e0].
  - assert (Hone : (List.length [Request prompt None] <= 1)%nat
                   /\ Spec.text_only [Request prompt None]).
    { split; [simpl; lia | repeat constructor]. }
    destruct Hone as [Hlen Htext].
    destruct (generate_content w _) as [text | e1].
    + destruct (GeminiService._parse_json_response text) as [v | e2].
      * exists (Ok v), [Request prompt None].
        split; [reflexivity |]. split; [exact Hlen |].
        split; [exact Htext | discriminate].
      * eexists. exists [Request prompt None].
        split; [reflexivity |]. split; [exact Hlen |].
        split; [exact Htext |]. intros e He; injection He as <-; eexists; reflexivity.
    + eexists. exists [Request prompt None].
      split; [reflexivity |]. split; [exact Hlen |].
      split; [exact Htext |]. intros e He; injection He as <-; eexists; reflexivity.
  - eexists. exists []. rewrite app_nil_r.
    split; [reflexivity |]. split; [simpl; lia |].
    split; [constructor |]. intros e He; injection He as <-; eexists; reflexivity.
Qed.

Lemma single_market_request (df : DesignFeatures) (location : string)
    (w : ai_log) :
  exists r calls,
    AnalysisService._analyze_single_market df location w
    = (r, (w ++ calls)%list) /\
    (List.length calls <= 1)%nat /\ Spec.text_only calls.
Proof.
  unfold AnalysisService._analyze_single_market, bind, lift.
  destruct (dict_index MARKET_DATA location) as [ctx | e].
  - destruct (market_request df location ctx w)
      as (r & calls & Hrun & Hlen & Htext & _).
    rewrite Hrun. destruct r as [ai | e].
    + eexists. exists calls. split; [reflexivity |]. split; assumption.
    + exists (Raise e), calls. split; [reflexivity |]. split; assumption.
  - exists (Raise e), []. rewrite app_nil_r.
    split; [reflexivity |]. split; [simpl; lia | constructor].
Qed.

Lemma gather_requests (df : DesignFeatures) (locations : list string)
    (w : ai_log) :
  exists rs calls,
    gather (map (AnalysisService._analyze_single_market df) locations) w
    = (rs, (w ++ calls)%list) /\
    (List.length calls <= List.length locations)%nat /\ Spec.text_only calls.
Proof.
  revert w. induction locations as [| loc rest IH]; intros w; simpl.
  - exists [], []. rewrite app_nil_r.
    split; [reflexivity |]. split; [simpl; lia | constructor].
  - destruct (single_market_request df loc w)
      as (r & calls1 & Hrun & Hlen1 & Htext1).
    rewrite Hrun.
    destruct (IH (w ++ calls1)%list) as (rs & calls2 & Hrest & Hlen2 & Htext2).
    rewrite Hrest.
    exists (r :: rs), (calls1 ++ calls2)%list.
    rewrite app_assoc. split; [reflexivity |]. split.
    + rewrite List.length_app. lia.
    + apply Forall_app. split; assumption.
Qed.

Lemma recommendations_request (df : DesignFeatures)
    (markets : list MarketAnalysis) (w : ai_log) :
  exists v calls,
    GeminiService.generate_recommendations df markets w
    = (Ok v, (w ++ calls)%list) /\
    (List.length calls <= 1)%nat /\ Spec.text_only calls.
Proof.
  pose proof (generate_recommendations_cases df markets w) as Hc.
  destruct (recommendations_prompt df markets) as [prompt | e].
  - cbv zeta in Hc.
    assert (Hone : (List.length [Request prompt None] <= 1)%nat
                   /\ Spec.text_only [Request prompt None]).
    { split; [simpl; lia | repeat constructor]. }
    destruct (generate_content w (Request prompt None)) as [text | e].
    + destruct (GeminiService._parse_json_response text) as [v | e].
      * destruct v; eexists; exists [Request prompt None];
          (split; [exact Hc | exact Hone]).
      * eexists. exists [Request prompt None]. split; [exact Hc | exact Hone].
    + eexists. exists [Request prompt None]. split; [exact Hc | exact Hone].
  - eexists. exists []. rewrite app_nil_r.
    split; [exact Hc |]. split; [simpl; lia | constructor].
Qed.

End GatewayFacts.

Section PipelineRequestFacts.
Context `{Externals}.

Lemma body_requests (image_data : list byte) (locations : list string)
    (filename : string) (w : ai_log) :
  exists r calls,
    AnalysisService.analyze_tshirt_design_body image_data locations filename w
    = (r, (w ++ calls)%list) /\
    (List.length calls
     <= 2 + List.length (AnalysisService.known_locations locations))%nat /\
    Spec.vision_first calls.
Proof.
  unfold AnalysisService.analyze_tshirt_design_body, bind, lift, raise, ret.
  destruct (ImageService.validate_image image_data filename) as [b | e].
  2: { exists (Raise e), []. rewrite app_nil_r.
       split; [reflexivity |]. split; [simpl; lia | exact I]. }
  destruct (ImageService.process_image image_data) as [[processed size] | e].
  2: { exists (Raise e), []. rewrite app_nil_r.
       split; [reflexivity |]. split; [simpl; lia | exact I]. }
  destruct (design_request processed w) as (rd & Hd & _).
  rewrite Hd.
  set (first := Request design_analysis_prompt
                  (Some ("image/jpeg", b64encode processed))) in *.
  destruct rd as [df | e].
  2: { exists (Raise e), [first].
       split; [reflexivity |]. split; [simpl; lia |].
       split; [exists processed; reflexivity | constructor]. }
  destruct (gather_requests df (AnalysisService.known_locations locations)
              (w ++ [first])%list) as (rs & calls1 & Hg & Hlen1 & Htext1).
  rewrite Hg.
  destruct (AnalysisService.successes rs) as [| a rest] eqn:Hs.
  { exists (Raise (Exn AnalysisServiceError "No successful market analyses")),
      (first :: calls1).
    rewrite <- app_assoc. split; [reflexivity |]. split; [simpl; lia |].
    split; [exists processed; reflexivity | exact Htext1]. }
  destruct (recommendations_request df (a :: rest)
              ((w ++ [first]) ++ calls1)%list)
    as (v & calls2 & Hr & Hlen2 & Htext2).
  rewrite Hr.
  eexists. exists (first :: calls1 ++ calls2)%list.
  split.
  - rewrite <- !app_assoc. reflexivity.
  - split.
    + simpl. rewrite List.length_app. lia.
    + split; [exists processed; reflexivity |].
      apply Forall_app. split; assumption.
Qed.

End PipelineRequestFacts.

Section PipelineRequestTheorems.
Context `{Externals}.

(** X6: whatever its outcome, a run of [analyze_tshirt_design] only adds
    requests to the log: at most two more than the requested locations
    found in the reference table, the first of them the vision request
    with the image as "image/jpeg", all later ones without an image. *)
Theorem pipeline_request_budget (image_data : list byte)
    (locations : list string) (filename : string) (w : ai_log) :
  exists r calls,
    AnalysisService.analyze_tshirt_design image_data locations filename w
    = (r, (w ++ calls)%list) /\
    (List.length calls
     <= 2 + List.length (AnalysisService.known_locations locations))%nat /\
    Spec.vision_first calls.
Proof.
  destruct (body_requests image_data locations filename w)
    as (r & calls & Hbody & Hlen & Hshape).
  destruct r as [res | e].
  - exists (Ok res), calls. split; [| split; assumption].
    unfold AnalysisService.analyze_tshirt_design, try_except.
    rewrite Hbody. reflexivity.
  - eexists. exists calls. split; [| split; assumption].
    apply pipeline_wraps, Hbody.
Qed.

(** X7: when the image passes and the vision request fails, the run stops
    after that one request, before any market request, and the message
    names both stages:
    "Analysis pipeline failed: Design analysis failed: " and the cause. *)
Theorem feature_extraction_failure_aborts (image_data : list byte)
    (locations : list string) (filename : string) (w : ai_log) (b : bool)
    (processed : list byte) (size : Z * Z) (cause : exn) :
  ImageService.validate_image image_data filename = Ok b ->
  ImageService.process_image image_data = Ok (processed, size) ->
  let req :=
    Request design_analysis_prompt
      (Some ("image/jpeg", b64encode processed)) in
  generate_content w req = Raise cause ->
  AnalysisService.analyze_tshirt_design image_data locations filename w
  = (Raise (Exn AnalysisServiceError
              ("Analysis pipeline failed: Design analysis failed: "
               ++ exn_msg cause)),
     (w ++ [req])%list).
Proof.
  intros Hv Hp req Hcall.
  assert (Hd : GeminiService.analyze_design_image processed w
               = (Raise (Exn AIServiceError
                           ("Design analysis failed: " ++ exn_msg cause)),
                  (w ++ [req])%list)).
  { unfold GeminiService.analyze_design_image, try_except, bind, lift,
      call_model, raise.
    fold req. rewrite Hcall. reflexivity. }
  assert (Hbody : AnalysisService.analyze_tshirt_design_body image_data
                    locations filename w
                  = (Raise (Exn AIServiceError
                              ("Design analysis failed: " ++ exn_msg cause)),
                     (w ++ [req])%list)).
  { unfold AnalysisService.analyze_tshirt_design_body, bind, lift.
    rewrite Hv, Hp, Hd. reflexivity. }
  rewrite (pipeline_wraps _ _ _ _ _ _ Hbody). reflexivity.
Qed.

End PipelineRequestTheorems.

(** A run whose vision request is refused. *)
Lemma feature_extraction_failure_aborts_example :
  let ext :=
    TestDouble.scripted [Raise (Exn ExternalError "quota exceeded")] in
  let req :=
    Request "Analyze this t-shirt design image comprehensively."
      (Some ("image/jpeg", EmptyString)) in
  @ImageService.validate_image ext TestDouble.jpeg_200 "shirt.jpg" = Ok true /\
  @ImageService.process_image ext TestDouble.jpeg_200
  = Ok (TestDouble.jpeg_200, (200, 200)%Z) /\
  @generate_content ext [] req = Raise (Exn ExternalError "quota exceeded") /\
  @AnalysisService.analyze_tshirt_design ext TestDouble.jpeg_200
    ["USA"; "India"] "shirt.jpg" []
  = (Raise (Exn AnalysisServiceError
              "Analysis pipeline failed: Design analysis failed: quota exceeded"),
     [req]).
Proof.
  intros ext req.
  assert (Hv : @ImageService.validate_image ext TestDouble.jpeg_200
                 "shirt.jpg" = Ok true) by (vm_compute; reflexivity).
  assert (Hp : @ImageService.process_image ext TestDouble.jpeg_200
               = Ok (TestDouble.jpeg_200, (200, 200)%Z))
    by (vm_compute; reflexivity).
  assert (Hc : @generate_content ext [] req
               = Raise (Exn ExternalError "quota exceeded")) by reflexivity.
  repeat (split; [assumption |]).
  exact (@feature_extraction_failure_aborts ext TestDouble.jpeg_200
           ["USA"; "India"] "shirt.jpg" [] true TestDouble.jpeg_200
           (200, 200)%Z (Exn ExternalError "quota exceeded") Hv Hp Hc).
Defined.

(** ** Decoded responses and their defaults *)

Section DecodingFacts.
Context `{Externals}.

Lemma forall2_right {A B : Type} (P : A -> B -> Prop) (xs : list A)
    (ys : list B) (y : B) :
  Forall2 P xs ys -> In y ys -> exists x, In x xs /\ P x y.
Proof.
  induction 1 as [| x0 y0 xs ys Hp _ IH]; intros Hin.
  - destruct Hin.
  - destruct Hin as [<- | Hin].
    + exists x0. split; [left; reflexivity | exact Hp].
    + destruct (IH Hin) as (x & Hx & Hxy).
      exists x. split; [right; exact Hx | exact Hxy].
Qed.

Lemma successes_In {A : Type} (rs : list (result A)) (a : A) :
  In a (AnalysisService.successes rs) -> In (Ok a) rs.
Proof.
  induction rs as [| [b | e] rs IH]; simpl.
  - intros [].
  - intros [-> | Hin]; [left; reflexivity | right; apply IH, Hin].
  - intros Hin. right. apply IH, Hin.
Qed.

(** The number a raw score stands for is the same for the division and
    for [float]. *)
Lemma number_is_float (v : json) (q : Q) :
  py_number v = Ok q -> py_float v = Ok q.
Proof.
  destruct v; simpl; try discriminate; auto.
Qed.

Lemma dict_get_default_missing {V : Type} (d : list (string * V))
    (k : string) (default : V) :
  dict_get d k = None -> dict_get_default d k default = default.
Proof.
  intros Hk. unfold dict_get_default. rewrite Hk. reflexivity.
Qed.

Lemma single_market_price (df : DesignFeatures) (loc : string)
    (wa wb : ai_log) (m : MarketAnalysis) :
  AnalysisService._analyze_single_market df loc wa = (Ok m, wb) ->
  MarketService.calculate_pricing (location m) (market_score m)
  = Ok (price_range m).
Proof.
  unfold AnalysisService._analyze_single_market, bind, lift, rbind.
  destruct (dict_index MARKET_DATA loc) as [ctx | e]; [| discriminate].
  destruct (GeminiService.generate_market_analysis df loc ctx wa)
    as [[ai | e] w1]; [| discriminate].
  destruct (py_get ai "market_score" (JNum 70)) as [raw | e];
    [| discriminate].
  unfold MarketService.calculate_pricing_dyn, rbind.
  destruct (py_number raw) as [q |] eqn:Hq; [| discriminate].
  rewrite (number_is_float raw q Hq).
  destruct (MarketService.calculate_pricing loc q) as [band |] eqn:Hband;
    [| discriminate].
  repeat match goal with
         | |- context [match ?x with Ok _ => _ | Raise _ => _ end] =>
             destruct x; [| discriminate]
         end.
  intros [= <- _]. simpl. exact Hband.
Qed.

End DecodingFacts.

Section DecodingTheorems.
Context `{Externals}.

(** X8: in a successful run every entry of [market_analysis] carries the
    price band [calculate_pricing] gives for its own location and market
    score, in the currency of that location's reference entry. *)
Theorem market_entries_priced_by_their_score (image_data : list byte)
    (locations : list string) (filename : string) (w w' : ai_log)
    (r : AnalysisResult) :
  AnalysisService.analyze_tshirt_design image_data locations filename w
  = (Ok r, w') ->
  forall m, In m (market_analysis r) ->
    MarketService.calculate_pricing (location m) (market_score m)
    = Ok (price_range m) /\
    exists entry,
      dict_get MARKET_DATA (location m) = Some entry /\
      price_currency (price_range m) = currency entry.
Proof.
  intros Hrun m Hm.
  destruct (pipeline_stages _ _ _ _ _ _ Hrun)
    as (processed & size & w1 & results & w2 & _ & _ & _ & Hg & Hmk & _).
  pose proof (gather_outcomes _ _ _ _ _ Hg) as Hout.
  rewrite Hmk in Hm. apply successes_In in Hm.
  destruct (forall2_right _ _ _ _ Hout Hm) as (loc & Hloc & wa & wb & Hsub).
  pose proof (single_market_price _ _ _ _ _ Hsub) as Hprice.
  pose proof (single_market_location _ _ _ _ _ Hsub) as Hl.
  split; [exact Hprice |].
  apply filter_In in Hloc as [_ Hmem].
  destruct (dict_mem_get _ _ Hmem) as [entry Hentry].
  exists entry. rewrite Hl. split; [exact Hentry |].
  destruct calculate_pricing_unfold as (usa & Husa & Hcalc).
  rewrite Hl, Hcalc in Hprice. injection Hprice as Hband.
  rewrite <- Hband. simpl.
  unfold dict_get_default. rewrite Hentry. reflexivity.
Qed.

(** X9: a market score sent as a string fails the sub-task with a
    [TypeError], whatever the string: the pricing divides the raw value
    before [float] is applied to it. *)
Theorem string_score_fails_sub_task (df : DesignFeatures) (loc : string)
    (ctx : MarketEntry) (w w' : ai_log) (fields : list (string * json))
    (s : string) :
  dict_get MARKET_DATA loc = Some ctx ->
  GeminiService.generate_market_analysis df loc ctx w
  = (Ok (JObj fields), w') ->
  dict_get fields "market_score" = Some (JStr s) ->
  AnalysisService._analyze_single_market df loc w
  = (Raise (Exn TypeError (runtime_message TypeError (JStr s))), w').
Proof.
  intros Hctx Hai Hscore.
  unfold AnalysisService._analyze_single_market, bind, lift, dict_index.
  rewrite Hctx, Hai.
  unfold py_get, dict_get_default. rewrite Hscore.
  reflexivity.
Qed.

(** X10: when the decoded response is an object without the keys
    "market_score", "estimated_monthly_sales" and "success_probability",
    the sub-task succeeds with a score of 70, the price band of a score of
    70, sales of 1000 and a success probability of 70; every other field is
    the value sent, or its default when the key is missing. *)
Theorem missing_numbers_take_defaults (df : DesignFeatures) (loc : string)
    (ctx : MarketEntry) (w w' : ai_log) (fields : list (string * json)) :
  dict_get MARKET_DATA loc = Some ctx ->
  GeminiService.generate_market_analysis df loc ctx w
  = (Ok (JObj fields), w') ->
  dict_get fields "market_score" = None ->
  dict_get fields "estimated_monthly_sales" = None ->
  dict_get fields "success_probability" = None ->
  exists band,
    MarketService.calculate_pricing loc 70 = Ok band /\
    AnalysisService._analyze_single_market df loc w
    = (Ok {| location := loc;
             market_score := 70;
             demand_level :=
               dict_get_default fields "demand_level" (JStr "medium");
             price_range := band;
             ma_competition_level :=
               dict_get_default fields "competition_level" (JStr "medium");
             seasonal_trends :=
               dict_get_default fields "seasonal_trends"
                 (JArr [JStr "year-round"]);
             target_age_groups :=
               dict_get_default fields "target_age_groups"
                 (JArr [JStr "18-35"]);
             estimated_monthly_sales := 1000;
             market_trends :=
               dict_get_default fields "market_trends" (JArr []);
             success_probability := 70;
             risk_factors := dict_get_default fields "risk_factors" (JArr []);
             opportunities :=
               dict_get_default fields "opportunities" (JArr []) |}, w').
Proof.
  intros Hctx Hai Hscore Hsales Hsuccess.
  destruct calculate_pricing_unfold as (usa & Husa & Hcalc).
  eexists. split; [apply Hcalc |].
  unfold AnalysisService._analyze_single_market, bind, lift, dict_index.
  rewrite Hctx, Hai.
  unfold py_get.
  rewrite !(dict_get_default_missing _ _ _ Hscore),
    !(dict_get_default_missing _ _ _ Hsales),
    !(dict_get_default_missing _ _ _ Hsuccess).
  unfold MarketService.calculate_pricing_dyn.
  cbn [py_number rbind py_float py_int].
  rewrite Hcalc. cbn [rbind]. reflexivity.
Qed.

(** X11: when the response to the vision request decodes to an object
    without the keys "visual_appeal_score" and "uniqueness_score", the
    features are extracted with scores of 75 and 70; every other field is
    the value sent, or its default when the key is missing. *)
Theorem missing_design_scores_take_defaults (image_data : list byte)
    (w : ai_log) (text : string) (fields : list (string * json)) :
  let req :=
    Request design_analysis_prompt
      (Some ("image/jpeg", b64encode image_data)) in
  generate_content w req = Ok text ->
  GeminiService._parse_json_response text = Ok (JObj fields) ->
  dict_get fields "visual_appeal_score" = None ->
  dict_get fields "uniqueness_score" = None ->
  GeminiService.analyze_design_image image_data w
  = (Ok {| style_category :=
             dict_get_default fields "style_category" (JStr "modern");
           color_palette :=
             dict_get_default fields "color_palette" (JArr [JStr "unknown"]);
           design_complexity :=
             dict_get_default fields "design_complexity" (JStr "moderate");
           target_demographic :=
             dict_get_default fields "target_demographic"
               (JStr "millennials");
           theme_category :=
             dict_get_default fields "theme_category" (JStr "abstract");
           visual_appeal_score := 75;
           uniqueness_score := 70;
           brand_potential :=
             dict_get_default fields "brand_potential" (JStr "medium");
           typography_quality :=
             dict_get_default fields "typography_quality" JNull;
           graphic_elements :=
             dict_get_default fields "graphic_elements" (JArr []) |},
     (w ++ [req])%list).
Proof.
  intros req Hcall Hparse Happeal Huniq.
  unfold GeminiService.analyze_design_image, try_except, bind, lift,
    call_model.
  fold req. rewrite Hcall, Hparse.
  unfold GeminiService.design_features_of, py_get.
  rewrite !(dict_get_default_missing _ _ _ Happeal),
    !(dict_get_default_missing _ _ _ Huniq).
  reflexivity.
Qed.

End DecodingTheorems.

(** The surviving entries of the four-location run are priced by their
    own scores. *)
Lemma market_entries_priced_by_their_score_example :
  let ext := TestDouble.scripted TestDouble.middle_failure_script in
  exists r w',
    @AnalysisService.analyze_tshirt_design ext TestDouble.jpeg_200
      ["USA"; "Mars"; "India"; "Japan"] "shirt.jpg" []
    = (Ok r, w') /\
    map (fun m => price_currency (price_range m)) (market_analysis r)
    = ["USD"; "JPY"] /\
    forall m, In m (market_analysis r) ->
      @MarketService.calculate_pricing ext (location m) (market_score m)
      = Ok (price_range m).
Proof.
  intros ext.
  destruct (@AnalysisService.analyze_tshirt_design ext TestDouble.jpeg_200
              ["USA"; "Mars"; "India"; "Japan"] "shirt.jpg" [])
    as [[r | e] w'] eqn:Hrun;
    [| vm_compute in Hrun; discriminate Hrun].
  exists r, w'. split; [reflexivity |]. split.
  - vm_compute in Hrun. injection Hrun as <- _. reflexivity.
  - intros m Hm.
    exact (proj1 (@market_entries_priced_by_their_score ext
                    TestDouble.jpeg_200 ["USA"; "Mars"; "India"; "Japan"]
                    "shirt.jpg" [] w' r Hrun m Hm)).
Defined.

(** A score sent as the string "80" fails the sub-task, although [float]
    would read it. *)
Lemma string_score_fails_sub_task_example :
  let ext :=
    TestDouble.scripted
      [Ok (TestDouble.market_response (TestDouble.quoted "80"))] in
  let df := TestDouble.sample_features 80 80 in
  exists ctx fields w',
    dict_get MARKET_DATA "USA" = Some ctx /\
    @GeminiService.generate_market_analysis ext df "USA" ctx []
    = (Ok (JObj fields), w') /\
    dict_get fields "market_score" = Some (JStr "80") /\
    @py_float ext (JStr "80") = Ok 80%Q /\
    @AnalysisService._analyze_single_market ext df "USA" []
    = (Raise (Exn TypeError "invalid operation on a decoded value"), w').
Proof.
  intros ext df.
  destruct (dict_get MARKET_DATA "USA") as [ctx |] eqn:Hctx;
    [| discriminate Hctx].
  pose proof Hctx as Hctx'. vm_compute in Hctx'. injection Hctx' as <-.
  match type of Hctx with _ = Some ?c => set (entry := c) in * end.
  destruct (@GeminiService.generate_market_analysis ext df "USA" entry [])
    as [ra w'] eqn:Hai.
  pose proof Hai as Hai'. vm_compute in Hai'. injection Hai' as <- <-.
  do 3 eexists.
  split; [reflexivity |]. split; [reflexivity |].
  assert (Hscore : dict_get [("market_score", JStr "80");
                             ("demand_level", JStr "high")] "market_score"
                   = Some (JStr "80")) by reflexivity.
  split; [exact Hscore |]. split; [reflexivity |].
  exact (@string_score_fails_sub_task ext df "USA" _ [] _ _ "80"
           Hctx Hai Hscore).
Defined.

(** An empty object as the market response gives the defaults. *)
Lemma missing_numbers_take_defaults_example :
  let ext := TestDouble.scripted [Ok "{}"] in
  let df := TestDouble.sample_features 80 80 in
  exists ctx w' m,
    dict_get MARKET_DATA "India" = Some ctx /\
    @GeminiService.generate_market_analysis ext df "India" ctx []
    = (Ok (JObj []), w') /\
    @AnalysisService._analyze_single_market ext df "India" [] = (Ok m, w') /\
    (market_score m == 70)%Q /\
    estimated_monthly_sales m = 1000%Z /\
    demand_level m = JStr "medium" /\
    (price_min (price_range m) == 42 # 10)%Q.
Proof.
  intros ext df.
  destruct (dict_get MARKET_DATA "India") as [ctx |] eqn:Hctx;
    [| discriminate Hctx].
  pose proof Hctx as Hctx'. vm_compute in Hctx'. injection Hctx' as <-.
  match type of Hctx with _ = Some ?c => set (entry := c) in * end.
  destruct (@GeminiService.generate_market_analysis ext df "India" entry [])
    as [ra w'] eqn:Hai.
  pose proof Hai as Hai'. vm_compute in Hai'. injection Hai' as <- <-.
  destruct (@missing_numbers_take_defaults ext df "India" _ [] _ []
              Hctx Hai eq_refl eq_refl eq_refl) as (band & Hband & Hrun).
  do 3 eexists.
  split; [reflexivity |]. split; [reflexivity |].
  split; [exact Hrun |].
  simpl. repeat split; try reflexivity.
  vm_compute in Hband. injection Hband as <-. reflexivity.
Defined.

(** An empty object as the vision response gives the default features. *)
Lemma missing_design_scores_take_defaults_example :
  let ext := TestDouble.scripted [Ok "{}"] in
  let req :=
    Request "Analyze this t-shirt design image comprehensively."
      (Some ("image/jpeg", EmptyString)) in
  @generate_content ext [] req = Ok "{}" /\
  @GeminiService._parse_json_response ext "{}" = Ok (JObj []) /\
  @GeminiService.analyze_design_image ext TestDouble.jpeg_200 []
  = (Ok {| style_category := JStr "modern";
           color_palette := JArr [JStr "unknown"];
           design_complexity := JStr "moderate";
           target_demographic := JStr "millennials";
           theme_category := JStr "abstract";
           visual_appeal_score := 75;
           uniqueness_score := 70;
           brand_potential := JStr "medium";
           typography_quality := JNull;
           graphic_elements := JArr [] |}, [req]).
Proof.
  intros ext req.
  assert (Hc : @generate_content ext [] req = Ok "{}") by reflexivity.
  assert (Hp : @GeminiService._parse_json_response ext "{}" = Ok (JObj []))
    by (vm_compute; reflexivity).
  split; [exact Hc |]. split; [exact Hp |].
  exact (@missing_design_scores_take_defaults ext TestDouble.jpeg_200 []
           "{}" [] Hc Hp eq_refl eq_refl).
Defined.

(** ** Responses with white space, prose and open fences *)

Section ResponseTextFacts.

Import PyStr.

Local Arguments Ascii.eqb : simpl never.

Local Abbreviation fence := GeminiService.fence.
Local Abbreviation json_fence := GeminiService.json_fence.

Lemma lstrip_blank_app (pad s : string) :
  blank pad = true -> lstrip (pad ++ s) = lstrip s.
Proof.
  induction pad as [| c pad IH]; simpl; [reflexivity |].
  intros Hb. apply andb_true_iff in Hb as [Hc Hpad].
  rewrite Hc. apply IH, Hpad.
Qed.

Lemma lstrip_blank (pad : string) : blank pad = true -> lstrip pad = "".
Proof.
  induction pad as [| c pad IH]; simpl; [reflexivity |].
  intros Hb. apply andb_true_iff in Hb as [Hc Hpad].
  rewrite Hc. apply IH, Hpad.
Qed.

Lemma rstrip_blank (pad : string) : blank pad = true -> rstrip pad = "".
Proof.
  induction pad as [| c pad IH]; simpl; [reflexivity |].
  intros Hb. apply andb_true_iff in Hb as [Hc Hpad].
  rewrite (IH Hpad), Hc. reflexivity.
Qed.

Lemma rstrip_app_blank (s pad : string) :
  blank pad = true -> rstrip (s ++ pad) = rstrip s.
Proof.
  intros Hb. induction s as [| c s IH]; simpl.
  - apply rstrip_blank, Hb.
  - rewrite IH. reflexivity.
Qed.

Lemma lstrip_app_head (a b : string) (c : ascii) (r : string) :
  lstrip a = String c r -> lstrip (a ++ b) = lstrip a ++ b.
Proof.
  induction a as [| x a IH]; simpl; [discriminate |].
  destruct (isspace x); [exact IH | reflexivity].
Qed.

Lemma lstrip_app_mark (a b : string) (c : ascii) :
  isspace c = false ->
  lstrip (a ++ String c b) = lstrip a ++ String c b.
Proof.
  intros Hc. induction a as [| x a IH]; simpl.
  - rewrite Hc. reflexivity.
  - destruct (isspace x); [exact IH | reflexivity].
Qed.

Lemma rstrip_app_mark (a b : string) (c : ascii) :
  last_char a = Some c -> isspace c = false ->
  rstrip (a ++ b) = a ++ rstrip b.
Proof.
  intros Hlast Hc. induction a as [| x a IH]; [discriminate |].
  destruct a as [| y a].
  - simpl in Hlast. injection Hlast as ->. simpl.
    rewrite Hc. destruct (rstrip b); reflexivity.
  - change (rstrip (String x (String y a ++ b))
            = String x (String y a ++ rstrip b)).
    assert (IH' : rstrip (String y a ++ b) = String y a ++ rstrip b)
      by (apply IH; exact Hlast).
    change (rstrip (String x (String y a ++ b)))
      with (match rstrip (String y a ++ b) with
            | EmptyString =>
                if isspace x then EmptyString else String x EmptyString
            | r => String x r
            end).
    rewrite IH'. reflexivity.
Qed.

Lemma strip_padded (pad1 s pad2 : string) :
  blank pad1 = true -> blank pad2 = true ->
  strip (pad1 ++ s ++ pad2) = strip s.
Proof.
  intros H1 H2. unfold strip. rewrite (lstrip_blank_app _ _ H1).
  destruct (lstrip s) as [| c r] eqn:Hs.
  - assert (Hall : lstrip (s ++ pad2) = "").
    { clear H1. induction s as [| x s IH]; simpl in *.
      - apply lstrip_blank, H2.
      - destruct (isspace x); [apply IH, Hs | discriminate]. }
    rewrite Hall. reflexivity.
  - rewrite (lstrip_app_head s pad2 c r Hs), Hs.
    apply rstrip_app_blank, H2.
Qed.

Lemma last_char_app_fence (a : string) :
  last_char (a ++ fence) = Some "`"%char.
Proof.
  induction a as [| x a IH]; [reflexivity |].
  change (last_char (String x (a ++ fence)) = Some "`"%char).
  destruct (a ++ fence) eqn:Ha.
  - destruct a; discriminate.
  - exact IH.
Qed.

Lemma last_char_lstrip (s : string) (c : ascii) :
  last_char (lstrip s) = Some c -> last_char s = Some c.
Proof.
  induction s as [| x s IH]; simpl; [discriminate |].
  destruct (isspace x).
  - intros Hl. specialize (IH Hl). destruct s; [discriminate | exact IH].
  - intros Hl. exact Hl.
Qed.

Lemma fence_free_lstrip (s : string) :
  Spec.fence_free s -> Spec.fence_free (lstrip s).
Proof.
  intros [Hc Hl]. split.
  - apply contains_false, find_sub_lstrip, contains_false, Hc.
  - intros Hlast. apply Hl, last_char_lstrip, Hlast.
Qed.

(** A fence-free text holds no fence across its end either, whatever
    follows the fence after it. *)
Lemma fence_free_head_then (c : ascii) (j rest : string) :
  Spec.fence_free (String c j) ->
  startswith (String c j ++ fence ++ rest) fence = false.
Proof.
  intros [Hc Hl]. apply contains_false in Hc.
  apply find_sub_head in Hc.
  destruct j as [| c2 [| c3 j3]]; simpl in *.
  - destruct (Ascii.eqb_spec "`" c) as [Heq | _]; [| reflexivity].
    exfalso. apply Hl. rewrite Heq. reflexivity.
  - destruct (Ascii.eqb_spec "`" c2) as [Heq | _];
      [| destruct (Ascii.eqb "`" c); reflexivity].
    exfalso. apply Hl. rewrite Heq. reflexivity.
  - exact Hc.
Qed.

Lemma closing_fence_found_then (j rest : string) :
  Spec.fence_free j ->
  find_sub fence (j ++ fence ++ rest) = Some (String.length j).
Proof.
  induction j as [| c j IH]; intros Hfree.
  - reflexivity.
  - pose proof (fence_free_head_then _ _ rest Hfree) as Hh.
    change (find_sub fence (String c j ++ fence ++ rest))
      with (if startswith (String c j ++ fence ++ rest) fence then Some O
            else option_map S (find_sub fence (j ++ fence ++ rest))).
    rewrite Hh, (IH (fence_free_tail _ _ Hfree)). reflexivity.
Qed.

Lemma json_fence_found (h rest : string) :
  Spec.fence_free h ->
  find_sub json_fence (h ++ json_fence ++ rest) = Some (String.length h).
Proof.
  induction h as [| c h IH]; intros Hfree.
  - reflexivity.
  - pose proof (fence_free_head_then c h ("json" ++ rest) Hfree) as Hh.
    apply json_fence_weaken in Hh.
    change (find_sub json_fence (String c h ++ json_fence ++ rest))
      with (if startswith (String c h ++ fence ++ "json" ++ rest) json_fence
            then Some O
            else option_map S (find_sub json_fence
                                 (h ++ json_fence ++ rest))).
    rewrite Hh, (IH (fence_free_tail _ _ Hfree)). reflexivity.
Qed.

End ResponseTextFacts.

Section ResponseTextTheorems.
Context `{Externals}.

Import PyStr.

Local Abbreviation fence := GeminiService.fence.
Local Abbreviation json_fence := GeminiService.json_fence.

(** X12: white space around a response never changes how it is parsed. *)
Theorem parse_ignores_outer_white_space (pad1 response pad2 : string) :
  blank pad1 = true ->
  blank pad2 = true ->
  GeminiService._parse_json_response (pad1 ++ response ++ pad2)
  = GeminiService._parse_json_response response.
Proof.
  intros H1 H2.
  unfold GeminiService._parse_json_response,
    GeminiService.clean_response_text.
  rewrite (strip_padded pad1 response pad2 H1 H2). reflexivity.
Qed.

(** X13: prose around a json-fenced block is ignored: when neither the
    text before the block nor the block holds a fence or ends with a
    backtick, the response parses as the block alone does, whatever
    follows the closing fence. *)
Theorem parse_ignores_prose_around_block (before j after : string) :
  Spec.fence_free before ->
  Spec.fence_free j ->
  GeminiService._parse_json_response
    (before ++ "```json" ++ j ++ "```" ++ after)
  = GeminiService._parse_json_response j.
Proof.
  intros Hbefore Hj.
  unfold GeminiService._parse_json_response.
  rewrite (clean_bare j (proj1 Hj)).
  change "```" with fence. change "```json" with json_fence.
  unfold GeminiService.clean_response_text.
  set (h := lstrip before).
  set (t := rstrip after).
  assert (Hstrip : strip (before ++ json_fence ++ j ++ fence ++ after)
                   = h ++ json_fence ++ j ++ fence ++ t).
  { unfold strip.
    change (before ++ json_fence ++ j ++ fence ++ after)
      with (before ++ String "`" ("``json" ++ j ++ fence ++ after)).
    rewrite (lstrip_app_mark before _ "`") by reflexivity.
    fold h.
    replace (h ++ String "`" ("``json" ++ j ++ fence ++ after))
      with ((h ++ json_fence ++ j ++ fence) ++ after)
      by (rewrite !append_assoc'; reflexivity).
    rewrite (rstrip_app_mark _ after "`").
    - fold t. rewrite !append_assoc'. reflexivity.
    - replace (h ++ json_fence ++ j ++ fence)
        with ((h ++ json_fence ++ j) ++ fence)
        by (rewrite !append_assoc'; reflexivity).
      apply last_char_app_fence.
    - reflexivity. }
  rewrite Hstrip.
  set (text := h ++ json_fence ++ j ++ fence ++ t).
  pose proof (fence_free_lstrip before Hbefore) as Hh. fold h in Hh.
  assert (Hfound : find_sub json_fence text = Some (String.length h))
    by apply (json_fence_found h _ Hh).
  assert (Hlen : String.length text
                 = (String.length h + (7 + (String.length j
                                            + (3 + String.length t))))%nat).
  { unfold text. rewrite !length_app. reflexivity. }
  unfold contains. rewrite Hfound.
  assert (Hstart : find text json_fence 0 = Z.of_nat (String.length h)).
  { change 0%Z with (Z.of_nat 0).
    rewrite (find_inside text json_fence 0) by lia.
    change (drop 0 text) with text. rewrite Hfound. reflexivity. }
  rewrite Hstart.
  replace (Z.of_nat (String.length h) + 7)%Z
    with (Z.of_nat (String.length h + 7)) by lia.
  assert (Hdrop : drop (String.length h + 7) text = j ++ fence ++ t).
  { unfold text.
    replace (h ++ json_fence ++ j ++ fence ++ t)
      with ((h ++ json_fence) ++ j ++ fence ++ t)
      by (rewrite !append_assoc'; reflexivity).
    replace (String.length h + 7)%nat with (String.length (h ++ json_fence))
      by (rewrite length_app; reflexivity).
    apply drop_app. }
  assert (Hstop : find text fence (Z.of_nat (String.length h + 7))
                  = Z.of_nat (String.length h + 7 + String.length j)).
  { rewrite find_inside by lia.
    rewrite Hdrop, (closing_fence_found_then j t Hj). reflexivity. }
  rewrite Hstop.
  rewrite slice_inside by lia.
  rewrite Hdrop.
  replace (String.length h + 7 + String.length j - (String.length h + 7))%nat
    with (String.length j) by lia.
  rewrite take_app. reflexivity.
Qed.

Lemma unclosed_fence_payload (j : string) :
  contains fence j = false ->
  let body := rstrip j in
  GeminiService.clean_response_text ("```json" ++ j)
  = strip (take (String.length body - 1) body).
Proof.
  intros Hc body.
  change "```json" with json_fence.
  unfold GeminiService.clean_response_text.
  assert (Hstrip : strip (json_fence ++ j) = json_fence ++ body).
  { unfold strip.
    change (lstrip (json_fence ++ j)) with (json_fence ++ j).
    apply (rstrip_app_mark json_fence j "n"); reflexivity. }
  rewrite Hstrip.
  set (text := json_fence ++ body).
  assert (Hlen : String.length text = (7 + String.length body)%nat).
  { unfold text. rewrite length_app. reflexivity. }
  assert (Hin : contains json_fence text = true) by reflexivity.
  rewrite Hin.
  assert (Hstart : find text json_fence 0 = 0%Z).
  { change 0%Z with (Z.of_nat 0).
    rewrite (find_inside text json_fence 0) by lia. reflexivity. }
  rewrite Hstart.
  assert (Hnone : find_sub fence body = None).
  { apply contains_false in Hc.
    destruct (rstrip_prefix j) as [b Hb].
    apply (find_sub_prefix fence body b). fold body in Hb.
    rewrite <- Hb. exact Hc. }
  assert (Hstop : find text fence (0 + 7) = (-1)%Z).
  { change (0 + 7)%Z with (Z.of_nat 7).
    rewrite find_inside by lia.
    change (drop 7 text) with body. rewrite Hnone. reflexivity. }
  rewrite Hstop.
  unfold slice. rewrite Hlen.
  assert (Ha : norm_index (7 + String.length body) (0 + 7) = 7%nat).
  { rewrite norm_index_inside by lia. reflexivity. }
  assert (Hb : norm_index (7 + String.length body) (-1)
               = (6 + String.length body)%nat).
  { unfold norm_index. destruct (Z.ltb_spec (-1) 0); lia. }
  rewrite Ha, Hb.
  change (drop 7 text) with body.
  replace (6 + String.length body - 7)%nat with (String.length body - 1)%nat
    by lia.
  reflexivity.
Qed.

(** X14: a json fence that is opened and never closed costs the response
    its last character: the decoder gets the text after the fence without
    its trailing white space and without the character before that, so a
    JSON object sent this way is decoded without its closing brace. *)
Theorem unclosed_fence_drops_last_character (j : string) :
  contains fence j = false ->
  let body := rstrip j in
  GeminiService._parse_json_response ("```json" ++ j)
  = match json_loads (strip (take (String.length body - 1) body)) with
    | Some v => Ok v
    | None => Raise (Exn AIServiceError "Invalid JSON response from AI service")
    end.
Proof.
  intros Hc body.
  unfold GeminiService._parse_json_response.
  rewrite (unclosed_fence_payload j Hc). reflexivity.
Qed.

End ResponseTextTheorems.

(** A fenced object between blank lines parses as without them. *)
Lemma parse_ignores_outer_white_space_example :
  let ext := TestDouble.scripted [] in
  let pad := String "010" (String "009" " ") in
  let response := "```json" ++ TestDouble.padded_object ++ "```" in
  PyStr.blank pad = true /\
  @GeminiService._parse_json_response ext (pad ++ response ++ pad)
  = @GeminiService._parse_json_response ext response /\
  @GeminiService._parse_json_response ext response
  = Ok (JObj [("market_score", JNum 80)]).
Proof.
  intros ext pad response.
  assert (Hpad : PyStr.blank pad = true) by reflexivity.
  split; [exact Hpad |]. split.
  - exact (@parse_ignores_outer_white_space ext pad response pad Hpad Hpad).
  - vm_compute. reflexivity.
Defined.

(** A fenced object between two sentences parses as the object alone. *)
Lemma parse_ignores_prose_around_block_example :
  let ext := TestDouble.scripted [] in
  let j := TestDouble.padded_object in
  Spec.fence_free TestDouble.prose_before /\
  Spec.fence_free j /\
  @GeminiService._parse_json_response ext
    (TestDouble.prose_before ++ "```json" ++ j ++ "```"
     ++ TestDouble.prose_after)
  = @GeminiService._parse_json_response ext j /\
  @GeminiService._parse_json_response ext j
  = Ok (JObj [("market_score", JNum 80)]).
Proof.
  intros ext j.
  assert (Hb : Spec.fence_free TestDouble.prose_before).
  { split; [vm_compute; reflexivity | vm_compute; discriminate]. }
  assert (Hj : Spec.fence_free j).
  { split; [vm_compute; reflexivity | vm_compute; discriminate]. }
  split; [exact Hb |]. split; [exact Hj |]. split.
  - exact (@parse_ignores_prose_around_block ext TestDouble.prose_before j
             TestDouble.prose_after Hb Hj).
  - vm_compute. reflexivity.
Defined.

(** An object behind an open fence loses its closing brace and is
    refused, although the object alone is decoded. *)
Lemma unclosed_fence_drops_last_character_example :
  let ext := TestDouble.scripted [] in
  let j := TestDouble.padded_object in
  PyStr.contains "```" j = false /\
  PyStr.take (String.length (PyStr.rstrip j) - 1) (PyStr.rstrip j)
  = String "010" ("{" ++ TestDouble.quoted "market_score" ++ ": 80") /\
  @GeminiService._parse_json_response ext ("```json" ++ j)
  = Raise (Exn AIServiceError "Invalid JSON response from AI service") /\
  @GeminiService._parse_json_response ext j
  = Ok (JObj [("market_score", JNum 80)]).
Proof.
  intros ext j.
  assert (Hc : PyStr.contains "```" j = false) by (vm_compute; reflexivity).
  split; [exact Hc |].
  split; [vm_compute; reflexivity |].
  split; [| vm_compute; reflexivity].
  rewrite (@unclosed_fence_drops_last_character ext j Hc).
  vm_compute. reflexivity.
Defined.

(** ** The image preconditioner *)

Section ImageFacts.
Context `{Externals}.

Local Open Scope Q_scope.

(** Truncation never goes above an integer bound that is not negative. *)
Lemma trunc_le (x : Q) (z : Z) :
  (0 <= z)%Z -> x <= inject_Z z -> (PyNum.trunc x <= z)%Z.
Proof.
  intros Hz Hx. unfold PyNum.trunc.
  destruct x as [n d]. unfold Qle in Hx. simpl in Hx |- *.
  rewrite Z.mul_1_r in Hx.
  destruct (Z.le_gt_cases 0 n) as [Hn | Hn].
  - rewrite Z.quot_div_nonneg by lia.
    apply Z.div_le_upper_bound; lia.
  - assert (Hq : (Z.quot n (Z.pos d) <= 0)%Z).
    { replace n with (- (- n))%Z by lia.
      rewrite Z.quot_opp_l by lia.
      assert (0 <= Z.quot (- n) (Z.pos d))%Z by (apply Z.quot_pos; lia).
      lia. }
    lia.
Qed.

Lemma scaled_side_bounded (side longest max_dim : Z) :
  (side <= longest)%Z -> (0 <= max_dim < longest)%Z ->
  (PyNum.trunc (inject_Z side * (inject_Z max_dim / inject_Z longest))
   <= max_dim)%Z.
Proof.
  intros Hside Hmax. apply trunc_le; [lia |].
  assert (Hl : 0 < inject_Z longest).
  { change 0 with (inject_Z 0). rewrite <- Zlt_Qlt. lia. }
  assert (Hm : 0 <= inject_Z max_dim).
  { change 0 with (inject_Z 0). rewrite <- Zle_Qle. lia. }
  assert (Hs : inject_Z side <= inject_Z longest) by (rewrite <- Zle_Qle; lia).
  assert (Hr : 0 <= inject_Z max_dim / inject_Z longest).
  { apply Qle_shift_div_l; [exact Hl | lra]. }
  apply Qle_trans
    with (inject_Z longest * (inject_Z max_dim / inject_Z longest)).
  - apply Qmult_le_compat_r; assumption.
  - assert (Heq : inject_Z longest * (inject_Z max_dim / inject_Z longest)
                  == inject_Z max_dim) by (field; lra).
    rewrite Heq. apply Qle_refl.
Qed.

End ImageFacts.

Section ImageTheorems.
Context `{Externals}.

(** X15: [validate_image] answers [True] exactly when the payload is
    within the size limit, decodes, has one of the formats jpeg, jpg, png
    or webp in any letter case, and its longest side is at least 100; it
    never answers [False]. *)
Theorem validate_image_accepts_exactly (image_data : list byte)
    (filename : string) (b : bool) :
  ImageService.validate_image image_data filename = Ok b <->
  b = true /\
  (Z.of_nat (List.length image_data) <= max_file_size settings)%Z /\
  exists image f,
    Image_open image_data = Ok image /\
    img_format image = Some f /\
    existsb (String.eqb (PyStr.lower f)) ImageService.supported = true /\
    (100 <= Z.max (fst (img_size image)) (snd (img_size image)))%Z.
Proof.
  unfold ImageService.validate_image, ImageService.validate_image_body,
    rbind, runtime_error.
  split.
  - destruct (Z.ltb_spec (max_file_size settings)
                (Z.of_nat (List.length image_data))) as [Hbig | Hfit].
    { destruct (exn_class_eqb _ _); discriminate. }
    destruct (Image_open image_data) as [image | e] eqn:Hopen.
    2: { destruct (exn_class_eqb _ _); discriminate. }
    destruct (img_format image) as [f |] eqn:Hfmt.
    2: { destruct (exn_class_eqb _ _); discriminate. }
    destruct (existsb (String.eqb (PyStr.lower f)) ImageService.supported)
      eqn:Hsup.
    2: { simpl. discriminate. }
    simpl.
    destruct (Z.ltb_spec (Z.max (fst (img_size image)) (snd (img_size image)))
                100) as [Hsmall | Hok].
    { simpl. discriminate. }
    intros [= <-]. split; [reflexivity |]. split; [exact Hfit |].
    exists image, f. repeat split; try assumption; reflexivity.
  - intros (-> & Hfit & image & f & Hopen & Hfmt & Hsup & Hside).
    apply Z.ltb_ge in Hfit. rewrite Hfit, Hopen, Hfmt. cbv beta iota.
    rewrite Hsup. simpl.
    apply Z.ltb_ge in Hside. rewrite Hside. reflexivity.
Qed.

(** X16: when the codec resizes to the size it is asked for and the
    configured dimension is not negative, neither side of the size
    [process_image] reports exceeds the configured dimension. *)
Theorem processed_image_within_dimension (image_data processed : list byte)
    (width height : Z) :
  (forall image size image',
     Image_resize image size = Ok image' -> img_size image' = size) ->
  (0 <= max_image_dimension settings)%Z ->
  ImageService.process_image image_data = Ok (processed, (width, height)) ->
  (width <= max_image_dimension settings)%Z /\
  (height <= max_image_dimension settings)%Z.
Proof.
  intros Hresize Hmax.
  unfold ImageService.process_image, ImageService.process_image_body, rbind,
    runtime_error.
  destruct (Image_open image_data) as [image0 | e]; [| discriminate].
  destruct (if String.eqb (img_mode image0) "RGB" then Ok image0
            else Image_convert image0 "RGB") as [image | e];
    [| discriminate].
  destruct (Z.ltb_spec (max_image_dimension settings)
              (Z.max (fst (img_size image)) (snd (img_size image))))
    as [Hbig | Hfit].
  - destruct (Z.eqb_spec (Z.max (fst (img_size image)) (snd (img_size image)))
                0) as [Hzero | Hnz]; [discriminate |].
    destruct (Image_resize image _) as [image' | e] eqn:Hr; [| discriminate].
    destruct (Image_save_jpeg image') as [data | e]; [| discriminate].
    intros [= _ Hsize]. apply Hresize in Hr. rewrite Hsize in Hr.
    injection Hr as -> ->.
    split; apply scaled_side_bounded; lia.
  - destruct (Image_save_jpeg image) as [data | e]; [| discriminate].
    intros [= _ Hsize]. rewrite Hsize in Hfit. simpl in Hfit. lia.
Qed.

End ImageTheorems.

(** The 200 x 200 JPEG is accepted. *)
Lemma validate_image_accepts_exactly_example :
  let ext := TestDouble.scripted [] in
  let image :=
    {| img_format := Some "JPEG"; img_mode := "RGB";
       img_size := (200, 200)%Z |} in
  (Z.of_nat (List.length TestDouble.jpeg_200) <= @max_file_size
                                                    (@settings ext))%Z /\
  @Image_open ext TestDouble.jpeg_200 = Ok image /\
  existsb (String.eqb (PyStr.lower "JPEG")) ImageService.supported = true /\
  @ImageService.validate_image ext TestDouble.jpeg_200 "shirt.jpg" = Ok true.
Proof.
  intros ext image.
  assert (Hfit : (Z.of_nat (List.length TestDouble.jpeg_200)
                  <= @max_file_size (@settings ext))%Z)
    by (vm_compute; discriminate).
  assert (Hopen : @Image_open ext TestDouble.jpeg_200 = Ok image)
    by reflexivity.
  assert (Hsup : existsb (String.eqb (PyStr.lower "JPEG"))
                   ImageService.supported = true) by reflexivity.
  split; [exact Hfit |]. split; [exact Hopen |]. split; [exact Hsup |].
  apply (proj2 (@validate_image_accepts_exactly ext TestDouble.jpeg_200
                  "shirt.jpg" true)).
  split; [reflexivity |]. split; [exact Hfit |].
  exists image, "JPEG".
  split; [exact Hopen |]. split; [reflexivity |]. split; [exact Hsup |].
  simpl. lia.
Defined.

(** With a limit of 100 pixels the 200 x 120 JPEG comes out as 100 x 60. *)
Lemma processed_image_within_dimension_example :
  let ext := TestDouble.thumbnailer in
  (forall image size image',
     @Image_resize ext image size = Ok image' -> img_size image' = size) /\
  (0 <= @max_image_dimension (@settings ext))%Z /\
  @ImageService.process_image ext TestDouble.jpeg_200_120
  = Ok ([x4a; x64; x3c], (100, 60)%Z) /\
  (100 <= @max_image_dimension (@settings ext))%Z /\
  (60 <= @max_image_dimension (@settings ext))%Z.
Proof.
  intros ext.
  assert (Hresize : forall image size image',
            @Image_resize ext image size = Ok image' ->
            img_size image' = size).
  { intros image size image' Hr. injection Hr as <-. reflexivity. }
  assert (Hmax : (0 <= @max_image_dimension (@settings ext))%Z)
    by (vm_compute; discriminate).
  assert (Hrun : @ImageService.process_image ext TestDouble.jpeg_200_120
                 = Ok ([x4a; x64; x3c], (100, 60)%Z))
    by (vm_compute; reflexivity).
  split; [exact Hresize |]. split; [exact Hmax |]. split; [exact Hrun |].
  exact (@processed_image_within_dimension ext TestDouble.jpeg_200_120
           [x4a; x64; x3c] 100 60 Hresize Hmax Hrun).
Defined.

(** ** Trend alignment, demographic fit and the market opportunity *)

Section OpportunityFacts.
Context `{Externals}.

Local Open Scope Q_scope.

Lemma contains_empty (s : string) : PyStr.contains "" s = true.
Proof. destruct s; reflexivity. Qed.

(** Words that are strings never raise, and at most every text matches. *)
Lemma any_word_in_text (ws : list string) (text : string) :
  exists b, MarketService.any_word_in (map JStr ws) text = Ok b.
Proof.
  induction ws as [| w ws IH]; simpl; [eauto |].
  destruct (PyStr.contains w text); [eauto | exact IH].
Qed.

Lemma any_word_in_empty (ws : list string) (text : string) :
  MarketService.any_word_in (map JStr (ws ++ [EmptyString])) text = Ok true.
Proof.
  induction ws as [| w ws IH]; simpl.
  - rewrite contains_empty. reflexivity.
  - destruct (PyStr.contains w text); [reflexivity | exact IH].
Qed.

Lemma count_matches_text (ws texts : list string) :
  exists n, MarketService.count_matches (map JStr ws) texts = Ok n /\
            (n <= List.length texts)%nat.
Proof.
  induction texts as [| text texts [n [IH Hn]]]; simpl.
  - exists O. split; [reflexivity | lia].
  - destruct (any_word_in_text ws text) as [b ->]. rewrite IH. simpl.
    destruct b; eexists; (split; [reflexivity | lia]).
Qed.

Lemma count_matches_empty_word (ws texts : list string) :
  MarketService.count_matches (map JStr (ws ++ [EmptyString])) texts
  = Ok (List.length texts).
Proof.
  induction texts as [| text texts IH]; simpl; [reflexivity |].
  rewrite any_word_in_empty, IH. reflexivity.
Qed.

Lemma count_matches_no_word (texts : list string) :
  MarketService.count_matches [] texts = Ok O.
Proof.
  induction texts as [| text texts IH]; simpl; [reflexivity |].
  rewrite IH. reflexivity.
Qed.

Lemma boosted_share_empty (matches : nat) (boost : Q) :
  exists e, MarketService.boosted_share matches [] boost = Raise e /\
            exn_kind e = ZeroDivisionError.
Proof. eexists. split; reflexivity. Qed.

Lemma boosted_share_range (matches : nat) (texts : list string) (boost : Q) :
  texts <> [] -> (matches <= List.length texts)%nat -> 0 <= boost ->
  exists a,
    MarketService.boosted_share matches texts boost = Ok a /\
    0 <= a /\ a <= 1 /\
    (matches = O -> a == 0) /\
    (matches = List.length texts -> 1 <= boost -> a == 1).
Proof.
  intros Hne Hle Hboost.
  unfold MarketService.boosted_share.
  destruct texts as [| text texts]; [contradiction |].
  change (List.length (text :: texts) =? 0)%nat with false.
  cbv iota.
  set (len := List.length (text :: texts)) in *.
  assert (Hlen : 0 < inject_Z (Z.of_nat len)).
  { change 0 with (inject_Z 0). rewrite <- Zlt_Qlt. subst len. simpl. lia. }
  assert (Hm : 0 <= inject_Z (Z.of_nat matches)).
  { change 0 with (inject_Z 0). rewrite <- Zle_Qle. lia. }
  assert (Hshare : 0 <= inject_Z (Z.of_nat matches) / inject_Z (Z.of_nat len)).
  { apply Qle_shift_div_l; [exact Hlen | lra]. }
  eexists. split; [reflexivity |].
  split; [| split; [| split]].
  - apply py_min_glb; [lra |]. apply Qmult_le_0_compat; assumption.
  - apply py_min_le_l.
  - intros ->. rewrite py_min_Qmin.
    rewrite Q.min_r.
    + change (inject_Z (Z.of_nat 0)) with 0. field.
      intros Hz. rewrite Hz in Hlen. apply (Qlt_irrefl _ Hlen).
    + change (inject_Z (Z.of_nat 0)) with 0.
      setoid_replace (0 / inject_Z (Z.of_nat len) * boost) with 0;
        [lra |].
      field. intros Hz. rewrite Hz in Hlen. apply (Qlt_irrefl _ Hlen).
  - intros -> Hone. rewrite py_min_Qmin.
    apply Q.min_l.
    setoid_replace (inject_Z (Z.of_nat len) / inject_Z (Z.of_nat len) * boost)
      with boost; [exact Hone |].
    field. intros Hz. rewrite Hz in Hlen. apply (Qlt_irrefl _ Hlen).
Qed.

Lemma table_lists_not_empty (location : string) (entry : MarketEntry) :
  In (location, entry) MARKET_DATA ->
  trends entry <> [] /\ demographics entry <> [].
Proof.
  unfold MARKET_DATA. simpl.
  intros Hin.
  repeat (destruct Hin as [Hin | Hin];
          [injection Hin as _ <-; simpl; split; discriminate |]).
  contradiction.
Qed.

Lemma size_factor_range (size : string) :
  0 <= dict_get_default MarketService.size_factors size 1.
Proof.
  unfold dict_get_default, MarketService.size_factors. simpl.
  repeat match goal with
         | |- context [String.eqb size ?s] => destruct (String.eqb size s)
         end; discriminate.
Qed.

Lemma trend_alignment_facts (design_features : DesignFeatures)
    (local_trends : list string) (style theme : string) :
  style_category design_features = JStr style ->
  theme_category design_features = JStr theme ->
  local_trends <> [] ->
  exists a,
    MarketService._calculate_trend_alignment design_features local_trends
    = Ok a /\ 0 <= a /\ a <= 1 /\ (theme = EmptyString -> a == 1).
Proof.
  intros Hstyle Htheme Hne.
  unfold MarketService._calculate_trend_alignment.
  rewrite Hstyle, Htheme. simpl.
  change [JStr theme] with (map JStr [theme]).
  rewrite <- map_app.
  destruct (count_matches_text
              (dict_get_default MarketService.feature_trends style []
               ++ [theme]) local_trends) as [n [Hcount Hn]].
  rewrite Hcount. simpl.
  destruct (boosted_share_range n local_trends 2 Hne Hn)
    as [a [Ha [H0 [H1 [_ Hfull]]]]]; [lra |].
  exists a. repeat split; try assumption.
  intros ->. apply Hfull; [| lra].
  rewrite count_matches_empty_word in Hcount.
  injection Hcount as <-. reflexivity.
Qed.

Lemma demographic_fit_facts (design_features : DesignFeatures)
    (target_demographics : list string) (audience : string) :
  target_demographic design_features = JStr audience ->
  target_demographics <> [] ->
  exists a,
    MarketService._calculate_demographic_fit design_features
      target_demographics = Ok a /\
    0 <= a /\ a <= 1 /\
    (dict_mem MarketService.demo_map audience = false -> a == 0).
Proof.
  intros Haudience Hne.
  unfold MarketService._calculate_demographic_fit.
  rewrite Haudience. simpl.
  destruct (count_matches_text
              (dict_get_default MarketService.demo_map audience [])
              target_demographics) as [n [Hcount Hn]].
  rewrite Hcount. simpl.
  destruct (boosted_share_range n target_demographics (15 # 10) Hne Hn)
    as [a [Ha [H0 [H1 [Hnone _]]]]]; [lra |].
  exists a. repeat split; try assumption.
  intros Hmem. apply Hnone.
  assert (Hget : dict_get MarketService.demo_map audience = None).
  { unfold dict_mem in Hmem.
    destruct (dict_get _ _); [discriminate | reflexivity]. }
  rewrite (dict_get_default_missing _ _ _ Hget) in Hcount.
  simpl in Hcount. rewrite count_matches_no_word in Hcount.
  injection Hcount as <-. reflexivity.
Qed.

End OpportunityFacts.

Section OpportunityTheorems.
Context `{Externals}.

Local Open Scope Q_scope.

(** X17: for a design whose style and theme are strings,
    [_calculate_trend_alignment] raises [ZeroDivisionError] on an empty
    list of trends and otherwise answers a share between 0 and 1; a theme
    that is the empty string occurs in every trend and gives 1. *)
Theorem trend_alignment_range (design_features : DesignFeatures)
    (local_trends : list string) (style theme : string) :
  style_category design_features = JStr style ->
  theme_category design_features = JStr theme ->
  (local_trends = [] ->
   exists e,
     MarketService._calculate_trend_alignment design_features local_trends
     = Raise e /\ exn_kind e = ZeroDivisionError) /\
  (local_trends <> [] ->
   exists a,
     MarketService._calculate_trend_alignment design_features local_trends
     = Ok a /\ 0 <= a /\ a <= 1 /\ (theme = EmptyString -> a == 1)).
Proof.
  intros Hstyle Htheme. split.
  - intros ->.
    unfold MarketService._calculate_trend_alignment.
    rewrite Hstyle. simpl. apply boosted_share_empty.
  - intros Hne.
    exact (trend_alignment_facts design_features local_trends style theme
             Hstyle Htheme Hne).
Qed.

(** X18: for a design whose audience is a string,
    [_calculate_demographic_fit] answers a share between 0 and 1 for a
    list of demographics that is not empty, and 0 when the audience is not
    one of the four the function knows. *)
Theorem demographic_fit_range (design_features : DesignFeatures)
    (target_demographics : list string) (audience : string) :
  target_demographic design_features = JStr audience ->
  target_demographics <> [] ->
  exists a,
    MarketService._calculate_demographic_fit design_features
      target_demographics = Ok a /\
    0 <= a /\ a <= 1 /\
    (dict_mem MarketService.demo_map audience = false -> a == 0).
Proof.
  apply demographic_fit_facts.
Qed.

(** X19: for a location of the reference table and a design whose style,
    theme and audience are strings, [calculate_market_opportunity] answers,
    and its three scores lie between 0 and 100. *)
Theorem market_opportunity_range (design_features : DesignFeatures)
    (location style theme audience : string) :
  style_category design_features = JStr style ->
  theme_category design_features = JStr theme ->
  target_demographic design_features = JStr audience ->
  dict_mem MARKET_DATA location = true ->
  exists opportunity,
    MarketService.calculate_market_opportunity design_features location
    = Ok opportunity /\
    0 <= MarketService.opportunity_score opportunity <= 100 /\
    0 <= MarketService.mo_trend_alignment opportunity <= 100 /\
    0 <= MarketService.mo_demographic_fit opportunity <= 100.
Proof.
  intros Hstyle Htheme Haudience Hmem.
  destruct (dict_mem_get _ _ Hmem) as [entry Hentry].
  destruct (table_lists_not_empty location entry (dict_get_In _ _ _ Hentry))
    as [Htrends Hdemos].
  destruct (trend_alignment_facts design_features (trends entry) style theme
              Hstyle Htheme Htrends) as [ta [Hta [Hta0 Hta1]]].
  destruct (demographic_fit_facts design_features (demographics entry)
              audience Haudience Hdemos) as [fit [Hfit [Hfit0 [Hfit1 _]]]].
  unfold MarketService.calculate_market_opportunity, dict_index.
  rewrite Hentry. simpl. rewrite Hta. simpl. rewrite Hfit. simpl.
  eexists. split; [reflexivity |]. simpl.
  pose proof (size_factor_range (market_size entry)) as Hsize.
  repeat split.
  - apply round_nonneg. apply py_min_glb; [lra |].
    apply Qmult_le_0_compat; [| lra].
    apply Qmult_le_0_compat; [| exact Hsize].
    assert (0 <= ta * (4 # 10)) by (apply Qmult_le_0_compat; lra).
    assert (0 <= fit * (4 # 10)) by (apply Qmult_le_0_compat; lra).
    lra.
  - apply (round_le_Z _ 100 1). apply py_min_le_l.
  - apply round_nonneg. apply Qmult_le_0_compat; lra.
  - apply (round_le_Z _ 100 1). change (inject_Z 100) with (1 * 100).
    apply Qmult_le_compat_r; lra.
  - apply round_nonneg. apply Qmult_le_0_compat; lra.
  - apply (round_le_Z _ 100 1). change (inject_Z 100) with (1 * 100).
    apply Qmult_le_compat_r; lra.
Qed.

End OpportunityTheorems.

(** A vintage design with a retro theme matches one of the four trends of
    the USA: the alignment is a half. *)
Lemma trend_alignment_range_example :
  let ext := TestDouble.scripted [] in
  let df := TestDouble.styled_features "vintage" "retro" "gen_z" in
  let usa_trends := ["sustainability"; "minimalism"; "vintage"; "streetwear"] in
  style_category df = JStr "vintage" /\
  theme_category df = JStr "retro" /\
  exists a,
    @MarketService._calculate_trend_alignment ext df usa_trends = Ok a /\
    (a == 1 # 2)%Q.
Proof.
  intros ext df usa_trends.
  split; [reflexivity |]. split; [reflexivity |].
  destruct (proj2 (@trend_alignment_range ext df usa_trends "vintage" "retro"
                     eq_refl eq_refl)) as [a [Ha _]]; [discriminate |].
  exists a. split; [exact Ha |].
  pose proof Ha as Ha'. vm_compute in Ha'. injection Ha' as <-.
  reflexivity.
Defined.

(** An audience the function does not know fits no market. *)
Lemma demographic_fit_range_example :
  let ext := TestDouble.scripted [] in
  let df := TestDouble.styled_features "vintage" "retro" "baby_boomers" in
  let usa_demographics := ["gen_z"; "millennials"; "gen_x"] in
  target_demographic df = JStr "baby_boomers" /\
  usa_demographics <> [] /\
  exists a,
    @MarketService._calculate_demographic_fit ext df usa_demographics = Ok a /\
    (a == 0)%Q.
Proof.
  intros ext df usa_demographics.
  assert (Hne : usa_demographics <> []) by discriminate.
  split; [reflexivity |]. split; [exact Hne |].
  destruct (@demographic_fit_range ext df usa_demographics "baby_boomers"
              eq_refl Hne) as [a [Ha [_ [_ Hzero]]]].
  exists a. split; [exact Ha |]. apply Hzero. reflexivity.
Defined.

(** The vintage design for generation Z scores 44 in the USA. *)
Lemma market_opportunity_range_example :
  let ext := TestDouble.scripted [] in
  let df := TestDouble.styled_features "vintage" "retro" "gen_z" in
  style_category df = JStr "vintage" /\
  theme_category df = JStr "retro" /\
  target_demographic df = JStr "gen_z" /\
  dict_mem MARKET_DATA "USA" = true /\
  exists opportunity,
    @MarketService.calculate_market_opportunity ext df "USA" = Ok opportunity /\
    (MarketService.opportunity_score opportunity == 44)%Q /\
    (MarketService.opportunity_score opportunity <= 100)%Q.
Proof.
  intros ext df.
  repeat (split; [reflexivity |]).
  destruct (@market_opportunity_range ext df "USA" "vintage" "retro" "gen_z"
              eq_refl eq_refl eq_refl eq_refl)
    as [opportunity [Hrun [[_ Hle] _]]].
  exists opportunity. split; [exact Hrun |]. split; [| exact Hle].
  pose proof Hrun as Hrun'. vm_compute in Hrun'. injection Hrun' as <-.
  reflexivity.
Defined.

(** ** The routes *)

Section RouteFacts.
Context `{Externals}.

Local Open Scope py_scope.

(** What the loop of [analyze_batch_designs] adds to its accumulators. *)
Lemma batch_loop_adds (files : list Routes.UploadFile)
    (location_list : list string)
    (results : list (option string * AnalysisResult)) (errors : list string)
    (successful : Z) (w : ai_log) :
  exists new_results new_errors w',
    Routes.batch_loop files location_list results errors successful w
    = (((results ++ new_results)%list, (errors ++ new_errors)%list,
        (successful + Z.of_nat (List.length new_results))%Z), w') /\
    (List.length new_results + List.length new_errors
     = List.length files)%nat /\
    Spec.subsequence (map fst new_results) (map Routes.filename files).
Proof.
  revert results errors successful w.
  induction files as [| file files IH]; intros results errors successful w.
  - exists [], [], w. simpl. rewrite !app_nil_r, Z.add_0_r.
    split; [reflexivity |]. split; [reflexivity | constructor].
  - simpl.
    destruct (bind (lift (Routes.file_read file)) _ w) as [[r | e] w1].
    + match goal with
      | |- context [Routes.batch_loop files location_list ?rs0 ?es0 ?n0 ?w0] =>
          destruct (IH rs0 es0 n0 w0) as (rs & es & w' & Hloop & Hlen & Hsub)
      end.
      exists ((Routes.filename file, r) :: rs), es, w'.
      rewrite Hloop, <- app_assoc. simpl.
      split; [f_equal; f_equal; lia |].
      split; [lia | apply Spec.sub_keep; exact Hsub].
    + match goal with
      | |- context [Routes.batch_loop files location_list ?rs0 (_ ++ [?msg]) ?n0 ?w0] =>
          destruct (IH rs0 (errors ++ [msg])%list n0 w0)
            as (rs & es & w' & Hloop & Hlen & Hsub);
          exists rs, (msg :: es), w'
      end.
      rewrite Hloop, <- app_assoc. simpl.
      split; [reflexivity |].
      split; [lia | apply Spec.sub_skip; exact Hsub].
Qed.

Lemma insights_known (location : string) :
  dict_mem MARKET_DATA location = true ->
  exists insights,
    MarketService.get_market_insights location = Ok insights /\
    MarketService.mi_location insights = location /\
    dict_get MARKET_DATA location
    = Some {| base_price_range := MarketService.mi_base_price_range insights;
              market_size := MarketService.mi_market_size insights;
              currency := MarketService.mi_currency insights;
              trends := MarketService.mi_key_trends insights;
              demographics := MarketService.mi_target_demographics insights;
              seasonal_peaks := MarketService.mi_seasonal_peaks insights;
              competition_level :=
                MarketService.mi_competition_level insights;
              market_maturity := MarketService.mi_market_maturity insights |}.
Proof.
  intros Hmem.
  destruct (dict_mem_get _ _ Hmem) as [[] Hentry].
  unfold MarketService.get_market_insights, dict_index.
  rewrite Hmem, Hentry.
  eexists. split; [reflexivity |].
  split; reflexivity.
Qed.

Lemma insights_unknown (location : string) :
  dict_mem MARKET_DATA location = false ->
  MarketService.get_market_insights location
  = Raise (Exn ValueError ("Location " ++ location ++ " not supported")).
Proof.
  intros Hmem. unfold MarketService.get_market_insights.
  rewrite Hmem. reflexivity.
Qed.

End RouteFacts.

Section RouteTheorems.
Context `{Externals}.

Local Open Scope py_scope.

(** X20: once the upload has been read, [analyze_single_design] either
    responds with [success] set and the result of the pipeline as data,
    or aborts with status 400 and the detail "Analysis pipeline failed: "
    followed by the message of what stopped the pipeline; it never answers
    500. *)
Theorem single_design_responds_or_400 (file : Routes.UploadFile)
    (locations : string) (image_data : list byte) (w : ai_log) :
  Routes.file_read file = Ok image_data ->
  let location_list := Routes.parse_locations locations in
  let name := Routes.filename_or_default file in
  (exists r w',
     AnalysisService.analyze_tshirt_design image_data location_list name w
     = (Ok r, w') /\
     Routes.analyze_single_design file locations w
     = (Routes.Respond
          {| Routes.success := true; Routes.data := Some r;
             Routes.error := None; Routes.processing_time := None |}, w')) \/
  (exists cause w',
     AnalysisService.analyze_tshirt_design_body image_data location_list
       name w
     = (Raise cause, w') /\
     Routes.analyze_single_design file locations w
     = (Routes.Abort
          {| Routes.status_code := 400;
             Routes.detail :=
               "Analysis pipeline failed: " ++ exn_msg cause |}, w')).
Proof.
  intros Hread location_list name.
  unfold Routes.analyze_single_design, bind, lift, ret.
  rewrite Hread. fold location_list. fold name.
  destruct (AnalysisService.analyze_tshirt_design_body image_data
              location_list name w) as [[r | cause] w'] eqn:Hbody.
  - left. exists r, w'.
    assert (Hrun : AnalysisService.analyze_tshirt_design image_data
                     location_list name w = (Ok r, w')).
    { unfold AnalysisService.analyze_tshirt_design, try_except.
      rewrite Hbody. reflexivity. }
    rewrite Hrun. split; reflexivity.
  - right. exists cause, w'.
    rewrite (pipeline_wraps _ _ _ _ _ _ Hbody).
    split; reflexivity.
Qed.

(** X21: the counts of [analyze_batch_designs] add up: [total_processed]
    is the number of files, [successful] the number of results, [failed]
    the number of error messages, and the results name their files in the
    order of the upload. *)
Theorem batch_counts_add_up (files : list Routes.UploadFile)
    (locations : string) (w : ai_log) :
  let response := fst (Routes.analyze_batch_designs files locations w) in
  Routes.total_processed response = Z.of_nat (List.length files) /\
  Routes.successful response
  = Z.of_nat (List.length (Routes.results response)) /\
  Routes.failed response = Z.of_nat (List.length (Routes.errors response)) /\
  Spec.subsequence (map fst (Routes.results response))
    (map Routes.filename files).
Proof.
  unfold Routes.analyze_batch_designs.
  destruct (batch_loop_adds files (Routes.parse_locations locations) [] []
              0%Z w) as (rs & es & w' & Hloop & Hlen & Hsub).
  rewrite Hloop. simpl.
  split; [reflexivity |].
  split; [reflexivity |].
  split; [lia | exact Hsub].
Qed.

(** X22: [compare_markets] responds exactly when both locations are in
    the reference table; otherwise it aborts with status 404 and the
    detail names the first of the two that is unknown.  No exception
    escapes the route. *)
Theorem compare_markets_outcome (loc1 loc2 : string) :
  match Routes.compare_markets loc1 loc2 with
  | Routes.Respond comparison =>
      dict_mem MARKET_DATA loc1 = true /\
      dict_mem MARKET_DATA loc2 = true /\
      MarketService.mi_location (Routes.location1 comparison) = loc1 /\
      MarketService.mi_location (Routes.location2 comparison) = loc2
  | Routes.Abort e =>
      let unknown := if dict_mem MARKET_DATA loc1 then loc2 else loc1 in
      dict_mem MARKET_DATA unknown = false /\
      Routes.status_code e = 404%Z /\
      Routes.detail e = "Location " ++ unknown ++ " not supported"
  | Routes.Uncaught _ => False
  end.
Proof.
  unfold Routes.compare_markets.
  destruct (dict_mem MARKET_DATA loc1) eqn:H1.
  - destruct (insights_known loc1 H1) as (i1 & Hi1 & Hl1 & _).
    rewrite Hi1. simpl.
    destruct (dict_mem MARKET_DATA loc2) eqn:H2.
    + destruct (insights_known loc2 H2) as (i2 & Hi2 & Hl2 & _).
      rewrite Hi2. simpl. repeat split; assumption.
    + rewrite (insights_unknown loc2 H2). simpl.
      repeat split; assumption.
  - rewrite (insights_unknown loc1 H1). simpl.
    repeat split; assumption.
Qed.

(** X23: comparing two markets the other way round swaps the two sides
    and negates both price differences. *)
Theorem compare_markets_antisymmetric (loc1 loc2 : string)
    (comparison : Routes.MarketComparison) :
  Routes.compare_markets loc1 loc2 = Routes.Respond comparison ->
  exists swapped,
    Routes.compare_markets loc2 loc1 = Routes.Respond swapped /\
    Routes.location1 swapped = Routes.location2 comparison /\
    Routes.location2 swapped = Routes.location1 comparison /\
    Routes.diff_min (Routes.price_difference swapped)
    = (- Routes.diff_min (Routes.price_difference comparison))%Z /\
    Routes.diff_max (Routes.price_difference swapped)
    = (- Routes.diff_max (Routes.price_difference comparison))%Z.
Proof.
  unfold Routes.compare_markets.
  destruct (MarketService.get_market_insights loc1) as [i1 | e1] eqn:Hi1.
  2: { simpl. destruct (Routes.is_value_error _); discriminate. }
  destruct (MarketService.get_market_insights loc2) as [i2 | e2] eqn:Hi2.
  2: { simpl. destruct (Routes.is_value_error _); discriminate. }
  simpl. intros [= <-].
  eexists. split; [reflexivity |]. simpl.
  repeat split; lia.
Qed.

End RouteTheorems.

(** An upload of the 200 x 200 JPEG for "USA, Mars" is answered with the
    analysis of the one known market. *)
Lemma single_design_responds_or_400_example :
  let ext := TestDouble.scripted TestDouble.one_market_script in
  let file :=
    {| Routes.filename := Some "shirt.jpg";
       Routes.file_read := Ok TestDouble.jpeg_200 |} in
  Routes.file_read file = Ok TestDouble.jpeg_200 /\
  exists response w',
    @Routes.analyze_single_design ext file "USA, Mars" []
    = (Routes.Respond response, w') /\
    Routes.success response = true /\
    option_map (fun r => map location (market_analysis r))
      (Routes.data response) = Some ["USA"].
Proof.
  intros ext file.
  split; [reflexivity |].
  destruct (@single_design_responds_or_400 ext file "USA, Mars"
              TestDouble.jpeg_200 [] eq_refl)
    as [(r & w' & Hrun & Hroute) | (cause & w' & Hbody & _)].
  - eexists. exists w'. split; [exact Hroute |].
    split; [reflexivity |]. simpl.
    vm_compute in Hrun. injection Hrun as <- _. reflexivity.
  - vm_compute in Hbody. discriminate Hbody.
Defined.

(** The difference between the USA and India, both ways round. *)
Lemma compare_markets_antisymmetric_example :
  let ext := TestDouble.scripted [] in
  exists comparison swapped,
    @Routes.compare_markets ext "USA" "India" = Routes.Respond comparison /\
    @Routes.compare_markets ext "India" "USA" = Routes.Respond swapped /\
    Routes.diff_min (Routes.price_difference comparison) = (-10)%Z /\
    Routes.diff_min (Routes.price_difference swapped) = 10%Z /\
    Routes.diff_max (Routes.price_difference swapped) = 20%Z.
Proof.
  intros ext.
  destruct (@Routes.compare_markets ext "USA" "India")
    as [comparison | e | e] eqn:Hrun;
    [| vm_compute in Hrun; discriminate Hrun
     | vm_compute in Hrun; discriminate Hrun].
  destruct (@compare_markets_antisymmetric ext "USA" "India" comparison Hrun)
    as (swapped & Hswap & _ & _ & Hmin & Hmax).
  exists comparison, swapped.
  split; [reflexivity |]. split; [exact Hswap |].
  vm_compute in Hrun. injection Hrun as <-.
  split; [reflexivity |]. split; [exact Hmin | exact Hmax].
Defined.

(** ** The location validator *)

Section ValidatorFacts.

Lemma upper_char_idempotent (c : ascii) :
  PyStr.upper_char (PyStr.upper_char c) = PyStr.upper_char c.
Proof. destruct c as [[] [] [] [] [] [] [] []]; reflexivity. Qed.

Lemma upper_idempotent (s : string) : PyStr.upper (PyStr.upper s) = PyStr.upper s.
Proof.
  induction s as [| c s IH]; simpl; [reflexivity |].
  rewrite upper_char_idempotent, IH. reflexivity.
Qed.

(** Of the keys of the reference table only "USA" and "UK" are in upper
    case, so only they can be what [upper] returns. *)
Lemma upper_case_keys (s : string) :
  dict_mem MARKET_DATA (PyStr.upper s) = true ->
  PyStr.upper s = "USA" \/ PyStr.upper s = "UK".
Proof.
  pose proof (upper_idempotent s) as Hid.
  remember (PyStr.upper s) as u eqn:Hu. clear Hu.
  unfold dict_mem, MARKET_DATA. simpl.
  destruct (String.eqb_spec u "USA") as [-> | _]; [left; reflexivity |].
  destruct (String.eqb_spec u "India") as [-> | _]; [discriminate Hid |].
  destruct (String.eqb_spec u "UK") as [-> | _]; [right; reflexivity |].
  destruct (String.eqb_spec u "Germany") as [-> | _]; [discriminate Hid |].
  destruct (String.eqb_spec u "Japan") as [-> | _]; [discriminate Hid |].
  destruct (String.eqb_spec u "Brazil") as [-> | _]; [discriminate Hid |].
  destruct (String.eqb_spec u "Australia") as [-> | _]; [discriminate Hid |].
  destruct (String.eqb_spec u "Canada") as [-> | _]; [discriminate Hid |].
  discriminate.
Qed.

(** The loop finds nothing invalid exactly when every cleaned location is
    a key of the table. *)
Lemma partition_all_valid (locations valid : list string) :
  Validators.partition_locations locations = (valid, []) <->
  valid = map (fun l => PyStr.upper (PyStr.strip l)) locations /\
  Forall (fun v => dict_mem MARKET_DATA v = true) valid.
Proof.
  revert valid.
  induction locations as [| l rest IH]; intros valid; simpl.
  - split.
    + intros [= <-]. split; [reflexivity | constructor].
    + intros [-> _]. reflexivity.
  - destruct (Validators.partition_locations rest) as [vs invalid].
    destruct (dict_mem MARKET_DATA (PyStr.upper (PyStr.strip l))) eqn:Hmem.
    + split.
      * intros [= <- ->].
        destruct (proj1 (IH vs) eq_refl) as [Hvs Hall].
        split; [f_equal; exact Hvs | constructor; assumption].
      * intros [-> Hall]. inversion Hall as [| v vs' _ Hrest]; subst.
        assert (Hpart : (vs, invalid)
                        = (map (fun l => PyStr.upper (PyStr.strip l)) rest,
                           @nil string)).
        { apply (proj2 (IH _)). split; [reflexivity | exact Hrest]. }
        injection Hpart as -> ->. reflexivity.
    + split.
      * discriminate.
      * intros [-> Hall]. inversion Hall as [| v vs' Hv _]; subst.
        rewrite Hmem in Hv. discriminate.
Qed.

End ValidatorFacts.

Section ValidatorTheorems.

Variable list_repr : list string -> string.

(** X24: on ASCII text [validate_locations] accepts a request exactly
    when it is not empty and every location, stripped and in upper case,
    is "USA" or "UK", and it returns the cleaned locations in the order of
    the request.  The other keys of the reference table are written in
    mixed case, so no spelling of them is accepted. *)
Theorem validate_locations_accepts_exactly (locations valid : list string) :
  forallb PyStr.is_ascii locations = true ->
  Validators.validate_locations list_repr locations = Ok valid <->
  locations <> [] /\
  valid = map (fun l => PyStr.upper (PyStr.strip l)) locations /\
  Forall (fun v => v = "USA" \/ v = "UK") valid.
Proof.
  intros _.
  unfold Validators.validate_locations.
  destruct (Validators.partition_locations locations) as [vs invalid] eqn:Hp.
  split.
  - destruct invalid as [| i invalid]; [| discriminate].
    destruct (proj1 (partition_all_valid locations vs) Hp) as [Hvs Hall].
    destruct vs as [| v vs]; [discriminate |].
    intros [= <-].
    split; [| split].
    + intros ->. discriminate Hvs.
    + exact Hvs.
    + rewrite Hvs in Hall |- *.
      apply Forall_map in Hall. apply Forall_map.
      apply (Forall_impl _ (fun l => upper_case_keys (PyStr.strip l)) Hall).
  - intros [Hne [Hvalid Hall]].
    assert (Hmem : Forall (fun v => dict_mem MARKET_DATA v = true) valid).
    { apply (Forall_impl _ (P := fun v => v = "USA" \/ v = "UK")); [| exact Hall].
      intros v [-> | ->]; reflexivity. }
    pose proof (proj2 (partition_all_valid locations valid)
                  (conj Hvalid Hmem)) as Hp'.
    rewrite Hp in Hp'. injection Hp' as -> ->.
    destruct valid as [| v valid]; [| reflexivity].
    destruct locations; [contradiction | discriminate Hvalid].
Qed.

End ValidatorTheorems.

(** " usa " and "uk" are accepted as "USA" and "UK". *)
Lemma validate_locations_accepts_exactly_example :
  forallb PyStr.is_ascii [" usa "; "uk"] = true /\
  Validators.validate_locations (PyStr.join ", ") [" usa "; "uk"]
  = Ok ["USA"; "UK"].
Proof.
  split; [reflexivity |].
  apply (proj2 (validate_locations_accepts_exactly (PyStr.join ", ")
                  [" usa "; "uk"] ["USA"; "UK"] eq_refl)).
  split; [discriminate |]. split; [reflexivity |].
  constructor; [left; reflexivity |].
  constructor; [right; reflexivity | constructor].
Defined.
